(** * CFO forecast: pattern review and cash-flow spreadsheet

    A shallow embedding of the decision logic of the forecast web
    application:

    - [analyzePattern] of [app/dashboard/[clientId]/pattern-review/page.tsx]
      and its twin in [pattern-review-v2/page.tsx];
    - the [rowData] computation of [components/ForecastSpreadsheet.tsx];
    - the forecast-record store behind the spreadsheet's
      [cell-update] and [generate] requests.

    JavaScript numbers are embedded as exact rationals extended with the
    IEEE special values [NaN], [+Infinity] and [-Infinity]: binary rounding,
    overflow and the sign of zero are not represented. *)

From Stdlib Require Import ZArith QArith Qcanon Qcabs Qround Ascii String Lia Lqa.
From stdpp Require Import gmap strings list pretty.
From stdpp Require Import sorting.

Local Open Scope Z_scope.

(** ** JavaScript numbers *)

Module JS.

Inductive number : Type :=
| Num (q : Qc)
| PosInf
| NegInf
| NaN.

Definition of_Z (z : Z) : number := Num (Qc_of_Z z).
Definition of_nat (n : nat) : number := of_Z (Z.of_nat n).
Definition of_Q (q : Q) : number := Num (Q2Qc q).

(** Sign of a rational: [-1], [0] or [1]. *)
Definition Qc_sgn (q : Qc) : Z := Z.sgn (Qnum (this q)).

Definition Qc_leb (p q : Qc) : bool := Qle_bool (this p) (this q).
Definition Qc_eqb (p q : Qc) : bool := Qeq_bool (this p) (this q).

Definition neg (a : number) : number :=
  match a with
  | Num q => Num (- q)%Qc
  | PosInf => NegInf
  | NegInf => PosInf
  | NaN => NaN
  end.

(** [a + b] *)
Definition add (a b : number) : number :=
  match a, b with
  | NaN, _ | _, NaN => NaN
  | Num p, Num q => Num (p + q)%Qc
  | PosInf, NegInf | NegInf, PosInf => NaN
  | PosInf, _ | _, PosInf => PosInf
  | NegInf, _ | _, NegInf => NegInf
  end.

(** [a - b] *)
Definition sub (a b : number) : number := add a (neg b).

(** The infinity of the given sign; a zero sign has no infinity. *)
Definition inf_of_sgn (s : Z) : number :=
  match s with
  | Z0 => NaN
  | Zpos _ => PosInf
  | Zneg _ => NegInf
  end.

Definition sgn (a : number) : option Z :=
  match a with
  | Num q => Some (Qc_sgn q)
  | PosInf => Some 1
  | NegInf => Some (-1)
  | NaN => None
  end.

(** [a * b] *)
Definition mul (a b : number) : number :=
  match a, b with
  | Num p, Num q => Num (p * q)%Qc
  | NaN, _ | _, NaN => NaN
  | _, _ =>
      match sgn a, sgn b with
      | Some s, Some t => inf_of_sgn (s * t)
      | _, _ => NaN
      end
  end.

(** [a / b]; a zero divisor is the positive zero. *)
Definition div (a b : number) : number :=
  match a, b with
  | NaN, _ | _, NaN => NaN
  | Num p, Num q =>
      if Qc_eqb q 0 then inf_of_sgn (Qc_sgn p) else Num (p / q)%Qc
  | Num _, _ => Num 0%Qc
  | _, Num q => if Qc_eqb q 0 then a else inf_of_sgn
                  (match a with PosInf => Qc_sgn q | _ => - Qc_sgn q end)
  | _, _ => NaN
  end.

(** [a <= b]; every comparison with [NaN] is false. *)
Definition leb (a b : number) : bool :=
  match a, b with
  | NaN, _ | _, NaN => false
  | Num p, Num q => Qc_leb p q
  | NegInf, _ | _, PosInf => true
  | _, _ => false
  end.

(** [a >= b] *)
Definition geb (a b : number) : bool := leb b a.

(** [Math.abs] *)
Definition Math_abs (a : number) : number :=
  match a with
  | Num q => Num (Qcabs q)
  | PosInf | NegInf => PosInf
  | NaN => NaN
  end.

(** [Math.max] and [Math.min] on two arguments: [NaN] if either is. *)
Definition Math_max (a b : number) : number :=
  match a, b with
  | NaN, _ | _, NaN => NaN
  | _, _ => if leb a b then b else a
  end.

Definition Math_min (a b : number) : number :=
  match a, b with
  | NaN, _ | _, NaN => NaN
  | _, _ => if leb a b then a else b
  end.

(** [Math.round]: the nearest integer, ties towards [+Infinity]. *)
Definition Math_round (a : number) : number :=
  match a with
  | Num q => of_Z (Qfloor (this q + (1 # 2)))
  | _ => a
  end.

(** Truthiness of a number: [0] and [NaN] are falsy. *)
Definition truthy (a : number) : bool :=
  match a with
  | Num q => negb (Qc_eqb q 0)
  | NaN => false
  | _ => true
  end.

(** [a || b] for a possibly [undefined] number [a]. *)
Definition or_else (a : option number) (b : number) : number :=
  match a with
  | Some x => if truthy x then x else b
  | None => b
  end.

(** [ToNumber] of a possibly [undefined] value, as [+] applies it. *)
Definition to_number (a : option number) : number :=
  match a with
  | Some x => x
  | None => NaN
  end.

(** [xs.reduce((a, b) => a + b, 0)] *)
Definition sum (xs : list number) : number :=
  fold_left add xs (of_Z 0).

Definition eqb (a b : number) : bool :=
  match a, b with
  | Num p, Num q => Qc_eqb p q
  | PosInf, PosInf | NegInf, NegInf | NaN, NaN => true
  | _, _ => false
  end.

Definition is_finite (a : number) : Prop :=
  match a with Num _ => True | _ => False end.

Global Instance is_finite_dec (a : number) : Decision (is_finite a).
Proof. destruct a; simpl; apply _. Defined.

(** The rational value of a finite number. *)
Definition finite_part (a : number) : Qc :=
  match a with Num q => q | _ => 0%Qc end.

End JS.

Import JS.

(** ** JavaScript dates

    A [Date] object is its time value: milliseconds since the epoch, or
    nothing for an [Invalid Date]. *)

Module JSDate.

Definition msPerDay : Z := 1000 * 60 * 60 * 24.

Definition Date : Type := option Z.

(** [TimeClip]: the time values a [Date] can hold. *)
Definition TimeClip (t : Z) : Date :=
  if Z.abs t <=? 8640000000000000 then Some t else None.

(** Truncation towards zero ([ToIntegerOrInfinity]). *)
Definition Qc_trunc (q : Qc) : Z :=
  if Qc_leb 0 q then Qfloor (this q) else Qceiling (this q).

(** [new Date(n)] on a number. *)
Definition Date_of_number (n : number) : Date :=
  match n with
  | Num q =>
      if Qc_leb (Qcabs q) (Qc_of_Z 8640000000000000)
      then Some (Qc_trunc q) else None
  | _ => None
  end.

(** [d.getTime()] *)
Definition getTime (d : Date) : number :=
  match d with
  | Some t => of_Z t
  | None => NaN
  end.

(** [d1 >= d2] on two [Date] objects compares their time values. *)
Definition Date_geb (d1 d2 : Date) : bool := geb (getTime d1) (getTime d2).

Inductive error : Type := RangeError | TypeError.

Inductive completion (A : Type) : Type :=
| Returns (a : A)
| Throws (e : error).
Global Arguments Returns {A} a.
Global Arguments Throws {A} e.

(** The two services of the host's [Date] that the pages use:
    [new Date(s)] on a string, and [toISOString().split('T')[0]] on a
    valid time value. *)
Class Runtime : Type := {
  Date_parse : string → Date;
  Date_toISODate : Z → string
}.

(** [d.toISOString().split('T')[0]]; [toISOString] throws a
    [RangeError] on an [Invalid Date]. *)
Definition toISODate `{Runtime} (d : Date) : completion string :=
  match d with
  | Some t => Returns (Date_toISODate t)
  | None => Throws RangeError
  end.

(** *** A runtime for calendar dates [YYYY-MM-DD]

    Date-only ISO strings denote midnight UTC. *)

Definition digit_of (c : ascii) : option Z :=
  let n := Z.of_N (N_of_ascii c) in
  if (48 <=? n) && (n <=? 57) then Some (n - 48) else None.

Fixpoint digits_of (s : string) (acc : Z) : option Z :=
  match s with
  | EmptyString => Some acc
  | String c s' =>
      match digit_of c with
      | Some d => digits_of s' (10 * acc + d)
      | None => None
      end
  end.

Definition is_leap (y : Z) : bool :=
  ((y mod 4 =? 0) && negb (y mod 100 =? 0)) || (y mod 400 =? 0).

Definition days_in_month (y m : Z) : Z :=
  if m =? 2 then (if is_leap y then 29 else 28)
  else if (m =? 4) || (m =? 6) || (m =? 9) || (m =? 11) then 30
  else 31.

(** Days from 1970-01-01 to the civil date [y]-[m]-[d]. *)
Definition days_from_civil (y m d : Z) : Z :=
  let y' := if m <=? 2 then y - 1 else y in
  let era := y' / 400 in
  let yoe := y' - era * 400 in
  let doy := (153 * (if 2 <? m then m - 3 else m + 9) + 2) / 5 + d - 1 in
  let doe := yoe * 365 + yoe / 4 - yoe / 100 + doy in
  era * 146097 + doe - 719468.

(** The civil date [(y, m, d)] of a day number. *)
Definition civil_from_days (z : Z) : Z * Z * Z :=
  let z' := z + 719468 in
  let era := z' / 146097 in
  let doe := z' - era * 146097 in
  let yoe := (doe - doe / 1460 + doe / 36524 - doe / 146096) / 365 in
  let doy := doe - (365 * yoe + yoe / 4 - yoe / 100) in
  let mp := (5 * doy + 2) / 153 in
  let d := doy - (153 * mp + 2) / 5 + 1 in
  let m := if mp <? 10 then mp + 3 else mp - 9 in
  let y := yoe + era * 400 in
  (if m <=? 2 then y + 1 else y, m, d).

Definition iso_parse (s : string) : Date :=
  if negb (String.length s =? 10)%nat then None
  else if negb (String.eqb (substring 4 1 s) "-") then None
  else if negb (String.eqb (substring 7 1 s) "-") then None
  else
    match digits_of (substring 0 4 s) 0,
          digits_of (substring 5 2 s) 0,
          digits_of (substring 8 2 s) 0 with
    | Some y, Some m, Some d =>
        if (1 <=? m) && (m <=? 12) && (1 <=? d) && (d <=? days_in_month y m)
        then Some (days_from_civil y m d * msPerDay)
        else None
    | _, _, _ => None
    end.

Definition digit_char (d : Z) : ascii := ascii_of_N (Z.to_N (48 + d mod 10)).

(** [n] in decimal on [w] digits, high digits first. *)
Fixpoint pad_digits (w : nat) (n : Z) (acc : string) : string :=
  match w with
  | O => acc
  | S w' => pad_digits w' (n / 10) (String (digit_char n) acc)
  end.

(** Years outside 0..9999 are written with a sign and six digits. *)
Definition iso_format (t : Z) : string :=
  let '(y, m, d) := civil_from_days (t / msPerDay) in
  let year :=
    if (0 <=? y) && (y <=? 9999) then pad_digits 4 y ""
    else String (if y <? 0 then "-"%char else "+"%char) (pad_digits 6 (Z.abs y) "") in
  year +:+ "-" +:+ pad_digits 2 m "" +:+ "-" +:+ pad_digits 2 d "".

Definition iso_runtime : Runtime :=
  {| Date_parse := iso_parse; Date_toISODate := iso_format |}.

End JSDate.

Import JSDate.

(** ** Pattern review: [analyzePattern] *)

Module PatternReview.

Record Transaction : Type := {
  transaction_date : string;
  amount : number
}.

(** The fields that [analyzePattern] contributes to a [VendorPattern]. *)
Record Analysis : Type := {
  detected_pattern : string;
  detected_interval : number;
  detected_amount : number;
  confidence : number;
  next_date : option string
}.

(** The branch on [avgInterval] that sets [pattern] and [interval]. *)
Definition classify (avgInterval : number) : string * number :=
  if leb avgInterval (of_Q 1.5) then ("daily", of_Z 1)
  else if leb avgInterval (of_Z 8) then ("weekly", of_Z 7)
  else if leb avgInterval (of_Z 17) then ("bi-weekly", of_Z 14)
  else if leb avgInterval (of_Z 35) then ("monthly", of_Z 30)
  else if leb avgInterval (of_Z 100) then ("quarterly", of_Z 90)
  else ("irregular", of_Z 0).

(** [intervals.reduce((a, b) => a + b, 0) / intervals.length] *)
Definition average (xs : list number) : number :=
  div (sum xs) (of_nat (length xs)).

(** The confidence before [Math.round]. *)
Definition confidence_of (intervals : list number) (avgInterval : number)
  : number :=
  let variance := map (λ i, Math_abs (sub i avgInterval)) intervals in
  let avgVariance := div (sum variance) (of_nat (length variance)) in
  Math_max (of_Z 0)
    (Math_min (of_Z 100)
       (sub (of_Z 100) (mul (div avgVariance avgInterval) (of_Z 100)))).

Definition bind {A B} (c : completion A) (k : A → completion B)
  : completion B :=
  match c with
  | Returns a => k a
  | Throws e => Throws e
  end.

Section Analyze.
Context `{Runtime}.

(** The transactions of the last 90 days. *)
Definition recentTxs (today : Z) (transactions : list Transaction)
  : list Transaction :=
  let ninetyDaysAgo :=
    Date_of_number (sub (of_Z today) (of_Z (90 * 24 * 60 * 60 * 1000))) in
  List.filter
    (λ tx, Date_geb (Date_parse (transaction_date tx)) ninetyDaysAgo)
    transactions.

Definition daysDiff (tx1 tx2 : Transaction) : number :=
  let date1 := Date_parse (transaction_date tx1) in
  let date2 := Date_parse (transaction_date tx2) in
  div (Math_abs (sub (getTime date1) (getTime date2)))
      (of_Z (1000 * 60 * 60 * 24)).

(** The loop over [i < recentTxs.length - 1]. *)
Fixpoint intervals_of (recent : list Transaction) : list number :=
  match recent with
  | tx1 :: (tx2 :: _) as rest => daysDiff tx1 tx2 :: intervals_of rest
  | _ => []
  end.

(** The time values of the transactions whose date is valid. *)
Definition times_of (txs : list Transaction) : list Z :=
  omap (λ tx, Date_parse (transaction_date tx)) txs.

(** [new Date(lastDate.getTime() + interval * 24 * 60 * 60 * 1000)] *)
Definition nextDate_of (first : Transaction) (interval : number) : Date :=
  let lastDate := Date_parse (transaction_date first) in
  Date_of_number
    (add (getTime lastDate) (mul interval (of_Z (24 * 60 * 60 * 1000)))).

(** [analyzePattern] of [pattern-review/page.tsx]; [today] is the
    clock reading of [new Date()]. *)
Definition analyzePattern (today : Z) (transactions : list Transaction)
  : completion Analysis :=
  if (length transactions <? 2)%nat then
    Returns {| detected_pattern := "irregular";
               detected_interval := of_Z 0;
               detected_amount :=
                 or_else (amount <$> head transactions) (of_Z 0);
               confidence := of_Z 0;
               next_date := None |}
  else
    let recent := recentTxs today transactions in
    if (length recent <? 2)%nat then
      Returns {| detected_pattern := "irregular";
                 detected_interval := of_Z 0;
                 detected_amount :=
                   or_else (amount <$> head transactions) (of_Z 0);
                 confidence := of_Z 0;
                 next_date := None |}
    else
      let intervals := intervals_of recent in
      let avgInterval := average intervals in
      let '(pattern, interval) := classify avgInterval in
      let confidence := confidence_of intervals avgInterval in
      let amounts := map (λ tx, Math_abs (amount tx)) recent in
      let avgAmount := average amounts in
      match head recent with
      | None => Throws TypeError
      | Some first =>
          bind (toISODate (nextDate_of first interval)) (λ next,
          Returns {| detected_pattern := pattern;
                     detected_interval := interval;
                     detected_amount := avgAmount;
                     confidence := Math_round confidence;
                     next_date := Some next |})
      end.

(** [average_amount] of the record that [savePatterns] prepares:
    [p.override_amount || p.detected_amount]. *)
Definition average_amount (override_amount : option number)
  (p : Analysis) : number :=
  or_else override_amount (detected_amount p).

End Analyze.

End PatternReview.

(** ** Pattern review, second page *)

Module PatternReviewV2.
Import PatternReview.

Record Analysis : Type := {
  pattern : string;
  interval : number;
  avgAmount : number;
  confidence : number;
  nextDate : string
}.

Section Analyze.
Context `{Runtime}.

(** [analyzePattern] of [pattern-review-v2/page.tsx]. Its interval,
    pattern and confidence code repeats the first page's line for
    line; the early returns differ. *)
Definition analyzePattern (today : Z) (transactions : list Transaction)
  : completion Analysis :=
  if (length transactions <? 2)%nat then
    bind (toISODate (Some today)) (λ next,
    Returns {| pattern := "irregular";
               interval := of_Z 0;
               avgAmount := or_else (amount <$> head transactions) (of_Z 0);
               confidence := of_Z 0;
               nextDate := next |})
  else
    let recent := recentTxs today transactions in
    if (length recent <? 2)%nat then
      bind (toISODate (Some today)) (λ next,
      Returns {| pattern := "irregular";
                 interval := of_Z 0;
                 avgAmount :=
                   Math_abs (or_else (amount <$> head transactions) (of_Z 0));
                 confidence := of_Z 0;
                 nextDate := next |})
    else
      let intervals := intervals_of recent in
      let avgInterval := average intervals in
      let '(pattern, interval) := classify avgInterval in
      let confidence := confidence_of intervals avgInterval in
      let amounts := map (λ tx, Math_abs (amount tx)) recent in
      let avgAmount := average amounts in
      match head recent with
      | None => Throws TypeError
      | Some first =>
          bind (toISODate (nextDate_of first interval)) (λ next,
          Returns {| pattern := pattern;
                     interval := interval;
                     avgAmount := avgAmount;
                     confidence := Math_round confidence;
                     nextDate := next |})
      end.

End Analyze.

End PatternReviewV2.

(** ** The forecast spreadsheet: [rowData] *)

Module ForecastSpreadsheet.

Record Cell : Type := {
  forecasted : number;
  actual : number;
  variance : number;
  is_actual : bool
}.

Record CashBalance : Type := {
  balance_date : string;
  beginning_balance : number;
  ending_balance : option number
}.

(** [forecast_data] is indexed by date, category and subcategory. *)
Record DashboardData : Type := {
  forecast_data : gmap string (gmap string (gmap string Cell));
  cash_balances : gmap string CashBalance;
  data_start_date : string;
  data_end_date : string
}.

Record Period : Type := {
  week_number : Z;
  start_date : string;
  end_date : string;
  display_text : string
}.

Record VendorGroup : Type := {
  id : Z;
  group_name : string;
  vg_display_name : string;
  category : string;
  subcategory : string;
  is_inflow : bool
}.

Inductive RowKind : Type :=
| Header | Spacer | SectionHeader | SubsectionHeader | Total | Group.

(** A grid row. Its per-week properties, keyed by [period.start_date],
    are kept apart from its fixed properties: a week's start date is a
    calendar date, never the name of a fixed property. *)
Record Row : Type := {
  row_id : string;
  display_name : string;
  kind : RowKind;
  vendor_group_id : option Z;
  row_is_inflow : option bool;
  values : gmap string number;
  is_actual_flags : gmap string bool
}.

(** [dashboardData.forecast_data[period.start_date]?.[vg.category]?.[vg.subcategory]] *)
Definition cell_data (dashboardData : DashboardData) (period : Period)
  (vg : VendorGroup) : option Cell :=
  byCategory ← forecast_data dashboardData !! start_date period;
  bySubcategory ← byCategory !! category vg;
  bySubcategory !! subcategory vg.

(** [data?.is_actual ? data.actual : data?.forecasted || 0] *)
Definition cell_amount (data : option Cell) : number :=
  match data with
  | Some c =>
      if is_actual c then actual c else or_else (Some (forecasted c)) (of_Z 0)
  | None => of_Z 0
  end.

(** [data?.is_actual || false] *)
Definition cell_flag (data : option Cell) : bool :=
  match data with
  | Some c => is_actual c
  | None => false
  end.

(** [list.forEach((x, index) => ...)] threading the state [s]. *)
Fixpoint forEach_from {A St : Type} (f : St → A → nat → St) (index : nat)
  (l : list A) (s : St) : St :=
  match l with
  | [] => s
  | x :: l' => forEach_from f (S index) l' (f s x index)
  end.

Section Rows.
Variable dashboardData : DashboardData.
Variable periods : list Period.

Definition cashBalanceRow : Row :=
  {| row_id := "beginning_cash";
     display_name := "Beginning Cash";
     kind := Header;
     vendor_group_id := None;
     row_is_inflow := Some true;
     values :=
       foldl (λ vals period,
                let balance := cash_balances dashboardData !! start_date period in
                <[start_date period :=
                    or_else (beginning_balance <$> balance) (of_Z 0)]> vals)
             ∅ periods;
     is_actual_flags := ∅ |}.

(** One row per vendor group of a section. *)
Definition groupRow (vg : VendorGroup) : Row :=
  {| row_id := "vendor_group_" +:+ pretty (id vg);
     display_name := "  " +:+ vg_display_name vg;
     kind := Group;
     vendor_group_id := Some (id vg);
     row_is_inflow := Some (is_inflow vg);
     values :=
       foldl (λ vals period,
                <[start_date period :=
                    cell_amount (cell_data dashboardData period vg)]> vals)
             ∅ periods;
     is_actual_flags :=
       foldl (λ flags period,
                <[start_date period :=
                    cell_flag (cell_data dashboardData period vg)]> flags)
             ∅ periods |}.

(** [let total = 0; groups.forEach(vg => { total += ... })] *)
Definition groupTotal (groups : list VendorGroup) (period : Period)
  : number :=
  foldl (λ total vg, add total (cell_amount (cell_data dashboardData period vg)))
        (of_Z 0) groups.

Definition totalRow (rid name : string) (inflow : option bool)
  (groups : list VendorGroup) : Row :=
  {| row_id := rid;
     display_name := name;
     kind := Total;
     vendor_group_id := None;
     row_is_inflow := inflow;
     values :=
       foldl (λ vals period,
                <[start_date period := groupTotal groups period]> vals)
             ∅ periods;
     is_actual_flags := ∅ |}.

Definition netOperatingRow (totalRevenueRow totalOutflowsRow : Row) : Row :=
  {| row_id := "net_operating_cf";
     display_name := "Net Operating CF";
     kind := Total;
     vendor_group_id := None;
     row_is_inflow := Some true;
     values :=
       foldl (λ vals period,
                let revenue :=
                  or_else (values totalRevenueRow !! start_date period) (of_Z 0) in
                let outflows :=
                  or_else (values totalOutflowsRow !! start_date period) (of_Z 0) in
                <[start_date period := add revenue outflows]> vals)
             ∅ periods;
     is_actual_flags := ∅ |}.

(** The body of the last [periods.forEach((period, index) => ...)]. *)
Definition endingCashStep (cashRow netOperating netFinancing : Row)
  (endingCash : gmap string number) (period : Period) (index : nat)
  : gmap string number :=
  let beginningCash :=
    if (index =? 0)%nat then to_number (values cashRow !! start_date period)
    else or_else (previous ← periods !! (index - 1)%nat;
                  endingCash !! start_date previous) (of_Z 0) in
  let netOp := or_else (values netOperating !! start_date period) (of_Z 0) in
  let netFin := or_else (values netFinancing !! start_date period) (of_Z 0) in
  <[start_date period := add (add beginningCash netOp) netFin]> endingCash.

Definition endingCashRow (cashRow netOperating netFinancing : Row) : Row :=
  {| row_id := "ending_cash";
     display_name := "Ending Cash";
     kind := Total;
     vendor_group_id := None;
     row_is_inflow := Some true;
     values :=
       forEach_from (endingCashStep cashRow netOperating netFinancing)
                    0 periods ∅;
     is_actual_flags := ∅ |}.

Definition labelRow (rid name : string) (k : RowKind) : Row :=
  {| row_id := rid; display_name := name; kind := k;
     vendor_group_id := None; row_is_inflow := None;
     values := ∅; is_actual_flags := ∅ |}.

Definition in_category (c : string) (vg : VendorGroup) : bool :=
  String.eqb (category vg) c.

Definition rows_of (vendorGroups : list VendorGroup) : list Row :=
  let revenueGroups := List.filter (in_category "revenue") vendorGroups in
  let totalRevenueRow := totalRow "total_revenue" "Total Revenue" (Some true) revenueGroups in
  let operatingGroups := List.filter (in_category "operating") vendorGroups in
  let totalOutflowsRow := totalRow "total_outflows" "Total Outflows" (Some false) operatingGroups in
  let netOperating := netOperatingRow totalRevenueRow totalOutflowsRow in
  let financingGroups := List.filter (in_category "financing") vendorGroups in
  let netFinancingRow := totalRow "net_financing_cf" "Net Financing CF" None financingGroups in
  [cashBalanceRow;
   labelRow "spacer_1" "" Spacer;
   labelRow "revenue_header" "OPERATING ACTIVITIES" SectionHeader;
   labelRow "revenue_inflows_header" "Revenue Inflows:" SubsectionHeader]
  ++ map groupRow revenueGroups
  ++ [totalRevenueRow;
      labelRow "spacer_2" "" Spacer;
      labelRow "operating_outflows_header" "Operating Outflows:" SubsectionHeader]
  ++ map groupRow operatingGroups
  ++ [totalOutflowsRow;
      netOperating;
      labelRow "spacer_3" "" Spacer;
      labelRow "financing_header" "FINANCING ACTIVITIES" SectionHeader]
  ++ map groupRow financingGroups
  ++ [netFinancingRow;
      labelRow "spacer_4" "" Spacer;
      endingCashRow cashBalanceRow netOperating netFinancingRow].

End Rows.

(** [rowData]: empty until the dashboard, the groups and the weeks are
    loaded. *)
Definition rowData (dashboardData : option DashboardData)
  (vendorGroups : list VendorGroup) (periods : list Period) : list Row :=
  match dashboardData with
  | None => []
  | Some d =>
      if (length vendorGroups =? 0)%nat || (length periods =? 0)%nat then []
      else rows_of d periods vendorGroups
  end.


(** Every amount and every beginning balance of the dashboard is a finite
    number. *)
Definition finite_cell (c : Cell) : Prop :=
  is_finite (forecasted c) ∧ is_finite (actual c).

Global Instance finite_cell_dec (c : Cell) : Decision (finite_cell c).
Proof. unfold finite_cell. apply _. Defined.

Definition finite_data (dashboardData : DashboardData) : Prop :=
  map_Forall (λ _ byCategory,
      map_Forall (λ _ bySubcategory,
          map_Forall (λ _ c, finite_cell c) bySubcategory) byCategory)
    (forecast_data dashboardData) ∧
  map_Forall (λ _ b, is_finite (beginning_balance b))
    (cash_balances dashboardData).

(** The three sections of the grid. *)
Definition known_category (vg : VendorGroup) : Prop :=
  category vg = "revenue" ∨ category vg = "operating" ∨
  category vg = "financing".

(** The "Ending Cash" row is the last row of the grid. *)
Definition endingCash (rows : list Row) (week : string) : option number :=
  r ← last rows; values r !! week.

(** The cell renderer of [columnDefs]: a row with a [vendor_group_id]
    gets the editable renderer, whatever the cell's [is_actual] flag. *)
Definition cell_editable (r : Row) : bool :=
  match kind r with
  | Spacer | SectionHeader | SubsectionHeader => false
  | _ =>
      match vendor_group_id r with
      | Some i => negb (i =? 0)
      | None => false
      end
  end.

(** [handleSubmit] of the editable renderer, on the result [parsed] of
    [parseFloat(editValue)]: the sign of the entered value follows the
    row's polarity. *)
Definition handleSubmit (r : Row) (parsed : number) : number :=
  let newValue := or_else (Some parsed) (of_Z 0) in
  match row_is_inflow r with
  | Some false => neg (Math_abs newValue)
  | _ => Math_abs newValue
  end.

(** The body of the request that [updateCellValue] posts to
    [/api/forecast/cell-update]. *)
Record CellUpdate : Type := {
  client_id : string;
  forecast_date : string;
  update_vendor_group_id : Z;
  new_amount : number
}.

Definition updateCellValue (clientId : string) (date : string)
  (vendorGroupId : Z) (newAmount : number) : CellUpdate :=
  {| client_id := clientId;
     forecast_date := date;
     update_vendor_group_id := vendorGroupId;
     new_amount := newAmount |}.

(** An edit of the cell of row [r] in the column of [period]: the
    request it sends, if the cell is editable. *)
Definition editCell (clientId : string) (r : Row) (period : Period)
  (entered : number) : option CellUpdate :=
  if cell_editable r then
    vgid ← vendor_group_id r;
    Some (updateCellValue clientId (start_date period) vgid
            (handleSubmit r entered))
  else None.

End ForecastSpreadsheet.

(** ** The forecast records behind the spreadsheet *)

Module ForecastStore.
Import ForecastSpreadsheet.

Inductive Method : Type := pattern_method | manual_method.

Record ForecastRecord : Type := {
  date : string;
  vendor_group : Z;
  forecasted_amount : number;
  pattern_type : string;
  method : Method;
  actual_amount : option number;
  record_variance : option number;
  is_locked : bool
}.

Definition key (r : ForecastRecord) : Z * string := (vendor_group r, date r).

(** Modelled from the spec: the handler of [/api/forecast/generate] is
    not part of the web application's sources. At most one record exists
    per vendor group and date; a generated record never replaces a locked
    record for the same vendor group and date, it is skipped. *)
Definition put_generated (s : gmap (Z * string) ForecastRecord)
  (r : ForecastRecord) : gmap (Z * string) ForecastRecord :=
  match s !! key r with
  | Some old => if is_locked old then s else <[key r := r]> s
  | None => <[key r := r]> s
  end.

(** Modelled from the spec: regeneration of the forecast merges the
    generator's records into the store, preserving locked dates. *)
Definition regenerate (generated : list ForecastRecord)
  (s : gmap (Z * string) ForecastRecord) : gmap (Z * string) ForecastRecord :=
  foldl put_generated s generated.

(** Modelled from the spec: the handler of [/api/forecast/cell-update]
    is not part of the web application's sources. A manual amount
    replaces the forecast amount of an unlocked record and tags it
    manual; a locked record is never altered. *)
Definition cell_update (u : CellUpdate)
  (s : gmap (Z * string) ForecastRecord) : gmap (Z * string) ForecastRecord :=
  let k := (update_vendor_group_id u, forecast_date u) in
  match s !! k with
  | Some old =>
      if is_locked old then s
      else <[k := {| date := date old;
                     vendor_group := vendor_group old;
                     forecasted_amount := new_amount u;
                     pattern_type := pattern_type old;
                     method := manual_method;
                     actual_amount := actual_amount old;
                     record_variance := record_variance old;
                     is_locked := false |}]> s
  | None =>
      <[k := {| date := forecast_date u;
                vendor_group := update_vendor_group_id u;
                forecasted_amount := new_amount u;
                pattern_type := "irregular";
                method := manual_method;
                actual_amount := None;
                record_variance := None;
                is_locked := false |}]> s
  end.

(** What the spreadsheet can ask of the store: the "Generate Forecasts"
    button and a cell edit. *)
Inductive Operation : Type :=
| Generate (generated : list ForecastRecord)
| Edit (clientId : string) (r : Row) (period : Period) (entered : number).

Definition apply_operation (s : gmap (Z * string) ForecastRecord)
  (op : Operation) : gmap (Z * string) ForecastRecord :=
  match op with
  | Generate generated => regenerate generated s
  | Edit clientId r period entered =>
      match editCell clientId r period entered with
      | Some u => cell_update u s
      | None => s
      end
  end.

Definition run (ops : list Operation) (s : gmap (Z * string) ForecastRecord)
  : gmap (Z * string) ForecastRecord :=
  foldl apply_operation s ops.

End ForecastStore.

(** ** Statistics on rationals, and the specification's formulas *)

Module Stats.
Local Open Scope Qc_scope.

Definition Qc_sum (l : list Qc) : Qc := foldr Qcplus 0 l.

Definition Qc_mean (l : list Qc) : Qc :=
  Qc_sum l / Qc_of_Z (Z.of_nat (length l)).



Fixpoint insert_sorted (x : Qc) (l : list Qc) : list Qc :=
  match l with
  | [] => [x]
  | y :: l' => if Qc_leb x y then x :: l else y :: insert_sorted x l'
  end.

Definition sort (l : list Qc) : list Qc := foldr insert_sorted [] l.

(** The day gaps between consecutive time values, in list order. *)
Fixpoint day_gaps (times : list Z) : list Qc :=
  match times with
  | t1 :: (t2 :: _) as rest =>
      Qc_of_Z (Z.abs (t1 - t2)) / Qc_of_Z msPerDay :: day_gaps rest
  | _ => []
  end.


End Stats.

Module Spec.
Import Stats.
Local Open Scope Qc_scope.

(** The specification's "median gap": the middle of the sorted gaps,
    the mean of the two middle gaps for an even count. *)
Definition median_gap (gaps : list Qc) : option Qc :=
  let sorted := sort gaps in
  let n := length sorted in
  if (n =? 0)%nat then None
  else if Nat.even n then
    a ← sorted !! (n / 2 - 1)%nat; b ← sorted !! (n / 2)%nat;
    Some ((a + b) / Qc_of_Z 2)
  else sorted !! (n / 2)%nat.



End Spec.

(** ** Arrays, maps and strings of the pages *)

Module JSArray.

(** Truthiness of a string: only the empty string is falsy. *)
Definition string_truthy (s : string) : bool := negb (String.eqb s "").

(** [a || b] on a possibly [undefined] or [null] string [a]. *)
Definition or_else_string (a : option string) (b : string) : string :=
  match a with
  | Some x => if string_truthy x then x else b
  | None => b
  end.

(** [a > 0] *)
Definition positive (a : number) : bool :=
  leb (of_Z 0) a && negb (leb a (of_Z 0)).

(** [xs.sort(compare)], a stable sort: an element moves behind a later
    one only where [compare] is positive. The result is the one that
    every stable sort gives for a comparator that orders consistently. *)
Fixpoint sort_insert {A : Type} (compare : A → A → number) (x : A)
  (sorted : list A) : list A :=
  match sorted with
  | [] => [x]
  | y :: rest =>
      if positive (compare x y) then y :: sort_insert compare x rest
      else x :: sorted
  end.

Definition Array_sort {A : Type} (compare : A → A → number) (xs : list A)
  : list A :=
  foldr (sort_insert compare) [] xs.

(** [xs.findIndex((x, idx) => test(x, idx))] *)
Fixpoint findIndex_from {A : Type} (test : A → nat → bool) (idx : nat)
  (xs : list A) : option nat :=
  match xs with
  | [] => None
  | x :: rest =>
      if test x idx then Some idx else findIndex_from test (S idx) rest
  end.

Definition findIndex {A : Type} (test : A → nat → bool) (xs : list A)
  : option nat :=
  findIndex_from test 0 xs.

(** A [Map] with string keys, in insertion order. [push_group k v]
    is [if (!m.has(k)) m.set(k, []); m.get(k).push(v)]. *)
Fixpoint push_group {V : Type} (k : string) (v : V)
  (groups : list (string * list V)) : list (string * list V) :=
  match groups with
  | [] => [(k, [v])]
  | (k', vs) :: rest =>
      if String.eqb k' k then (k', vs ++ [v]) :: rest
      else (k', vs) :: push_group k v rest
  end.

(** [m.get(k)] *)
Fixpoint group_get {V : Type} (k : string) (groups : list (string * list V))
  : option (list V) :=
  match groups with
  | [] => None
  | (k', vs) :: rest => if String.eqb k' k then Some vs else group_get k rest
  end.

End JSArray.

(** ** Pattern review: the page around [analyzePattern] *)

Module PatternReviewPage.
Import JSArray.

(** A row of the [vendors] query; [display_name] may be [null]. *)
Record VendorRow : Type := {
  row_vendor_name : string;
  row_display_name : option string
}.

(** A row of the [transactions] query. *)
Record TransactionRow : Type := {
  tx_vendor_name : string;
  tx_transaction_date : string;
  tx_amount : number
}.

Record VendorPattern : Type := {
  vendor_name : string;
  display_name : string;
  transactions : list PatternReview.Transaction;
  detected_pattern : string;
  detected_interval : number;
  detected_amount : number;
  confidence : number;
  next_date : option string;
  override_pattern : option string;
  override_amount : option number;
  override_next_date : option string
}.

(** [PATTERN_OPTIONS]: value, label and days. *)
Definition PATTERN_OPTIONS : list (string * string * Z) :=
  [("daily", "Daily", 1);
   ("weekly", "Weekly", 7);
   ("bi-weekly", "Bi-weekly (14 days)", 14);
   ("monthly", "Monthly", 30);
   ("quarterly", "Quarterly", 90);
   ("irregular", "Irregular", 0)].

(** [PATTERN_OPTIONS.find(opt => opt.value === value)?.days] *)
Definition option_days (value : string) : option number :=
  match List.find (λ opt, String.eqb opt.1.1 value) PATTERN_OPTIONS with
  | Some opt => Some (of_Z opt.2)
  | None => None
  end.

(** [new Map(vendors.map(v => [v.vendor_name, v.display_name]))]: a later
    row of the same vendor replaces an earlier one. *)
Definition vendorMap (vendors : list VendorRow)
  : gmap string (option string) :=
  foldl (λ m v, <[row_vendor_name v := row_display_name v]> m) ∅ vendors.

(** [vendorMap.get(tx.vendor_name) || tx.vendor_name] *)
Definition displayNameOf (vendors : list VendorRow) (name : string) : string :=
  or_else_string (mjoin (vendorMap vendors !! name)) name.

Definition strip (tx : TransactionRow) : PatternReview.Transaction :=
  {| PatternReview.transaction_date := tx_transaction_date tx;
     PatternReview.amount := tx_amount tx |}.

(** [groupedByDisplay] after the loop over the transactions. *)
Definition groupedByDisplay (vendors : list VendorRow)
  (rows : list TransactionRow)
  : list (string * list PatternReview.Transaction) :=
  foldl (λ groups tx,
           push_group (displayNameOf vendors (tx_vendor_name tx)) (strip tx)
                      groups)
        [] rows.

(** [a.transactions.reduce((sum, tx) => sum + Math.abs(tx.amount), 0)] *)
Definition totalValue (txs : list PatternReview.Transaction) : number :=
  foldl (λ sum tx, add sum (Math_abs (PatternReview.amount tx))) (of_Z 0) txs.

(** The comparator of the sort: [totalB - totalA]. *)
Definition byTotalDescending (a b : VendorPattern) : number :=
  sub (totalValue (transactions b)) (totalValue (transactions a)).

Section Load.
Context `{Runtime}.

(** One entry of [patternAnalysis]. *)
Definition analyzeGroup (today : Z)
  (group : string * list PatternReview.Transaction)
  : completion VendorPattern :=
  PatternReview.bind (PatternReview.analyzePattern today group.2) (λ analysis,
  Returns {| vendor_name := group.1;
             display_name := group.1;
             transactions := group.2;
             detected_pattern := PatternReview.detected_pattern analysis;
             detected_interval := PatternReview.detected_interval analysis;
             detected_amount := PatternReview.detected_amount analysis;
             confidence := PatternReview.confidence analysis;
             next_date := PatternReview.next_date analysis;
             override_pattern := None;
             override_amount := None;
             override_next_date := None |}).

(** The pattern [p] is the entry of the group [group]: its names, its
    transactions and the analysis of these, with no override. *)
Definition analysed (today : Z)
  (group : string * list PatternReview.Transaction) (p : VendorPattern)
  : Prop :=
  vendor_name p = group.1 ∧ display_name p = group.1 ∧
  transactions p = group.2 ∧
  override_pattern p = None ∧ override_amount p = None ∧
  override_next_date p = None ∧
  ∃ a, PatternReview.analyzePattern today group.2 = Returns a ∧
       detected_pattern p = PatternReview.detected_pattern a ∧
       detected_interval p = PatternReview.detected_interval a ∧
       detected_amount p = PatternReview.detected_amount a ∧
       confidence p = PatternReview.confidence a ∧
       next_date p = PatternReview.next_date a.

(** The loop [groupedByDisplay.forEach(...)]: it stops at the first
    analysis that throws. *)
Fixpoint analyzeGroups (today : Z)
  (groups : list (string * list PatternReview.Transaction))
  : completion (list VendorPattern) :=
  match groups with
  | [] => Returns []
  | group :: rest =>
      PatternReview.bind (analyzeGroup today group) (λ p,
      PatternReview.bind (analyzeGroups today rest) (λ ps,
      Returns (p :: ps)))
  end.

(** What [loadPatterns] passes to [setPatterns], from the rows of its two
    queries. *)
Definition loadPatterns (today : Z) (vendors : list VendorRow)
  (rows : list TransactionRow) : completion (list VendorPattern) :=
  PatternReview.bind (analyzeGroups today (groupedByDisplay vendors rows))
    (λ patternAnalysis,
  Returns (Array_sort byTotalDescending patternAnalysis)).

End Load.

(** The three fields that the page's inputs pass to
    [handlePatternChange], each with its value. *)
Inductive Change : Type :=
| pattern (value : string)
| amount (value : number)
| next_date_change (value : string).

(** [{ ...p, [`override_${field}`]: value }] *)
Definition setOverride (p : VendorPattern) (change : Change) : VendorPattern :=
  {| vendor_name := vendor_name p;
     display_name := display_name p;
     transactions := transactions p;
     detected_pattern := detected_pattern p;
     detected_interval := detected_interval p;
     detected_amount := detected_amount p;
     confidence := confidence p;
     next_date := next_date p;
     override_pattern :=
       match change with pattern v => Some v | _ => override_pattern p end;
     override_amount :=
       match change with amount v => Some v | _ => override_amount p end;
     override_next_date :=
       match change with
       | next_date_change v => Some v
       | _ => override_next_date p
       end |}.

Definition handlePatternChange (vendorName : string) (change : Change)
  (patterns : list VendorPattern) : list VendorPattern :=
  map (λ p, if String.eqb (vendor_name p) vendorName
            then setOverride p change else p) patterns.

(** A record that [savePatterns] prepares. *)
Record PatternRecord : Type := {
  client_id : string;
  vendor_group : string;
  pattern_type : string;
  interval_days : number;
  average_amount : number;
  record_next_date : option string;
  record_confidence : number;
  created_at : string
}.

Definition patternRecord (clientId now : string) (p : VendorPattern)
  : PatternRecord :=
  {| client_id := clientId;
     vendor_group := display_name p;
     pattern_type := or_else_string (override_pattern p) (detected_pattern p);
     interval_days :=
       match override_pattern p with
       | Some o =>
           if string_truthy o
           then or_else (option_days o) (detected_interval p)
           else detected_interval p
       | None => detected_interval p
       end;
     average_amount := or_else (override_amount p) (detected_amount p);
     record_next_date :=
       match override_next_date p with
       | Some d => if string_truthy d then Some d else next_date p
       | None => next_date p
       end;
     record_confidence := confidence p;
     created_at := now |}.

(** [patternRecords] of [savePatterns]; [now] is
    [new Date().toISOString()]. *)
Definition patternRecords (clientId now : string)
  (patterns : list VendorPattern) : list PatternRecord :=
  map (patternRecord clientId now) patterns.

End PatternReviewPage.

(** ** Pattern review, second page: the review around [analyzePattern]

    The state of the page is the state of its hooks. A handler is run to
    its end on the state of the render that offered it; what the database
    and the clock answer is passed in. *)

Module PatternReviewV2Page.
Import JSArray.

Inductive Status : Type := pending | reviewed | skipped.

Global Instance Status_eq_dec : EqDecision Status.
Proof. solve_decision. Defined.

Record PatternReview : Type := {
  id : option string;
  vendor_group : string;
  status : Status;
  pattern_type : string;
  interval_days : number;
  average_amount : number;
  next_date : string;
  confidence : number;
  total_transaction_value : number;
  transaction_count : nat;
  reviewed_at : option string;
  recent_transactions : option (list PatternReview.Transaction)
}.

(** [editedPattern], a [Partial<PatternReview>]: the page sets it to [{}]
    or to an object of these three keys. *)
Record Edited : Type := {
  edited_pattern_type : option string;
  edited_average_amount : option number;
  edited_next_date : option string
}.

Definition no_edit : Edited :=
  {| edited_pattern_type := None;
     edited_average_amount := None;
     edited_next_date := None |}.

Record State : Type := {
  patterns : list PatternReview;
  currentIndex : nat;
  showAll : bool;
  editMode : bool;
  editedPattern : Edited
}.

(** The state of the first render. *)
Definition initial : State :=
  {| patterns := [];
     currentIndex := 0;
     showAll := false;
     editMode := false;
     editedPattern := no_edit |}.

Definition setPatterns (f : list PatternReview → list PatternReview)
  (s : State) : State :=
  {| patterns := f (patterns s);
     currentIndex := currentIndex s;
     showAll := showAll s;
     editMode := editMode s;
     editedPattern := editedPattern s |}.

Definition setCurrentIndex (i : nat) (s : State) : State :=
  {| patterns := patterns s;
     currentIndex := i;
     showAll := showAll s;
     editMode := editMode s;
     editedPattern := editedPattern s |}.

Definition setShowAll (b : bool) (s : State) : State :=
  {| patterns := patterns s;
     currentIndex := currentIndex s;
     showAll := b;
     editMode := editMode s;
     editedPattern := editedPattern s |}.

Definition setEditMode (b : bool) (s : State) : State :=
  {| patterns := patterns s;
     currentIndex := currentIndex s;
     showAll := showAll s;
     editMode := b;
     editedPattern := editedPattern s |}.

Definition setEditedPattern (e : Edited) (s : State) : State :=
  {| patterns := patterns s;
     currentIndex := currentIndex s;
     showAll := showAll s;
     editMode := editMode s;
     editedPattern := e |}.

(** *** What a render derives from the state *)

Definition atLeast1000 (p : PatternReview) : bool :=
  geb (total_transaction_value p) (of_Z 1000).

Definition isPending (p : PatternReview) : bool :=
  bool_decide (status p = pending).

Definition isReviewed (p : PatternReview) : bool :=
  bool_decide (status p = reviewed).

Definition filteredPatterns (s : State) : list PatternReview :=
  if showAll s then patterns s else List.filter atLeast1000 (patterns s).

Definition currentPattern (s : State) : option PatternReview :=
  filteredPatterns s !! currentIndex s.

Definition totalPatterns (s : State) : nat := length (filteredPatterns s).

Definition reviewedCount (s : State) : nat :=
  length (List.filter isReviewed (filteredPatterns s)).

Definition progressPercent (s : State) : number :=
  if (0 <? totalPatterns s)%nat
  then mul (div (of_nat (reviewedCount s)) (of_nat (totalPatterns s)))
           (of_Z 100)
  else of_Z 0.

(** [filteredPatterns.every(p => p.status !== 'pending')] of
    [finishAllAndGenerate]. *)
Definition allReviewed (s : State) : bool :=
  forallb (λ p, negb (isPending p)) (filteredPatterns s).

(** *** Recent transactions *)

Definition withRecent (transactions : list PatternReview.Transaction)
  (p : PatternReview) : PatternReview :=
  {| id := id p;
     vendor_group := vendor_group p;
     status := status p;
     pattern_type := pattern_type p;
     interval_days := interval_days p;
     average_amount := average_amount p;
     next_date := next_date p;
     confidence := confidence p;
     total_transaction_value := total_transaction_value p;
     transaction_count := transaction_count p;
     reviewed_at := reviewed_at p;
     recent_transactions := Some transactions |}.

(** The state update of [loadTransactionsForPattern]; [transactions] is
    the answer of its query, [null] on an error. *)
Definition loadTransactionsForPattern (vendorGroup : string)
  (transactions : option (list PatternReview.Transaction))
  (s : State) : State :=
  setPatterns
    (map (λ p, if String.eqb (vendor_group p) vendorGroup
               then withRecent (default [] transactions) p else p)) s.

(** *** The fresh analysis *)

Definition groupedByDisplay (vendors : list PatternReviewPage.VendorRow)
  (rows : list PatternReviewPage.TransactionRow)
  : list (string * list PatternReviewPage.TransactionRow) :=
  foldl (λ groups tx,
           push_group
             (PatternReviewPage.displayNameOf vendors
                (PatternReviewPage.tx_vendor_name tx)) tx groups)
        [] rows.

(** [txs.reduce((sum, tx) => sum + Math.abs(tx.amount), 0)] *)
Definition totalValue (txs : list PatternReviewPage.TransactionRow) : number :=
  foldl (λ sum tx, add sum (Math_abs (PatternReviewPage.tx_amount tx)))
        (of_Z 0) txs.

(** The comparator of the sort. *)
Definition byValueDescending (a b : PatternReview) : number :=
  sub (total_transaction_value b) (total_transaction_value a).

Section Analyze.
Context `{Runtime}.

(** One entry of [patternRecords]. [analyzePattern] reads the date and
    the amount of a row. *)
Definition patternRecord (today : Z)
  (group : string * list PatternReviewPage.TransactionRow)
  : completion PatternReview :=
  let totalValue := totalValue group.2 in
  PatternReview.bind
    (PatternReviewV2.analyzePattern today (PatternReviewPage.strip <$> group.2))
    (λ analysis,
  Returns {| id := None;
             vendor_group := group.1;
             status := pending;
             pattern_type := PatternReviewV2.pattern analysis;
             interval_days := PatternReviewV2.interval analysis;
             average_amount := PatternReviewV2.avgAmount analysis;
             next_date := PatternReviewV2.nextDate analysis;
             confidence := PatternReviewV2.confidence analysis;
             total_transaction_value := totalValue;
             transaction_count := length group.2;
             reviewed_at := None;
             recent_transactions := None |}).

Fixpoint analyzeGroups (today : Z)
  (groups : list (string * list PatternReviewPage.TransactionRow))
  : completion (list PatternReview) :=
  match groups with
  | [] => Returns []
  | group :: rest =>
      PatternReview.bind (patternRecord today group) (λ p,
      PatternReview.bind (analyzeGroups today rest) (λ ps,
      Returns (p :: ps)))
  end.

(** [patternRecords] after the sort: what [analyzeAndSavePatterns]
    inserts into the table. *)
Definition patternRecords (today : Z)
  (vendors : list PatternReviewPage.VendorRow)
  (rows : list PatternReviewPage.TransactionRow)
  : completion (list PatternReview) :=
  PatternReview.bind (analyzeGroups today (groupedByDisplay vendors rows))
    (λ records, Returns (Array_sort byValueDescending records)).

(** [analyzeAndSavePatterns]; [inserted] tells whether the insert came
    back without an error, [transactions] is the answer of the query of
    [loadTransactionsForPattern]. *)
Definition analyzeAndSavePatterns (today : Z)
  (vendors : list PatternReviewPage.VendorRow)
  (rows : list PatternReviewPage.TransactionRow) (inserted : bool)
  (transactions : option (list PatternReview.Transaction)) (s : State)
  : completion State :=
  PatternReview.bind (patternRecords today vendors rows) (λ records,
  Returns
    (if inserted then
       let s1 := setPatterns (λ _, records) s in
       match records with
       | first :: _ =>
           loadTransactionsForPattern (vendor_group first) transactions s1
       | [] => s1
       end
     else s)).

(** [loadPatterns] up to its [catch]; [existingReviews] is the answer of
    the first query. *)
Definition loadPatterns (today : Z)
  (existingReviews : option (list PatternReview))
  (vendors : list PatternReviewPage.VendorRow)
  (rows : list PatternReviewPage.TransactionRow) (inserted : bool)
  (transactions : option (list PatternReview.Transaction)) (s : State)
  : completion State :=
  match existingReviews with
  | Some ((first :: _) as existing) =>
      let s1 :=
        loadTransactionsForPattern (vendor_group first) transactions s in
      let s2 := setPatterns (λ _, existing) s1 in
      let firstPendingIndex := findIndex (λ p _, isPending p) existing in
      Returns (setCurrentIndex (default 0%nat firstPendingIndex) s2)
  | _ => analyzeAndSavePatterns today vendors rows inserted transactions s
  end.

End Analyze.

(** *** The actions of the reviewer *)

Inductive Action : Type := approve | skip | save_edit.

Global Instance Action_eq_dec : EqDecision Action.
Proof. solve_decision. Defined.

(** [updateData], a [Partial<PatternReview>]. *)
Record Update : Type := {
  update_status : Status;
  update_reviewed_at : option string;
  update_edited : Edited
}.

Definition updateData (action : Action) (now : string) (edited : Edited)
  : Update :=
  match action with
  | approve =>
      {| update_status := reviewed;
         update_reviewed_at := Some now;
         update_edited := no_edit |}
  | skip =>
      {| update_status := skipped;
         update_reviewed_at := None;
         update_edited := no_edit |}
  | save_edit =>
      {| update_status := reviewed;
         update_reviewed_at := Some now;
         update_edited := edited |}
  end.

(** [{ ...p, ...updateData }] *)
Definition merge (p : PatternReview) (u : Update) : PatternReview :=
  {| id := id p;
     vendor_group := vendor_group p;
     status := update_status u;
     pattern_type :=
       default (pattern_type p) (edited_pattern_type (update_edited u));
     interval_days := interval_days p;
     average_amount :=
       default (average_amount p) (edited_average_amount (update_edited u));
     next_date := default (next_date p) (edited_next_date (update_edited u));
     confidence := confidence p;
     total_transaction_value := total_transaction_value p;
     transaction_count := transaction_count p;
     reviewed_at :=
       match update_reviewed_at u with
       | Some t => Some t
       | None => reviewed_at p
       end;
     recent_transactions := recent_transactions p |}.

(** [setCurrentIndex(i)] followed by
    [loadTransactionsForPattern(filteredPatterns[i].vendor_group)], where
    [filteredPatterns] is the list of the render [s0]. Reading
    [vendor_group] of a missing entry throws after the index is set. *)
Definition goTo (s0 : State) (i : nat)
  (transactions : option (list PatternReview.Transaction)) (s : State)
  : State :=
  match filteredPatterns s0 !! i with
  | Some p =>
      loadTransactionsForPattern (vendor_group p) transactions
        (setCurrentIndex i s)
  | None => setCurrentIndex i s
  end.

(** The index that [handleAction] moves to, if it moves: the next
    pending pattern, or else the next pattern. *)
Definition nextIndex (s : State) : option nat :=
  match findIndex (λ p idx, (currentIndex s <? idx)%nat && isPending p)
                  (filteredPatterns s) with
  | Some nextPendingIndex => Some nextPendingIndex
  | None =>
      if (currentIndex s <? totalPatterns s - 1)%nat
      then Some (currentIndex s + 1)%nat
      else None
  end.

(** [handleAction]; [now] is [new Date().toISOString()], [updated] tells
    whether the update of the table came back without an error. *)
Definition handleAction (action : Action) (now : string) (updated : bool)
  (transactions : option (list PatternReview.Transaction)) (s : State)
  : State :=
  match currentPattern s with
  | None => s
  | Some current =>
      if updated then
        let u := updateData action now (editedPattern s) in
        let s1 :=
          setPatterns
            (map (λ p, if String.eqb (vendor_group p) (vendor_group current)
                       then merge p u else p)) s in
        if negb (bool_decide (action = save_edit)) || editMode s then
          let s2 := setEditedPattern no_edit (setEditMode false s1) in
          match nextIndex s with
          | Some i => goTo s i transactions s2
          | None => s2
          end
        else s1
      else s
  end.

(** [startEdit]; without a current pattern it throws after
    [setEditMode(true)]. *)
Definition startEdit (s : State) : State :=
  match currentPattern s with
  | Some current =>
      setEditedPattern
        {| edited_pattern_type := Some (pattern_type current);
           edited_average_amount := Some (average_amount current);
           edited_next_date := Some (next_date current) |}
        (setEditMode true s)
  | None => setEditMode true s
  end.

(** The controls of the page. *)
Inductive Event : Type :=
| LooksGood (now : string) (updated : bool)
    (transactions : option (list PatternReview.Transaction))
| Skip (updated : bool)
    (transactions : option (list PatternReview.Transaction))
| SaveChanges (now : string) (updated : bool)
    (transactions : option (list PatternReview.Transaction))
| Edit
| SelectPattern (value : string)
| TypeAmount (value : number)
| PickDate (value : string)
| Cancel
| Previous (transactions : option (list PatternReview.Transaction))
| Next (transactions : option (list PatternReview.Transaction))
| ShowAllVendors (checked : bool).

(** The handler of a control. *)
Definition handle (e : Event) (s : State) : State :=
  match e with
  | LooksGood now updated transactions =>
      handleAction approve now updated transactions s
  | Skip updated transactions => handleAction skip "" updated transactions s
  | SaveChanges now updated transactions =>
      handleAction save_edit now updated transactions s
  | Edit => startEdit s
  | SelectPattern value =>
      setEditedPattern
        {| edited_pattern_type := Some value;
           edited_average_amount := edited_average_amount (editedPattern s);
           edited_next_date := edited_next_date (editedPattern s) |} s
  | TypeAmount value =>
      setEditedPattern
        {| edited_pattern_type := edited_pattern_type (editedPattern s);
           edited_average_amount := Some value;
           edited_next_date := edited_next_date (editedPattern s) |} s
  | PickDate value =>
      setEditedPattern
        {| edited_pattern_type := edited_pattern_type (editedPattern s);
           edited_average_amount := edited_average_amount (editedPattern s);
           edited_next_date := Some value |} s
  | Cancel => setEditedPattern no_edit (setEditMode false s)
  | Previous transactions =>
      if (0 <? currentIndex s)%nat
      then goTo s (currentIndex s - 1) transactions s
      else s
  | Next transactions =>
      if (currentIndex s <? totalPatterns s - 1)%nat
      then goTo s (currentIndex s + 1) transactions s
      else s
  | ShowAllVendors checked => setCurrentIndex 0 (setShowAll checked s)
  end.

(** Whether the render of [s] shows the control, enabled. Without
    patterns to review the page shows none; the card of the current
    pattern holds all of them but the checkbox. *)
Definition offered (s : State) (e : Event) : bool :=
  if (totalPatterns s =? 0)%nat then false
  else
    match e with
    | ShowAllVendors _ => true
    | _ =>
        match currentPattern s with
        | None => false
        | Some _ =>
            match e with
            | SaveChanges _ _ _ | SelectPattern _ | TypeAmount _
            | PickDate _ | Cancel => editMode s
            | LooksGood _ _ _ | Skip _ _ | Edit => negb (editMode s)
            | Previous _ =>
                negb (editMode s) && negb (currentIndex s =? 0)%nat
            | Next _ =>
                negb (editMode s)
                && negb (currentIndex s =? totalPatterns s - 1)%nat
            | ShowAllVendors _ => true
            end
        end
    end.

(** A use of the page: a control that the render does not offer cannot
    be used. *)
Definition step (s : State) (e : Event) : State :=
  if offered s e then handle e s else s.

Definition run (s : State) (events : list Event) : State :=
  foldl step s events.

End PatternReviewV2Page.

(** ** Sample inputs *)

Module Examples.
Import PatternReview.

(** 2025-09-20 and 2026-09-20, midnight UTC. *)
Definition sep20 : Z := 1758326400000.
Definition sep20_next_year : Z := 1789862400000.

Definition tx (d : string) (a : Z) : Transaction :=
  {| transaction_date := d; amount := of_Z a |}.

Definition single : list Transaction := [tx "2025-09-15" 500].

(** Two transactions a week apart. *)
Definition pair_weekly : list Transaction :=
  [tx "2025-09-15" 500; tx "2025-09-08" 500].

(** Three transactions a week apart. *)
Definition three_weekly : list Transaction :=
  [tx "2025-09-15" 500; tx "2025-09-08" 500; tx "2025-09-01" 500].

(** Gaps of 1, 1 and 28 days: the median gap is 1, the mean gap 10. *)
Definition skewed : list Transaction :=
  [tx "2025-09-15" 500; tx "2025-09-14" 500; tx "2025-09-13" 500;
   tx "2025-08-16" 500].

(** One transaction dated ahead of the clock, 181 days after the other. *)
Definition half_year_apart : list Transaction :=
  [tx "2026-03-01" 500; tx "2025-09-01" 500].


(** Two transactions on one date. *)
Definition same_day : list Transaction :=
  [tx "2025-09-15" 500; tx "2025-09-15" 700].

(** A dashboard of three weeks and three vendor groups; the revenue of
    the first week is reconciled. *)
Definition week (n : Z) (start finish text : string)
  : ForecastSpreadsheet.Period :=
  {| ForecastSpreadsheet.week_number := n;
     ForecastSpreadsheet.start_date := start;
     ForecastSpreadsheet.end_date := finish;
     ForecastSpreadsheet.display_text := text |}.

Definition weeks : list ForecastSpreadsheet.Period :=
  [week 1 "2025-08-25" "2025-08-31" "8/25/25";
   week 2 "2025-09-01" "2025-09-07" "9/1/25";
   week 3 "2025-09-08" "2025-09-14" "9/8/25"].

Definition group (i : Z) (name display cat sub : string) (inflow : bool)
  : ForecastSpreadsheet.VendorGroup :=
  {| ForecastSpreadsheet.id := i;
     ForecastSpreadsheet.group_name := name;
     ForecastSpreadsheet.vg_display_name := display;
     ForecastSpreadsheet.category := cat;
     ForecastSpreadsheet.subcategory := sub;
     ForecastSpreadsheet.is_inflow := inflow |}.

Definition groups : list ForecastSpreadsheet.VendorGroup :=
  [group 1 "operating_revenue" "Operating Revenue" "revenue"
     "operating_revenue" true;
   group 2 "payroll_expenses" "Payroll" "operating" "payroll" false;
   group 3 "distributions" "Distributions" "financing" "distributions" false].

Definition forecast_cell (f : Z) : ForecastSpreadsheet.Cell :=
  {| ForecastSpreadsheet.forecasted := of_Z f;
     ForecastSpreadsheet.actual := of_Z 0;
     ForecastSpreadsheet.variance := of_Z 0;
     ForecastSpreadsheet.is_actual := false |}.

Definition actual_cell (f a : Z) : ForecastSpreadsheet.Cell :=
  {| ForecastSpreadsheet.forecasted := of_Z f;
     ForecastSpreadsheet.actual := of_Z a;
     ForecastSpreadsheet.variance := of_Z (a - f);
     ForecastSpreadsheet.is_actual := true |}.

Definition week_cells (revenue payroll distributions : ForecastSpreadsheet.Cell)
  : gmap string (gmap string ForecastSpreadsheet.Cell) :=
  {[ "revenue" := {[ "operating_revenue" := revenue ]};
     "operating" := {[ "payroll" := payroll ]};
     "financing" := {[ "distributions" := distributions ]} ]}.

Definition dashboard : ForecastSpreadsheet.DashboardData :=
  {| ForecastSpreadsheet.forecast_data :=
       {[ "2025-08-25" :=
            week_cells (actual_cell 150000 148000) (forecast_cell (-33208))
                       (forecast_cell (-2042));
          "2025-09-01" :=
            week_cells (forecast_cell 171000) (forecast_cell (-33208))
                       (forecast_cell (-2042));
          "2025-09-08" :=
            week_cells (forecast_cell 177000) (forecast_cell (-22140))
                       (forecast_cell (-2042)) ]};
     ForecastSpreadsheet.cash_balances :=
       {[ "2025-08-25" :=
            {| ForecastSpreadsheet.balance_date := "2025-08-25";
               ForecastSpreadsheet.beginning_balance := of_Z 476121;
               ForecastSpreadsheet.ending_balance := None |} ]};
     ForecastSpreadsheet.data_start_date := "2025-08-25";
     ForecastSpreadsheet.data_end_date := "2025-09-14" |}.

(** The same dashboard with a fourth group outside the three sections of
    the grid, forecast at -500 in the first week. *)
Definition groups_with_other : list ForecastSpreadsheet.VendorGroup :=
  groups ++ [group 4 "misc" "Misc" "other" "misc" false].

Definition dashboard_with_other : ForecastSpreadsheet.DashboardData :=
  {| ForecastSpreadsheet.forecast_data :=
       {[ "2025-08-25" :=
            <["other" := {[ "misc" := forecast_cell (-500) ]}]>
              (week_cells (actual_cell 150000 148000) (forecast_cell (-33208))
                          (forecast_cell (-2042))) ]};
     ForecastSpreadsheet.cash_balances :=
       ForecastSpreadsheet.cash_balances dashboard;
     ForecastSpreadsheet.data_start_date := "2025-08-25";
     ForecastSpreadsheet.data_end_date := "2025-09-14" |}.

(** A store with the reconciled, locked revenue record of the first week
    and the unlocked payroll record of the same week. *)
Definition locked_revenue : ForecastStore.ForecastRecord :=
  {| ForecastStore.date := "2025-08-25";
     ForecastStore.vendor_group := 1;
     ForecastStore.forecasted_amount := of_Z 150000;
     ForecastStore.pattern_type := "weekly";
     ForecastStore.method := ForecastStore.pattern_method;
     ForecastStore.actual_amount := Some (of_Z 148000);
     ForecastStore.record_variance := Some (of_Z (-2000));
     ForecastStore.is_locked := true |}.

Definition generated_record (vg : Z) (d : string) (a : Z)
  : ForecastStore.ForecastRecord :=
  {| ForecastStore.date := d;
     ForecastStore.vendor_group := vg;
     ForecastStore.forecasted_amount := of_Z a;
     ForecastStore.pattern_type := "weekly";
     ForecastStore.method := ForecastStore.pattern_method;
     ForecastStore.actual_amount := None;
     ForecastStore.record_variance := None;
     ForecastStore.is_locked := false |}.

Definition records : gmap (Z * string) ForecastStore.ForecastRecord :=
  {[ (1, "2025-08-25") := locked_revenue;
     (2, "2025-08-25") := generated_record 2 "2025-08-25" (-33208) ]}.

Definition revenue_row : ForecastSpreadsheet.Row :=
  ForecastSpreadsheet.groupRow dashboard weeks
    (group 1 "operating_revenue" "Operating Revenue" "revenue"
       "operating_revenue" true).

Definition payroll_row : ForecastSpreadsheet.Row :=
  ForecastSpreadsheet.groupRow dashboard weeks
    (group 2 "payroll_expenses" "Payroll" "operating" "payroll" false).

(** A regeneration over both records, then an edit of each cell. *)
Definition operations : list ForecastStore.Operation :=
  [ForecastStore.Generate
     [generated_record 1 "2025-08-25" 160000;
      generated_record 2 "2025-08-25" (-35000)];
   ForecastStore.Edit "client" revenue_row
     (week 1 "2025-08-25" "2025-08-31" "8/25/25") (of_Z 999);
   ForecastStore.Edit "client" payroll_row
     (week 1 "2025-08-25" "2025-08-31" "8/25/25") (of_Z 40000)].

End Examples.

(** ** Sample inputs of the pages *)

Module PageExamples.
Import PatternReviewPage.

Definition vendors : list VendorRow :=
  [{| row_vendor_name := "ADP PAYROLL"; row_display_name := Some "Payroll" |};
   {| row_vendor_name := "ADP TAX"; row_display_name := Some "Payroll" |};
   {| row_vendor_name := "AWS"; row_display_name := None |}].

Definition row (vendor d : string) (a : Z) : TransactionRow :=
  {| tx_vendor_name := vendor; tx_transaction_date := d; tx_amount := of_Z a |}.

(** The query returns the newest transactions first. *)
Definition rows : list TransactionRow :=
  [row "AWS" "2025-09-16" (-900);
   row "ADP PAYROLL" "2025-09-15" (-33000);
   row "ADP TAX" "2025-09-15" (-4000);
   row "ADP PAYROLL" "2025-09-01" (-33000);
   row "AWS" "2025-08-16" (-1100)].

End PageExamples.

(** ** A sample pattern of the first page *)

Module PatternExamples.
Import PatternReviewPage.

(** A vendor detected as weekly, with no override. *)
Definition weekly : VendorPattern :=
  {| vendor_name := "AWS";
     display_name := "AWS";
     transactions := Examples.three_weekly;
     detected_pattern := "weekly";
     detected_interval := of_Z 7;
     detected_amount := of_Z 500;
     confidence := of_Z 100;
     next_date := Some "2025-09-22";
     override_pattern := None;
     override_amount := None;
     override_next_date := None |}.

End PatternExamples.

(** ** Sample inputs of the second page *)

Module V2Examples.
Import PatternReviewV2Page.

Definition review (name : string) (st : Status) (pattern : string)
  (days total : Z) : PatternReview :=
  {| id := None;
     vendor_group := name;
     status := st;
     pattern_type := pattern;
     interval_days := of_Z days;
     average_amount := of_Z 100;
     next_date := "2025-09-22";
     confidence := of_Z 90;
     total_transaction_value := of_Z total;
     transaction_count := 4;
     reviewed_at := None;
     recent_transactions := None |}.

(** Four stored reviews in descending order of their value; the last one
    is below the threshold of the page. *)
Definition reviews : list PatternReview :=
  [review "Payroll" pending "bi-weekly" 14 70000;
   review "AWS" reviewed "monthly" 30 2000;
   review "Rent" pending "monthly" 30 1500;
   review "Coffee" pending "weekly" 7 300].

Definition opened : State :=
  {| patterns := reviews;
     currentIndex := 0;
     showAll := false;
     editMode := false;
     editedPattern := no_edit |}.

(** The page on its third pattern. *)
Definition on_rent : State :=
  {| patterns := reviews;
     currentIndex := 2;
     showAll := false;
     editMode := false;
     editedPattern := no_edit |}.

(** An approval, then an edit of the pattern type that is saved. *)
Definition session : list Event :=
  [LooksGood "2025-09-20T10:00:00.000Z" true None;
   Edit;
   SelectPattern "weekly";
   SaveChanges "2025-09-20T10:01:00.000Z" true None].

End V2Examples.

(** * Properties *)

(** ** The calendar-date runtime on sample dates *)

Example iso_parse_monday : iso_parse "2025-08-04" = Some 1754265600000.
Proof. reflexivity. Qed.

Example iso_format_monday : iso_format 1754265600000 = "2025-08-04".
Proof. reflexivity. Qed.

Example iso_parse_sep20 : iso_parse "2025-09-20" = Some Examples.sep20.
Proof. reflexivity. Qed.

Example iso_parse_next_year :
  iso_parse "2026-09-20" = Some Examples.sep20_next_year.
Proof. reflexivity. Qed.

Example iso_parse_invalid :
  iso_parse "2025-02-30" = None ∧ iso_parse "n/a" = None.
Proof. split; reflexivity. Qed.

(** ** Numbers *)

Section NumberFacts.
Local Open Scope Qc_scope.

Lemma Qc_eqb_eq (p q : Qc) : Qc_eqb p q = true ↔ p = q.
Proof.
unfold Qc_eqb. rewrite Qeq_bool_iff. split.
- apply Qc_is_canon.
- by intros ->.
Qed.

Lemma Qc_eqb_neq (p q : Qc) : Qc_eqb p q = false ↔ p ≠ q.
Proof.
rewrite <- Qc_eqb_eq. destruct (Qc_eqb p q); split; congruence.
Qed.

Lemma Qc_leb_le (p q : Qc) : Qc_leb p q = true ↔ p ≤ q.
Proof. unfold Qc_leb. apply Qle_bool_iff. Qed.

Lemma Qc_leb_gt (p q : Qc) : Qc_leb p q = false ↔ q < p.
Proof.
rewrite Qclt_nge, <- Qc_leb_le. destruct (Qc_leb p q); split; congruence.
Qed.

Lemma number_eqb_eq (a b : number) : JS.eqb a b = true → a = b.
Proof.
destruct a, b; simpl; try discriminate; try reflexivity.
intros E. f_equal. by apply Qc_eqb_eq.
Qed.

Lemma of_Z_0 : of_Z 0 = Num 0.
Proof. unfold of_Z. by rewrite Z2Qc_inj_0. Qed.

Lemma add_of_Z (a b : Z) : add (of_Z a) (of_Z b) = of_Z (a + b).
Proof. unfold of_Z. simpl. by rewrite Z2Qc_inj_add. Qed.

Lemma sub_of_Z (a b : Z) : sub (of_Z a) (of_Z b) = of_Z (a - b).
Proof. unfold of_Z, sub. simpl. by rewrite Z2Qc_inj_sub. Qed.

Lemma mul_of_Z (a b : Z) : mul (of_Z a) (of_Z b) = of_Z (a * b).
Proof. unfold of_Z. simpl. by rewrite Z2Qc_inj_mul. Qed.

Lemma Qcabs_of_Z (z : Z) : Qcabs (Qc_of_Z z) = Qc_of_Z (Z.abs z).
Proof.
destruct (Z.le_gt_cases 0 z) as [Hz|Hz].
- rewrite Z.abs_eq by done. apply Qcabs_pos.
  rewrite <- Z2Qc_inj_0. by apply (proj1 (Z2Qc_inj_le 0 z)).
- rewrite Z.abs_neq by lia. rewrite Z2Qc_inj_opp. apply Qcabs_neg.
  rewrite <- Z2Qc_inj_0. apply (proj1 (Z2Qc_inj_le z 0)). lia.
Qed.

Lemma Math_abs_of_Z (z : Z) : Math_abs (of_Z z) = of_Z (Z.abs z).
Proof. unfold of_Z. simpl. by rewrite Qcabs_of_Z. Qed.

Lemma leb_of_Z (a b : Z) : leb (of_Z a) (of_Z b) = (a <=? b)%Z.
Proof.
unfold of_Z. simpl. apply eq_true_iff_eq.
rewrite Qc_leb_le, Z.leb_le. symmetry. apply Z2Qc_inj_le.
Qed.

Lemma Qc_trunc_of_Z (z : Z) : Qc_trunc (Qc_of_Z z) = z.
Proof.
unfold Qc_trunc. destruct (Qc_leb 0 (Qc_of_Z z)); simpl.
- apply Qfloor_Z.
- apply Qceiling_Z.
Qed.

Lemma Date_of_number_of_Z (z : Z) : Date_of_number (of_Z z) = TimeClip z.
Proof.
unfold of_Z, TimeClip. simpl. rewrite Qcabs_of_Z, Qc_trunc_of_Z.
change (Qc_leb (Qc_of_Z (Z.abs z)) (Qc_of_Z 8640000000000000))
  with (leb (of_Z (Z.abs z)) (of_Z 8640000000000000)).
by rewrite leb_of_Z.
Qed.

Lemma Qc_of_Z_neq_0 (z : Z) : z ≠ 0%Z → Qc_of_Z z ≠ 0.
Proof. rewrite <- Z2Qc_inj_0. intros Hz E. by apply Z2Qc_inj in E. Qed.

Lemma div_Num (p q : Qc) : q ≠ 0 → div (Num p) (Num q) = Num (p / q).
Proof. intros Hq. simpl. apply Qc_eqb_neq in Hq. by rewrite Hq. Qed.

Lemma or_else_Num (q : Qc) : or_else (Some (Num q)) (of_Z 0) = Num q.
Proof.
simpl. destruct (Qc_eqb q 0) eqn:E; simpl; [|done].
apply Qc_eqb_eq in E. subst. apply of_Z_0.
Qed.

End NumberFacts.

(** ** The 90-day window *)

Import PatternReview.

Section Window.
Context `{Runtime}.

Lemma recentTxs_filter (today : Z) (txs : list Transaction) :
recentTxs today txs =
List.filter (λ tx, Date_geb (Date_parse (transaction_date tx)) (TimeClip (today - 7776000000))) txs.
Proof.
unfold recentTxs. by rewrite sub_of_Z, Date_of_number_of_Z.
Qed.

Lemma Date_geb_Some (d1 d2 : Date) :
Date_geb d1 d2 = true ↔ ∃ t1 t2, d1 = Some t1 ∧ d2 = Some t2 ∧ t2 ≤ t1.
Proof.
unfold Date_geb, geb. destruct d1 as [t1|], d2 as [t2|]; simpl.
- change (leb (of_Z t2) (of_Z t1) = true ↔
          ∃ a b, Some t1 = Some a ∧ Some t2 = Some b ∧ b ≤ a).
  rewrite leb_of_Z, Z.leb_le. split.
  + intros Hle. by exists t1, t2.
  + intros (a & b & [= ->] & [= ->] & Hle). done.
- split; [done|]. intros (a & b & _ & [=] & _).
- split; [done|]. intros (a & b & [=] & _).
- split; [done|]. intros (a & b & [=] & _).
Qed.

Lemma recentTxs_length (today : Z) (txs : list Transaction) :
(length (recentTxs today txs) ≤ length txs)%nat.
Proof. rewrite recentTxs_filter. apply List.filter_length_le. Qed.

Lemma recentTxs_valid (today : Z) (txs : list Transaction) :
Forall (λ tx, ∃ t, Date_parse (transaction_date tx) = Some t)
       (recentTxs today txs).
Proof.
rewrite recentTxs_filter. apply List.Forall_forall. intros tx Hin.
apply List.filter_In in Hin as [_ Hge].
apply Date_geb_Some in Hge as (t1 & _ & E & _). eauto.
Qed.


End Window.

(** ** The early returns of [analyzePattern] *)

Lemma analyzePattern_few `{Runtime} (today : Z) (txs : list Transaction) :
  (length (recentTxs today txs) < 2)%nat →
  PatternReview.analyzePattern today txs =
  Returns {| detected_pattern := "irregular";
             detected_interval := of_Z 0;
             detected_amount := or_else (amount <$> head txs) (of_Z 0);
             PatternReview.confidence := of_Z 0;
             next_date := None |}.
Proof.
  intros Hfew. unfold PatternReview.analyzePattern.
  destruct (length txs <? 2)%nat; [done|].
  apply Nat.ltb_lt in Hfew. by rewrite Hfew.
Qed.

Lemma analyzePattern_v2_few `{Runtime} (today : Z) (txs : list Transaction) :
  (length (recentTxs today txs) < 2)%nat →
  ∃ amt,
    PatternReviewV2.analyzePattern today txs =
    Returns {| PatternReviewV2.pattern := "irregular";
               PatternReviewV2.interval := of_Z 0;
               PatternReviewV2.avgAmount := amt;
               PatternReviewV2.confidence := of_Z 0;
               PatternReviewV2.nextDate := Date_toISODate today |}.
Proof.
  intros Hfew. unfold PatternReviewV2.analyzePattern.
  destruct (length txs <? 2)%nat; simpl; [by eexists|].
  apply Nat.ltb_lt in Hfew. rewrite Hfew. simpl. by eexists.
Qed.

Lemma few_cases `{Runtime} (today : Z) (txs : list Transaction) :
  (length txs < 2 ∨ length (recentTxs today txs) < 2)%nat →
  (length (recentTxs today txs) < 2)%nat.
Proof. pose proof (recentTxs_length today txs). lia. Qed.

(** C6. With 0 or 1 transactions, in the list or in the 90-day window,
    both pages' [analyzePattern] return normally, and what they return is
    the insufficient-data record: pattern irregular, interval 0 and
    confidence 0. The record is fixed by the first listed transaction
    alone: no date gap takes part in it. *)
Theorem insufficient_data_is_irregular `{Runtime}
    (today : Z) (txs : list Transaction) :
  (length txs < 2 ∨ length (recentTxs today txs) < 2)%nat →
  (∃ r, PatternReview.analyzePattern today txs = Returns r ∧
        detected_pattern r = "irregular" ∧
        PatternReview.confidence r = of_Z 0 ∧
        detected_interval r = of_Z 0 ∧
        detected_amount r = or_else (amount <$> head txs) (of_Z 0) ∧
        next_date r = None) ∧
  (∃ r, PatternReviewV2.analyzePattern today txs = Returns r ∧
        PatternReviewV2.pattern r = "irregular" ∧
        PatternReviewV2.confidence r = of_Z 0 ∧
        PatternReviewV2.interval r = of_Z 0 ∧
        PatternReviewV2.nextDate r = Date_toISODate today).
Proof.
  intros Hfew%few_cases. split.
  - eexists. split; [by apply analyzePattern_few|]. done.
  - destruct (analyzePattern_v2_few today txs Hfew) as [amt E].
    eexists. split; [exact E|]. done.
Qed.

Lemma insufficient_data_witness :
  (length Examples.single < 2 ∨
   length (@recentTxs iso_runtime Examples.sep20 Examples.single) < 2)%nat ∧
  ∃ r, @PatternReview.analyzePattern iso_runtime Examples.sep20 Examples.single
       = Returns r ∧
       detected_pattern r = "irregular" ∧
       PatternReview.confidence r = of_Z 0.
Proof.
  assert (Hfew : (length Examples.single < 2 ∨
    length (@recentTxs iso_runtime Examples.sep20 Examples.single) < 2)%nat)
    by (left; simpl; lia).
  split; [exact Hfew|].
  destruct (@insufficient_data_is_irregular iso_runtime Examples.sep20
              Examples.single Hfew) as [(r & E & Hp & Hc & _) _].
  exists r. auto.
Defined.

(** ** Sums and averages of finite numbers *)

Section Averages.
Import Stats.
Local Open Scope Qc_scope.

Lemma fold_left_add_Num (a : Qc) (gs : list Qc) :
  fold_left add (map Num gs) (Num a) = Num (a + Qc_sum gs).
Proof.
  revert a. induction gs as [|g gs IH]; intros a; simpl.
  - by rewrite Qcplus_0_r.
  - rewrite IH. by rewrite Qcplus_assoc.
Qed.

Lemma sum_Num (gs : list Qc) : sum (map Num gs) = Num (Qc_sum gs).
Proof.
  unfold sum. rewrite of_Z_0, fold_left_add_Num. by rewrite Qcplus_0_l.
Qed.

Lemma Qc_of_nat_neq_0 (n : nat) : n ≠ O → Qc_of_Z (Z.of_nat n) ≠ 0.
Proof. intros Hn. apply Qc_of_Z_neq_0. lia. Qed.

Lemma average_Num (gs : list Qc) :
  gs ≠ [] → average (map Num gs) = Num (Qc_mean gs).
Proof.
  intros Hne. unfold average, Qc_mean, of_nat, of_Z.
  rewrite sum_Num, length_map. apply div_Num, Qc_of_nat_neq_0.
  by destruct gs.
Qed.

Lemma Qc_sum_nonneg (gs : list Qc) : Forall (Qcle 0) gs → 0 ≤ Qc_sum gs.
Proof.
  induction 1 as [|g gs Hg _ IH]; simpl; [done|].
  rewrite <- (Qcplus_0_l 0). by apply Qcplus_le_compat.
Qed.

Lemma Qc_sum_zero (gs : list Qc) :
  Forall (Qcle 0) gs → Qc_sum gs = 0 → Forall (λ g, g = 0) gs.
Proof.
  induction 1 as [|g gs Hg Hgs IH]; simpl; intros Hsum; [constructor|].
  pose proof (Qc_sum_nonneg gs Hgs) as Hs.
  assert (g = 0) as ->.
  { apply Qcle_antisym; [|done]. rewrite <- Hsum.
    rewrite <- (Qcplus_0_r g) at 1. by apply Qcplus_le_compat. }
  rewrite Qcplus_0_l in Hsum. constructor; [done|]. by apply IH.
Qed.

Lemma Qcdiv_zero (p q : Qc) : q ≠ 0 → p / q = 0 → p = 0.
Proof.
  intros Hq E. rewrite <- (Qcmult_div_r p q Hq), E. apply Qcmult_0_r.
Qed.

Lemma Qc_mean_zero (gs : list Qc) :
  gs ≠ [] → Forall (Qcle 0) gs → Qc_mean gs = 0 → Forall (λ g, g = 0) gs.
Proof.
  intros Hne Hpos E. apply Qc_sum_zero; [done|].
  apply (Qcdiv_zero _ (Qc_of_Z (Z.of_nat (length gs)))); [|done].
  apply Qc_of_nat_neq_0. by destruct gs.
Qed.

Lemma Qcdiv_nonneg (p q : Qc) : 0 ≤ p → 0 < q → 0 ≤ p / q.
Proof.
  intros Hp Hq. apply (Qcmult_lt_0_le_reg_r _ _ q); [done|].
  rewrite Qcmult_0_l. unfold Qcdiv.
  rewrite <- Qcmult_assoc, Qcmult_inv_l, Qcmult_1_r; [done|].
  intros ->. by apply (Qclt_not_eq 0 0).
Qed.

Lemma Qc_of_nat_pos (n : nat) : n ≠ O → 0 < Qc_of_Z (Z.of_nat n).
Proof.
  intros Hn. rewrite <- Z2Qc_inj_0. apply (proj1 (Z2Qc_inj_lt _ _)). lia.
Qed.

Lemma Qc_mean_nonneg (gs : list Qc) :
  gs ≠ [] → Forall (Qcle 0) gs → 0 ≤ Qc_mean gs.
Proof.
  intros Hne Hpos. apply Qcdiv_nonneg.
  - by apply Qc_sum_nonneg.
  - apply Qc_of_nat_pos. by destruct gs.
Qed.

Lemma day_gaps_nonneg (ts : list Z) : Forall (Qcle 0) (day_gaps ts).
Proof.
  induction ts as [|t1 [|t2 ts] IH]; simpl; try constructor; [|done].
  apply Qcdiv_nonneg.
  - rewrite <- Z2Qc_inj_0. apply (proj1 (Z2Qc_inj_le _ _)). lia.
  - rewrite <- Z2Qc_inj_0. by apply (proj1 (Z2Qc_inj_lt _ _)).
Qed.

Lemma day_gaps_length (ts : list Z) :
  length (day_gaps ts) = (length ts - 1)%nat.
Proof.
  induction ts as [|t1 [|t2 ts] IH]; simpl in *; try done.
  rewrite IH. lia.
Qed.

End Averages.

(** ** The intervals of the windowed transactions *)

Section Intervals.
Context `{Runtime}.
Import Stats.
Local Open Scope Qc_scope.

Lemma daysDiff_valid (tx1 tx2 : Transaction) (t1 t2 : Z) :
  Date_parse (transaction_date tx1) = Some t1 →
  Date_parse (transaction_date tx2) = Some t2 →
  daysDiff tx1 tx2 = Num (Qc_of_Z (Z.abs (t1 - t2)) / Qc_of_Z msPerDay).
Proof.
  intros E1 E2. unfold daysDiff. rewrite E1, E2. simpl getTime.
  rewrite sub_of_Z, Math_abs_of_Z. unfold of_Z.
  apply div_Num. by apply Qc_of_Z_neq_0.
Qed.

Lemma times_of_cons (tx : Transaction) (txs : list Transaction) (t : Z) :
  Date_parse (transaction_date tx) = Some t →
  times_of (tx :: txs) = t :: times_of txs.
Proof. intros E. unfold times_of. simpl. by rewrite E. Qed.

Lemma times_of_valid (txs : list Transaction) :
  Forall (λ tx, ∃ t, Date_parse (transaction_date tx) = Some t) txs →
  length (times_of txs) = length txs.
Proof.
  induction 1 as [|tx txs [t E] _ IH]; [done|].
  rewrite (times_of_cons _ _ _ E). simpl. by rewrite IH.
Qed.

Lemma intervals_of_valid (txs : list Transaction) :
  Forall (λ tx, ∃ t, Date_parse (transaction_date tx) = Some t) txs →
  intervals_of txs = map Num (day_gaps (times_of txs)).
Proof.
  induction 1 as [|tx1 txs [t1 E1] Hrest IH]; [done|].
  destruct Hrest as [|tx2 txs [t2 E2] Hrest].
  - by rewrite (times_of_cons _ _ _ E1).
  - change (intervals_of (tx1 :: tx2 :: txs))
      with (daysDiff tx1 tx2 :: intervals_of (tx2 :: txs)).
    rewrite IH, (daysDiff_valid _ _ _ _ E1 E2).
    by rewrite (times_of_cons _ _ _ E1), (times_of_cons _ _ _ E2).
Qed.

Lemma recent_intervals (today : Z) (txs : list Transaction) :
  intervals_of (recentTxs today txs) =
  map Num (day_gaps (times_of (recentTxs today txs))).
Proof. apply intervals_of_valid, recentTxs_valid. Qed.

Lemma recent_gaps_nonempty (today : Z) (txs : list Transaction) :
  (2 ≤ length (recentTxs today txs))%nat →
  day_gaps (times_of (recentTxs today txs)) ≠ [].
Proof.
  intros Hlen E. apply (f_equal length) in E.
  rewrite day_gaps_length, times_of_valid in E by apply recentTxs_valid.
  simpl in E. lia.
Qed.

End Intervals.

(** ** The clamp and the rounding of the confidence *)

Section Confidence.
Import Stats.
Local Open Scope Qc_scope.






Lemma variance_Num (m : Qc) (gs : list Qc) :
  map (λ i, Math_abs (sub i (Num m))) (map Num gs) =
  map Num (map (λ x, Qcabs (x - m)) gs).
Proof. rewrite !map_map. done. Qed.


(** With a zero average interval the division is [0 / 0]. *)
Lemma confidence_of_zero_mean (gs : list Qc) :
  gs ≠ [] → Forall (Qcle 0) gs → Qc_mean gs = 0 →
  Math_round (confidence_of (map Num gs) (Num (Qc_mean gs))) = NaN.
Proof.
  intros Hne Hpos Hm. pose proof (Qc_mean_zero gs Hne Hpos Hm) as Hzero.
  unfold confidence_of. rewrite variance_Num.
  change (div (sum _) (of_nat _))
    with (average (map Num (map (λ x, Qcabs (x - Qc_mean gs)) gs))).
  rewrite average_Num by by destruct gs.
  rewrite Hm.
  assert (Qc_mean (map (λ x, Qcabs (x - 0)) gs) = 0) as ->.
  { unfold Qc_mean.
    assert (Qc_sum (map (λ x, Qcabs (x - 0)) gs) = 0) as ->;
      [|apply Qcmult_0_l].
    clear Hne Hpos Hm. induction Hzero as [|g gs -> _ IH]; [done|].
    simpl. rewrite IH, Qcplus_0_r. by apply Qc_is_canon. }
  done.
Qed.

End Confidence.

(** ** The analysis of two or more windowed transactions *)

Section Analysis.
Context `{Runtime}.
Import Stats.
Local Open Scope Qc_scope.

Lemma analyzePattern_fields (today : Z) (txs : list Transaction)
    (r : PatternReview.Analysis) :
  (2 ≤ length (recentTxs today txs))%nat →
  PatternReview.analyzePattern today txs = Returns r →
  let gaps := day_gaps (times_of (recentTxs today txs)) in
  let avgInterval := Num (Qc_mean gaps) in
  detected_pattern r = (classify avgInterval).1 ∧
  detected_interval r = (classify avgInterval).2 ∧
  detected_amount r =
    average (map (λ tx, Math_abs (amount tx)) (recentTxs today txs)) ∧
  PatternReview.confidence r =
    Math_round (confidence_of (map Num gaps) avgInterval).
Proof.
  intros Hlen. unfold PatternReview.analyzePattern.
  pose proof (recentTxs_length today txs) as Hle.
  destruct (length txs <? 2)%nat eqn:E1; [apply Nat.ltb_lt in E1; lia|].
  destruct (length (recentTxs today txs) <? 2)%nat eqn:E2;
    [apply Nat.ltb_lt in E2; lia|].
  rewrite recent_intervals, average_Num by by apply recent_gaps_nonempty.
  destruct (classify _) as [p i].
  destruct (head _); [|done].
  destruct (toISODate _); [|done].
  simpl. intros [= <-]. done.
Qed.

Lemma analyzePattern_v2_fields (today : Z) (txs : list Transaction)
    (r : PatternReviewV2.Analysis) :
  (2 ≤ length (recentTxs today txs))%nat →
  PatternReviewV2.analyzePattern today txs = Returns r →
  let gaps := day_gaps (times_of (recentTxs today txs)) in
  let avgInterval := Num (Qc_mean gaps) in
  PatternReviewV2.pattern r = (classify avgInterval).1 ∧
  PatternReviewV2.interval r = (classify avgInterval).2 ∧
  PatternReviewV2.avgAmount r =
    average (map (λ tx, Math_abs (amount tx)) (recentTxs today txs)) ∧
  PatternReviewV2.confidence r =
    Math_round (confidence_of (map Num gaps) avgInterval).
Proof.
  intros Hlen. unfold PatternReviewV2.analyzePattern.
  pose proof (recentTxs_length today txs) as Hle.
  destruct (length txs <? 2)%nat eqn:E1; [apply Nat.ltb_lt in E1; lia|].
  destruct (length (recentTxs today txs) <? 2)%nat eqn:E2;
    [apply Nat.ltb_lt in E2; lia|].
  rewrite recent_intervals, average_Num by by apply recent_gaps_nonempty.
  destruct (classify _) as [p i].
  destruct (head _); [|done].
  destruct (toISODate _); [|done].
  simpl. intros [= <-]. done.
Qed.

Lemma classify_interval (x : number) :
  (classify x).2 ∈ [of_Z 1; of_Z 7; of_Z 14; of_Z 30; of_Z 90; of_Z 0].
Proof. unfold classify. repeat case_match; simpl; set_solver. Qed.

(** The next date is a valid date whenever the newest windowed date is at
    least 90 days away from both ends of the range of [Date]. *)
Lemma nextDate_in_range (first : Transaction) (t : Z) (x : number) :
  Date_parse (transaction_date first) = Some t →
  (Z.abs t ≤ 8640000000000000 - 90 * msPerDay)%Z →
  is_Some (nextDate_of first (classify x).2).
Proof.
  intros Ht Hrange. unfold nextDate_of. rewrite Ht. simpl getTime.
  assert (Hi : ∃ i, (classify x).2 = of_Z i ∧ (0 ≤ i ≤ 90)%Z).
  { pose proof (classify_interval x) as Hin.
    repeat (apply elem_of_cons in Hin as [->|Hin]);
      [eexists; split; [reflexivity|lia] ..|].
    by apply elem_of_nil in Hin. }
  destruct Hi as (i & -> & Hi).
  rewrite mul_of_Z, add_of_Z, Date_of_number_of_Z. unfold TimeClip.
  unfold msPerDay in Hrange.
  destruct (Z.abs _ <=? _)%Z eqn:E; [by eexists|].
  apply Z.leb_gt in E. lia.
Qed.

(** Both pages return, rather than throw, on every list whose dates are
    at least 90 days away from the ends of the range of [Date]. *)
Lemma analyzePattern_total (today : Z) (txs : list Transaction) :
  (∀ tx t, tx ∈ txs → Date_parse (transaction_date tx) = Some t →
           (Z.abs t ≤ 8640000000000000 - 90 * msPerDay)%Z) →
  (∃ r, PatternReview.analyzePattern today txs = Returns r) ∧
  (∃ r2, PatternReviewV2.analyzePattern today txs = Returns r2).
Proof.
  intros Hrange.
  destruct (decide (length (recentTxs today txs) < 2)%nat) as [Hfew|Hmany].
  { split; [by rewrite analyzePattern_few; eauto|].
    destruct (analyzePattern_v2_few today txs Hfew) as [amt E]. eauto. }
  assert (Hfirst : ∃ first t,
            head (recentTxs today txs) = Some first ∧
            Date_parse (transaction_date first) = Some t ∧
            (Z.abs t ≤ 8640000000000000 - 90 * msPerDay)%Z).
  { pose proof (recentTxs_valid today txs) as Hvalid.
    assert (Hsub : ∀ tx, tx ∈ recentTxs today txs → tx ∈ txs).
    { intros tx Hin. rewrite recentTxs_filter in Hin.
      apply list_elem_of_In, List.filter_In in Hin as [Hin _].
      by apply list_elem_of_In. }
    destruct (recentTxs today txs) as [|first rest]; [simpl in Hmany; lia|].
    apply Forall_cons in Hvalid as [[t Ht] _].
    exists first, t. split; [done|]. split; [done|].
    apply (Hrange first); [|done]. apply Hsub. by left. }
  destruct Hfirst as (first & t & Hhead & Ht & Ht_range).
  pose proof (recentTxs_length today txs) as Hle.
  unfold PatternReview.analyzePattern, PatternReviewV2.analyzePattern.
  destruct (length txs <? 2)%nat eqn:E1; [apply Nat.ltb_lt in E1; lia|].
  destruct (length (recentTxs today txs) <? 2)%nat eqn:E2;
    [apply Nat.ltb_lt in E2; lia|].
  rewrite Hhead.
  pose proof (nextDate_in_range first t
                (average (intervals_of (recentTxs today txs))) Ht Ht_range)
    as [next Hnext].
  destruct (classify _) as [p i]. simpl in Hnext. rewrite Hnext. simpl.
  split; by eexists.
Qed.

End Analysis.

(** ** Evaluating the pages on sample inputs *)

Lemma returns_field {A B : Type} (c : completion A) (f : A → B) (d : B) (r : A) :
  c = Returns r →
  f r = match c with Returns a => f a | Throws _ => d end.
Proof. by intros ->. Qed.

Lemma option_Qc_eqb_eq (m : option Qc) (q : Qc) :
  from_option (λ x, Qc_eqb x q) false m = true → m = Some q.
Proof.
  destruct m as [x|]; simpl; [|done]. intros E. f_equal. by apply Qc_eqb_eq.
Qed.

(** ** Which statistic selects the pattern *)

(** C1, as amended. Whenever two or more transactions fall in the 90-day
    window, the statistic that selects the pattern on both pages is the
    arithmetic mean of the day gaps between consecutive windowed
    transactions, taken in the order of the list. *)
Theorem pattern_selected_by_mean_gap `{Runtime}
    (today : Z) (txs : list Transaction)
    (r : PatternReview.Analysis) (r2 : PatternReviewV2.Analysis) :
  (2 ≤ length (recentTxs today txs))%nat →
  PatternReview.analyzePattern today txs = Returns r →
  PatternReviewV2.analyzePattern today txs = Returns r2 →
  let mean_gap := Stats.Qc_mean (Stats.day_gaps (times_of (recentTxs today txs))) in
  detected_pattern r = (classify (Num mean_gap)).1 ∧
  detected_interval r = (classify (Num mean_gap)).2 ∧
  PatternReviewV2.pattern r2 = (classify (Num mean_gap)).1 ∧
  PatternReviewV2.interval r2 = (classify (Num mean_gap)).2.
Proof.
  intros Hlen E1 E2 mean_gap.
  destruct (analyzePattern_fields today txs r Hlen E1) as (Hp & Hi & _).
  destruct (analyzePattern_v2_fields today txs r2 Hlen E2) as (Hp2 & Hi2 & _).
  done.
Qed.

Lemma pattern_selected_by_mean_gap_witness :
  ∃ r r2,
    (2 ≤ length (@recentTxs iso_runtime Examples.sep20 Examples.skewed))%nat ∧
    @PatternReview.analyzePattern iso_runtime Examples.sep20 Examples.skewed
      = Returns r ∧
    @PatternReviewV2.analyzePattern iso_runtime Examples.sep20 Examples.skewed
      = Returns r2 ∧
    detected_pattern r = "bi-weekly" ∧ PatternReviewV2.pattern r2 = "bi-weekly".
Proof.
  assert (Hlen : (2 ≤ length (@recentTxs iso_runtime Examples.sep20
                                 Examples.skewed))%nat) by (vm_compute; lia).
  destruct (@PatternReview.analyzePattern iso_runtime Examples.sep20
              Examples.skewed) as [r|e] eqn:E1;
    [|vm_compute in E1; discriminate].
  destruct (@PatternReviewV2.analyzePattern iso_runtime Examples.sep20
              Examples.skewed) as [r2|e] eqn:E2;
    [|vm_compute in E2; discriminate].
  exists r, r2.
  destruct (@pattern_selected_by_mean_gap iso_runtime Examples.sep20
              Examples.skewed r r2 Hlen E1 E2) as (Hp & _ & Hp2 & _).
  rewrite Hp, Hp2. repeat split; try done; vm_compute; reflexivity.
Defined.

(** C1 fails as stated: on gaps of 1, 1 and 28 days the median gap is 1
    day, which selects daily, while the page reports bi-weekly, the class
    of the mean gap of 10 days. *)
Lemma median_gap_not_used :
  ∃ r,
    @PatternReview.analyzePattern iso_runtime Examples.sep20 Examples.skewed
      = Returns r ∧
    Spec.median_gap
      (Stats.day_gaps (@times_of iso_runtime
         (@recentTxs iso_runtime Examples.sep20 Examples.skewed)))
      = Some (Qc_of_Z 1) ∧
    (classify (Num (Qc_of_Z 1))).1 = "daily" ∧
    detected_pattern r = "bi-weekly" ∧
    detected_pattern r ≠ (classify (Num (Qc_of_Z 1))).1.
Proof.
  destruct (@PatternReview.analyzePattern iso_runtime Examples.sep20
              Examples.skewed) as [r|e] eqn:E1;
    [|vm_compute in E1; discriminate].
  exists r. rewrite (returns_field _ detected_pattern "" r E1).
  split; [done|]. split; [apply option_Qc_eqb_eq; vm_compute; reflexivity|].
  split; [vm_compute; reflexivity|]. split; [vm_compute; reflexivity|].
  vm_compute. discriminate.
Qed.

(** ** The buckets of [classify] *)

Ltac qc_order :=
  repeat match goal with
  | H : Qc_leb _ _ = true |- _ => apply Qc_leb_le in H
  | H : Qc_leb _ _ = false |- _ => apply Qc_leb_gt in H
  | H : _ ∧ _ |- _ => destruct H
  end;
  unfold Qcle, Qclt in *;
  change (this (Q2Qc 1.5)) with (3 # 2)%Q in *;
  change (this (Qc_of_Z 8)) with (8 # 1)%Q in *;
  change (this (Qc_of_Z 17)) with (17 # 1)%Q in *;
  change (this (Qc_of_Z 35)) with (35 # 1)%Q in *;
  change (this (Qc_of_Z 100)) with (100 # 1)%Q in *;
  try split; lra.

(** C3, as amended. The pattern is a function of the average gap with
    exactly six values, one per bucket: at most 1.5 days daily, above 1.5
    up to 8 weekly, above 8 up to 17 bi-weekly, above 17 up to 35 monthly,
    above 35 up to 100 quarterly, and above 100 irregular. No gap yields
    annual. *)
Theorem classify_buckets (x : number) (q : Qc) :
  (classify x).1 ∈ ["daily"; "weekly"; "bi-weekly"; "monthly"; "quarterly";
                    "irregular"] ∧
  (classify x).1 ≠ "annual" ∧
  (classify (Num q) = ("daily", of_Z 1) ↔ (q ≤ Q2Qc 1.5)%Qc) ∧
  (classify (Num q) = ("weekly", of_Z 7) ↔ (Q2Qc 1.5 < q ≤ Qc_of_Z 8)%Qc) ∧
  (classify (Num q) = ("bi-weekly", of_Z 14) ↔
     (Qc_of_Z 8 < q ≤ Qc_of_Z 17)%Qc) ∧
  (classify (Num q) = ("monthly", of_Z 30) ↔
     (Qc_of_Z 17 < q ≤ Qc_of_Z 35)%Qc) ∧
  (classify (Num q) = ("quarterly", of_Z 90) ↔
     (Qc_of_Z 35 < q ≤ Qc_of_Z 100)%Qc) ∧
  (classify (Num q) = ("irregular", of_Z 0) ↔ (Qc_of_Z 100 < q)%Qc).
Proof.
  split; [|split].
  - unfold classify. repeat case_match; simpl; set_solver.
  - unfold classify. repeat case_match; simpl; discriminate.
  - unfold classify, of_Q, of_Z. simpl leb.
    destruct (Qc_leb q (Q2Qc 1.5)) eqn:E1;
      [|destruct (Qc_leb q (Qc_of_Z 8)) eqn:E2;
        [|destruct (Qc_leb q (Qc_of_Z 17)) eqn:E3;
          [|destruct (Qc_leb q (Qc_of_Z 35)) eqn:E4;
            [|destruct (Qc_leb q (Qc_of_Z 100)) eqn:E5]]]];
    split_and!;
      (split;
       [intros Hc; first [discriminate Hc | qc_order]
       |intros Hq; first [reflexivity | exfalso; qc_order]]).
Qed.

(** C3 fails as stated: two windowed transactions 181 days apart have an
    average gap above 100 days, and the page reports irregular with
    interval 0, not annual. *)
Lemma gap_above_100_is_irregular :
  ∃ r,
    @PatternReview.analyzePattern iso_runtime Examples.sep20
      Examples.half_year_apart = Returns r ∧
    Stats.day_gaps (@times_of iso_runtime
      (@recentTxs iso_runtime Examples.sep20 Examples.half_year_apart))
      = [Qc_of_Z 181] ∧
    detected_pattern r = "irregular" ∧
    detected_pattern r ≠ "annual" ∧
    classify (of_Z 101) = ("irregular", of_Z 0).
Proof.
  destruct (@PatternReview.analyzePattern iso_runtime Examples.sep20
              Examples.half_year_apart) as [r|e] eqn:E1;
    [|vm_compute in E1; discriminate].
  exists r. rewrite (returns_field _ detected_pattern "" r E1).
  split; [done|]. split.
  { vm_compute. f_equal. by apply Qc_is_canon. }
  split; [vm_compute; reflexivity|].
  split; [vm_compute; discriminate|]. vm_compute. reflexivity.
Qed.

(** ** Fewer than two transactions in the window *)

(** C2, as amended. With fewer than 2 transactions inside the 90-day
    window, whatever the dates and gaps of the list, both pages report
    irregular with confidence 0. *)
Theorem fewer_than_two_is_irregular `{Runtime}
    (today : Z) (txs : list Transaction)
    (r : PatternReview.Analysis) (r2 : PatternReviewV2.Analysis) :
  (length (recentTxs today txs) < 2)%nat →
  PatternReview.analyzePattern today txs = Returns r →
  PatternReviewV2.analyzePattern today txs = Returns r2 →
  detected_pattern r = "irregular" ∧
  PatternReview.confidence r = of_Z 0 ∧
  PatternReviewV2.pattern r2 = "irregular" ∧
  PatternReviewV2.confidence r2 = of_Z 0.
Proof.
  intros Hfew E1 E2.
  rewrite (analyzePattern_few today txs Hfew) in E1.
  destruct (analyzePattern_v2_few today txs Hfew) as [amt E].
  rewrite E in E2. injection E1 as <-. injection E2 as <-. done.
Qed.

Lemma fewer_than_two_witness :
  ∃ r r2,
    (length (@recentTxs iso_runtime Examples.sep20_next_year
               Examples.three_weekly) < 2)%nat ∧
    @PatternReview.analyzePattern iso_runtime Examples.sep20_next_year
      Examples.three_weekly = Returns r ∧
    @PatternReviewV2.analyzePattern iso_runtime Examples.sep20_next_year
      Examples.three_weekly = Returns r2 ∧
    detected_pattern r = "irregular" ∧
    PatternReview.confidence r = of_Z 0 ∧
    PatternReviewV2.pattern r2 = "irregular" ∧
    PatternReviewV2.confidence r2 = of_Z 0.
Proof.
  assert (Hfew : (length (@recentTxs iso_runtime Examples.sep20_next_year
                            Examples.three_weekly) < 2)%nat)
    by (vm_compute; lia).
  destruct (@PatternReview.analyzePattern iso_runtime Examples.sep20_next_year
              Examples.three_weekly) as [r|e] eqn:E1;
    [|vm_compute in E1; discriminate].
  destruct (@PatternReviewV2.analyzePattern iso_runtime
              Examples.sep20_next_year Examples.three_weekly)
    as [r2|e] eqn:E2; [|vm_compute in E2; discriminate].
  exists r, r2. split; [exact Hfew|]. split; [done|]. split; [done|].
  exact (@fewer_than_two_is_irregular iso_runtime Examples.sep20_next_year
           Examples.three_weekly r r2 Hfew E1 E2).
Defined.

(** C2 fails as stated: a list of exactly 2 transactions, a week apart
    and both inside the window, is reported weekly with confidence 100. *)
Lemma two_transactions_are_classified :
  ∃ r,
    (length Examples.pair_weekly < 3)%nat ∧
    @recentTxs iso_runtime Examples.sep20 Examples.pair_weekly
      = Examples.pair_weekly ∧
    @PatternReview.analyzePattern iso_runtime Examples.sep20
      Examples.pair_weekly = Returns r ∧
    detected_pattern r = "weekly" ∧
    PatternReview.confidence r = of_Z 100 ∧
    ¬ (detected_pattern r = "irregular" ∧ PatternReview.confidence r = of_Z 0).
Proof.
  destruct (@PatternReview.analyzePattern iso_runtime Examples.sep20
              Examples.pair_weekly) as [r|e] eqn:E1;
    [|vm_compute in E1; discriminate].
  exists r. rewrite (returns_field _ detected_pattern "" r E1).
  rewrite (returns_field _ PatternReview.confidence NaN r E1).
  split; [vm_compute; lia|]. split; [vm_compute; reflexivity|].
  split; [done|]. split; [vm_compute; reflexivity|].
  split; [vm_compute; reflexivity|].
  vm_compute. intros [[=] _].
Qed.

(** ** The confidence score *)

Lemma zero_mean_gap_confidence `{Runtime} (today : Z) (txs : list Transaction)
    (r : PatternReview.Analysis) :
  (2 ≤ length (recentTxs today txs))%nat →
  PatternReview.analyzePattern today txs = Returns r →
  Stats.Qc_mean (Stats.day_gaps (times_of (recentTxs today txs))) = 0%Qc →
  PatternReview.confidence r = NaN.
Proof.
  intros Hlen E1 Hm.
  destruct (analyzePattern_fields today txs r Hlen E1) as (_ & _ & _ & ->).
  apply confidence_of_zero_mean; [|apply day_gaps_nonneg|done].
  by apply recent_gaps_nonempty.
Qed.




(** ** The detected amount *)




(** ** A zero average interval *)

(** C9. The confidence divides by the average interval without a zero
    guard. Two transactions on one date inside the window have the single
    gap 0, so the average interval is 0 and the confidence is [0 / 0],
    which is [NaN]; the clamp and [Math.round] pass it on, and both pages
    return it in their record. *)
Theorem same_date_confidence_is_NaN :
  ∃ r r2 tx1 tx2,
    Examples.same_day = [tx1; tx2] ∧
    transaction_date tx1 = transaction_date tx2 ∧
    @recentTxs iso_runtime Examples.sep20 Examples.same_day
      = Examples.same_day ∧
    average (@intervals_of iso_runtime Examples.same_day) = of_Z 0 ∧
    confidence_of (@intervals_of iso_runtime Examples.same_day) (of_Z 0) = NaN ∧
    Math_round NaN = NaN ∧
    @PatternReview.analyzePattern iso_runtime Examples.sep20 Examples.same_day
      = Returns r ∧
    PatternReview.confidence r = NaN ∧
    @PatternReviewV2.analyzePattern iso_runtime Examples.sep20
      Examples.same_day = Returns r2 ∧
    PatternReviewV2.confidence r2 = NaN.
Proof.
  destruct (@PatternReview.analyzePattern iso_runtime Examples.sep20
              Examples.same_day) as [r|e] eqn:E1;
    [|vm_compute in E1; discriminate].
  destruct (@PatternReviewV2.analyzePattern iso_runtime Examples.sep20
              Examples.same_day) as [r2|e] eqn:E2;
    [|vm_compute in E2; discriminate].
  exists r, r2. do 2 eexists.
  rewrite (returns_field _ PatternReview.confidence (of_Z 0) r E1).
  rewrite (returns_field _ PatternReviewV2.confidence (of_Z 0) r2 E2).
  split; [reflexivity|]. split; [reflexivity|].
  split; [vm_compute; reflexivity|].
  split; [apply number_eqb_eq; vm_compute; reflexivity|].
  repeat split; vm_compute; reflexivity.
Qed.

(** ** The clock *)



(** ** The spreadsheet's cash balance *)

Import ForecastSpreadsheet.

Section CashRows.
Import Stats.
Local Open Scope Qc_scope.

Lemma is_finite_Num (a : number) : is_finite a → a = Num (finite_part a).
Proof. by destruct a. Qed.

Lemma cell_data_start (d : DashboardData) (p q : Period) (vg : VendorGroup) :
  start_date p = start_date q → cell_data d p vg = cell_data d q vg.
Proof. unfold cell_data. by intros ->. Qed.

Lemma groupTotal_start (d : DashboardData) (groups : list VendorGroup)
    (p q : Period) :
  start_date p = start_date q → groupTotal d groups p = groupTotal d groups q.
Proof.
  intros E. unfold groupTotal. generalize (of_Z 0).
  induction groups as [|vg groups IH]; intros a; simpl; [done|].
  by rewrite IH, (cell_data_start d p q vg E).
Qed.

(** A row filled week by week holds, at each week, that week's value. *)
Lemma filled_row_lookup {V : Type} (g : Period → V) (periods : list Period)
    (p : Period) :
  (∀ p q, start_date p = start_date q → g p = g q) →
  p ∈ periods →
  foldl (λ vals period, <[start_date period := g period]> vals)
        (∅ : gmap string V) periods
    !! start_date p = Some (g p).
Proof.
  intros Hg. induction periods as [|x periods IH] using rev_ind.
  - by intros ?%elem_of_nil.
  - rewrite foldl_app. simpl.
    destruct (decide (start_date x = start_date p)) as [E|Hne].
    + intros _. rewrite E, lookup_insert_eq. f_equal. by apply Hg.
    + intros Hin. rewrite lookup_insert_ne by done.
      apply IH. apply elem_of_app in Hin as [Hin|Hin]; [done|].
      apply list_elem_of_singleton in Hin. by subst.
Qed.

Lemma cell_data_finite (d : DashboardData) (p : Period) (vg : VendorGroup)
    (c : Cell) :
  finite_data d → cell_data d p vg = Some c → finite_cell c.
Proof.
  intros [Hcells _]. unfold cell_data.
  destruct (forecast_data d !! start_date p) as [byCat|] eqn:E1; [|done].
  simpl. destruct (byCat !! category vg) as [bySub|] eqn:E2; [|done].
  simpl. intros E3. exact (Hcells _ _ E1 _ _ E2 _ _ E3).
Qed.

Lemma cell_amount_finite (d : DashboardData) (p : Period) (vg : VendorGroup) :
  finite_data d → is_finite (cell_amount (cell_data d p vg)).
Proof.
  intros Hfin. unfold cell_amount.
  destruct (cell_data d p vg) as [c|] eqn:E; [|done].
  destruct (cell_data_finite d p vg c Hfin E) as [Hf Ha].
  destruct (is_actual c); [done|].
  destruct (forecasted c); try done. simpl. by destruct (Qc_eqb q 0).
Qed.


(** The rational amount of a group in a week. *)
Lemma groupTotal_Num (d : DashboardData) (groups : list VendorGroup)
    (p : Period) :
  finite_data d →
  groupTotal d groups p =
  Num (Qc_sum (map (λ vg, finite_part (cell_amount (cell_data d p vg))) groups)).
Proof.
  intros Hfin. unfold groupTotal. rewrite of_Z_0.
  rewrite <- (Qcplus_0_l (Qc_sum _)). generalize 0.
  induction groups as [|vg groups IH]; intros a; simpl.
  - by rewrite Qcplus_0_r.
  - rewrite (is_finite_Num _ (cell_amount_finite d p vg Hfin)) at 1.
    simpl add. rewrite IH. by rewrite Qcplus_assoc.
Qed.


End CashRows.

Section EndingCash.
Variables (periods : list Period) (cashRow netOperating netFinancing : Row).

Local Abbreviation step :=
  (endingCashStep periods cashRow netOperating netFinancing).
Local Abbreviation netOf period :=
  (or_else (values netOperating !! start_date period) (of_Z 0)).
Local Abbreviation finOf period :=
  (or_else (values netFinancing !! start_date period) (of_Z 0)).









End EndingCash.

Section Grid.
Import Stats.
Local Open Scope Qc_scope.
Variables (d : DashboardData) (vendorGroups : list VendorGroup)
  (periods : list Period).

Local Abbreviation revenueGroups :=
  (List.filter (in_category "revenue") vendorGroups).
Local Abbreviation operatingGroups :=
  (List.filter (in_category "operating") vendorGroups).
Local Abbreviation financingGroups :=
  (List.filter (in_category "financing") vendorGroups).
Local Abbreviation totalRevenueRow :=
  (totalRow d periods "total_revenue" "Total Revenue" (Some true)
     revenueGroups).
Local Abbreviation totalOutflowsRow :=
  (totalRow d periods "total_outflows" "Total Outflows" (Some false)
     operatingGroups).
Local Abbreviation netOperating :=
  (netOperatingRow periods totalRevenueRow totalOutflowsRow).
Local Abbreviation netFinancingRow :=
  (totalRow d periods "net_financing_cf" "Net Financing CF" None
     financingGroups).




Lemma totalRow_lookup (rid name : string) (inflow : option bool)
    (groups : list VendorGroup) (p : Period) :
  p ∈ periods →
  values (totalRow d periods rid name inflow groups) !! start_date p
    = Some (groupTotal d groups p).
Proof.
  intros Hin. unfold totalRow. simpl.
  apply (filled_row_lookup (groupTotal d groups)); [|done].
  intros a b. apply groupTotal_start.
Qed.

Lemma netOperatingRow_lookup (p : Period) :
  p ∈ periods →
  values netOperating !! start_date p
    = Some (add (or_else (Some (groupTotal d revenueGroups p)) (of_Z 0))
                (or_else (Some (groupTotal d operatingGroups p)) (of_Z 0))).
Proof.
  intros Hin. unfold netOperatingRow. simpl.
  rewrite (filled_row_lookup
             (λ period,
                add (or_else (values totalRevenueRow !! start_date period)
                             (of_Z 0))
                    (or_else (values totalOutflowsRow !! start_date period)
                             (of_Z 0))) periods p); [|by intros a b ->|done].
  by rewrite !totalRow_lookup.
Qed.



End Grid.


Lemma ending_cash_sample :
  endingCash (rowData (Some Examples.dashboard) Examples.groups Examples.weeks)
    "2025-08-25" = Some (of_Z 588871) ∧
  endingCash (rowData (Some Examples.dashboard) Examples.groups Examples.weeks)
    "2025-09-01" = Some (of_Z 724621).
Proof.
  split.
  - destruct (endingCash _ "2025-08-25") as [e|] eqn:E;
      [|vm_compute in E; discriminate].
    f_equal. apply number_eqb_eq.
    change e with (default NaN (Some e)). rewrite <- E.
    vm_compute. reflexivity.
  - destruct (endingCash _ "2025-09-01") as [e|] eqn:E;
      [|vm_compute in E; discriminate].
    f_equal. apply number_eqb_eq.
    change e with (default NaN (Some e)). rewrite <- E.
    vm_compute. reflexivity.
Qed.


(** The "Beginning Cash" row itself shows the balances that the server
    sent, 0 where it sent none: only the "Ending Cash" row carries a
    week's ending balance into the next week. *)
Lemma beginning_cash_row_is_not_carried :
  values (cashBalanceRow Examples.dashboard Examples.weeks) !! "2025-09-01"
    = Some (of_Z 0) ∧
  endingCash (rowData (Some Examples.dashboard) Examples.groups Examples.weeks)
    "2025-08-25" = Some (of_Z 588871).
Proof.
  split.
  - vm_compute. reflexivity.
  - destruct ending_cash_sample as [E _]. exact E.
Qed.

(** A group outside the three sections has no row, and its amounts take
    no part in the ending balance. *)
Lemma group_outside_sections_is_left_out :
  cell_amount (cell_data Examples.dashboard_with_other
                 (Examples.week 1 "2025-08-25" "2025-08-31" "8/25/25")
                 (Examples.group 4 "misc" "Misc" "other" "misc" false))
    = of_Z (-500) ∧
  ¬ Forall known_category Examples.groups_with_other ∧
  endingCash (rowData (Some Examples.dashboard_with_other)
                Examples.groups_with_other Examples.weeks) "2025-08-25"
    = endingCash (rowData (Some Examples.dashboard) Examples.groups
                    Examples.weeks) "2025-08-25".
Proof.
  split; [vm_compute; reflexivity|]. split.
  - intros Hall. unfold Examples.groups_with_other in Hall.
    apply Forall_app in Hall as [_ Hother].
    apply Forall_cons in Hother as [[E|[E|E]] _]; discriminate E.
  - destruct ending_cash_sample as [-> _].
    destruct (endingCash _ "2025-08-25") as [e|] eqn:E;
      [|vm_compute in E; discriminate].
    f_equal. apply number_eqb_eq.
    change e with (default NaN (Some e)). rewrite <- E.
    vm_compute. reflexivity.
Qed.

(** ** Locked forecast records *)

Import ForecastStore.

Section Locked.
Implicit Types (s : gmap (Z * string) ForecastRecord) (k : Z * string).

Lemma put_generated_locked s (g : ForecastRecord) k (r : ForecastRecord) :
  s !! k = Some r → is_locked r = true → put_generated s g !! k = Some r.
Proof.
  intros Hk Hlocked. unfold put_generated.
  destruct (decide (key g = k)) as [->|Hne].
  - by rewrite Hk, Hlocked.
  - destruct (s !! key g) as [old|]; [destruct (is_locked old)|];
      by rewrite ?lookup_insert_ne.
Qed.

Lemma regenerate_locked (generated : list ForecastRecord) s k
    (r : ForecastRecord) :
  s !! k = Some r → is_locked r = true →
  regenerate generated s !! k = Some r.
Proof.
  unfold regenerate. revert s.
  induction generated as [|g generated IH]; intros s Hk Hlocked; [done|].
  simpl. apply IH; [|done]. by apply put_generated_locked.
Qed.

Lemma cell_update_locked (u : CellUpdate) s k (r : ForecastRecord) :
  s !! k = Some r → is_locked r = true → cell_update u s !! k = Some r.
Proof.
  intros Hk Hlocked. unfold cell_update. cbv zeta.
  destruct (decide ((update_vendor_group_id u, forecast_date u) = k))
    as [->|Hne].
  - by rewrite Hk, Hlocked.
  - destruct (s !! (update_vendor_group_id u, forecast_date u)) as [old|];
      [destruct (is_locked old)|]; by rewrite ?lookup_insert_ne.
Qed.

Lemma apply_operation_locked (op : Operation) s k (r : ForecastRecord) :
  s !! k = Some r → is_locked r = true →
  apply_operation s op !! k = Some r.
Proof.
  intros Hk Hlocked. destruct op as [generated|clientId row period entered].
  - by apply regenerate_locked.
  - simpl. destruct (editCell clientId row period entered); [|done].
    by apply cell_update_locked.
Qed.

(** The grid sends the edit of a vendor-group cell whether or not the
    cell is reconciled: the request does not depend on the flags. *)
Lemma editCell_ignores_flags (clientId : string) (row : Row)
    (flags : gmap string bool) (period : Period) (entered : number) :
  editCell clientId
    {| row_id := row_id row; display_name := display_name row;
       kind := kind row; vendor_group_id := vendor_group_id row;
       row_is_inflow := row_is_inflow row; values := values row;
       is_actual_flags := flags |} period entered
  = editCell clientId row period entered.
Proof. reflexivity. Qed.

End Locked.

(** C8. Whatever sequence of forecast regenerations and spreadsheet cell
    edits is applied to the store, a record that is locked stays in the
    store unchanged, with its forecast amount, actual amount and variance:
    regeneration skips its date and a cell edit of it is refused. *)
Theorem locked_records_unchanged (ops : list Operation)
    (s : gmap (Z * string) ForecastRecord) (k : Z * string)
    (r : ForecastRecord) :
  s !! k = Some r → is_locked r = true →
  run ops s !! k = Some r.
Proof.
  unfold run. revert s.
  induction ops as [|op ops IH]; intros s Hk Hlocked; [done|].
  simpl. apply IH; [|done]. by apply apply_operation_locked.
Qed.

Lemma locked_records_unchanged_witness :
  Examples.records !! (1, "2025-08-25") = Some Examples.locked_revenue ∧
  is_locked Examples.locked_revenue = true ∧
  run Examples.operations Examples.records !! (1, "2025-08-25")
    = Some Examples.locked_revenue.
Proof.
  assert (Hk : Examples.records !! (1, "2025-08-25")
               = Some Examples.locked_revenue) by (vm_compute; reflexivity).
  split; [exact Hk|]. split; [reflexivity|].
  exact (locked_records_unchanged Examples.operations Examples.records
           (1, "2025-08-25") Examples.locked_revenue Hk eq_refl).
Defined.

(** The same operations do reach the unlocked record of that week: the
    edit of the payroll cell replaces its forecast amount and tags it
    manual. *)
Lemma unlocked_record_is_edited :
  ∃ r, run Examples.operations Examples.records !! (2, "2025-08-25") = Some r ∧
       forecasted_amount r = of_Z (-40000) ∧
       method r = manual_method ∧
       is_locked r = false.
Proof.
  destruct (run Examples.operations Examples.records !! (2, "2025-08-25"))
    as [r|] eqn:E; [|vm_compute in E; discriminate].
  exists r. split; [done|].
  assert (Hr : ∀ {B} (f : ForecastRecord → B) (d : B),
    f r = from_option f d
      (run Examples.operations Examples.records !! (2, "2025-08-25")))
    by (intros; by rewrite E).
  split; [rewrite (Hr _ forecasted_amount NaN); apply number_eqb_eq;
          vm_compute; reflexivity|].
  split; [rewrite (Hr _ method pattern_method)|
          rewrite (Hr _ is_locked true)]; vm_compute; reflexivity.
Qed.

(** * Further properties of the pages *)

(** ** Grouping by display name *)

Section Grouping.
Import JSArray.
Context {A V : Type} (key : A → string) (val : A → V).

Lemma push_group_keys (k : string) (v : V) (groups : list (string * list V)) :
  (push_group k v groups).*1 =
  if bool_decide (k ∈ groups.*1) then groups.*1 else groups.*1 ++ [k].
Proof.
  induction groups as [|[k' vs] groups IH]; [done|].
  cbn [push_group]. destruct (String.eqb_spec k' k) as [->|Hne];
    rewrite !fmap_cons; cbn [fst].
  - rewrite bool_decide_eq_true_2 by by left. done.
  - rewrite IH. destruct (decide (k ∈ groups.*1)) as [Hin|Hnotin].
    + rewrite !bool_decide_eq_true_2; [done| |done]. by right.
    + rewrite !bool_decide_eq_false_2; [done| |done].
      intros [->|?]%elem_of_cons; done.
Qed.

Lemma push_group_NoDup (k : string) (v : V) (groups : list (string * list V)) :
  NoDup groups.*1 → NoDup (push_group k v groups).*1.
Proof.
  intros Hnd. rewrite push_group_keys. case_bool_decide; [done|].
  apply NoDup_app. split; [done|]. split; [|apply NoDup_singleton].
  intros x Hx ->%list_elem_of_singleton. done.
Qed.

Lemma group_get_push (k k' : string) (v : V)
    (groups : list (string * list V)) :
  group_get k' (push_group k v groups) =
  if decide (k' = k) then Some (default [] (group_get k groups) ++ [v])
  else group_get k' groups.
Proof.
  induction groups as [|[k0 vs0] groups IH]; simpl.
  - destruct (String.eqb_spec k k') as [->|Hne]; case_decide; naive_solver.
  - destruct (String.eqb_spec k0 k) as [->|Hne]; simpl.
    + destruct (String.eqb_spec k k') as [->|Hne']; case_decide; naive_solver.
    + rewrite IH.
      destruct (String.eqb_spec k0 k') as [->|Hne']; case_decide; naive_solver.
Qed.

Lemma group_get_elem (k : string) (vs : list V)
    (groups : list (string * list V)) :
  NoDup groups.*1 → (k, vs) ∈ groups ↔ group_get k groups = Some vs.
Proof.
  induction groups as [|[k0 vs0] groups IH].
  - intros _. split; [by intros ?%elem_of_nil|done].
  - rewrite fmap_cons, NoDup_cons. cbn [fst group_get]. intros [Hk0 Hnd].
    rewrite elem_of_cons, (IH Hnd).
    destruct (String.eqb_spec k0 k) as [->|Hne].
    + split; [|intros [= ->]; by left]. intros [[= ->]|Hget]; [done|].
      apply (IH Hnd) in Hget. destruct Hk0.
      apply list_elem_of_fmap. by exists (k, vs).
    + split; [|by right]. intros [[= ? ?]|Hget]; [by destruct Hne|done].
Qed.

Lemma group_get_foldl (xs : list A) (k : string) :
  group_get k (foldl (λ groups x, push_group (key x) (val x) groups) [] xs) =
  match filter (λ x, key x = k) xs with
  | [] => None
  | kept => Some (val <$> kept)
  end.
Proof.
  induction xs as [|x xs IH] using rev_ind; [done|].
  rewrite foldl_app. simpl. rewrite group_get_push, filter_app.
  destruct (decide (k = key x)) as [->|Hne].
  - rewrite filter_cons_True by done. rewrite IH.
    destruct (filter _ xs) as [|y ys]; simpl; [done|].
    by rewrite fmap_app.
  - rewrite filter_cons_False by done. rewrite filter_nil, app_nil_r. exact IH.
Qed.

Lemma foldl_push_NoDup (xs : list A) :
  NoDup (foldl (λ groups x, push_group (key x) (val x) groups) [] xs).*1.
Proof.
  induction xs as [|x xs IH] using rev_ind; [constructor|].
  rewrite foldl_app. simpl. by apply push_group_NoDup.
Qed.

End Grouping.

Section GroupedByDisplay.
Import JSArray PatternReviewPage.

Lemma groupedByDisplay_NoDup (vendors : list VendorRow)
    (rows : list TransactionRow) :
  NoDup (groupedByDisplay vendors rows).*1.
Proof.
  apply (foldl_push_NoDup (λ tx, displayNameOf vendors (tx_vendor_name tx))
           strip).
Qed.

Lemma groupedByDisplay_get (vendors : list VendorRow)
    (rows : list TransactionRow) (name : string) :
  group_get name (groupedByDisplay vendors rows) =
  match filter (λ tx, displayNameOf vendors (tx_vendor_name tx) = name) rows with
  | [] => None
  | kept => Some (strip <$> kept)
  end.
Proof.
  apply (group_get_foldl (λ tx, displayNameOf vendors (tx_vendor_name tx))
           strip).
Qed.

(** X1. [groupedByDisplay] holds every display name once; under a name it
    holds exactly the transactions of the query whose vendor maps to that
    name, in the order of the query, and it has no entry for a name
    without transactions. *)
Theorem groupedByDisplay_partition (vendors : list VendorRow)
    (rows : list TransactionRow) (name : string) :
  NoDup (groupedByDisplay vendors rows).*1 ∧
  group_get name (groupedByDisplay vendors rows) =
  match filter (λ tx, displayNameOf vendors (tx_vendor_name tx) = name) rows with
  | [] => None
  | kept => Some (strip <$> kept)
  end.
Proof.
  split; [apply groupedByDisplay_NoDup|apply groupedByDisplay_get].
Qed.

End GroupedByDisplay.


(** ** The stable sort *)

Section Sorting.
Import JSArray.
Context {A : Type}.

Lemma sort_insert_Permutation (compare : A → A → number) (x : A)
    (l : list A) :
  sort_insert compare x l ≡ₚ x :: l.
Proof.
  induction l as [|y l IH]; simpl; [done|].
  destruct (positive (compare x y)); [|done].
  rewrite IH. apply Permutation_swap.
Qed.

Lemma Array_sort_Permutation (compare : A → A → number) (l : list A) :
  Array_sort compare l ≡ₚ l.
Proof.
  induction l as [|x l IH]; simpl; [done|].
  rewrite sort_insert_Permutation. by rewrite IH.
Qed.

Lemma positive_Num (q : Qc) : positive (Num q) = true ↔ (0 < q)%Qc.
Proof.
  unfold positive. rewrite of_Z_0. cbn [leb].
  rewrite andb_true_iff, negb_true_iff, Qc_leb_le, Qc_leb_gt.
  split; [by intros [_ ?]|]. intros Hlt. split; [by apply Qclt_le_weak|done].
Qed.

Lemma positive_sub (a b : Qc) :
  positive (sub (Num b) (Num a)) = true ↔ (a < b)%Qc.
Proof.
  change (sub (Num b) (Num a)) with (Num (b + - a)).
  rewrite positive_Num. symmetry. apply Qclt_minus_iff.
Qed.

(** Sorting by a finite total, largest first. *)
Lemma Array_sort_descending (total : A → number) (l : list A) :
  Forall (λ x, is_finite (total x)) l →
  StronglySorted (λ a b, leb (total b) (total a) = true)
    (Array_sort (λ a b, sub (total b) (total a)) l).
Proof.
  induction 1 as [|x l Hx Hl IH]; simpl; [constructor|].
  assert (Hsorted_fin :
    Forall (λ y, is_finite (total y))
      (Array_sort (λ a b, sub (total b) (total a)) l)).
  { by rewrite Array_sort_Permutation. }
  revert IH Hsorted_fin.
  generalize (Array_sort (λ a b, sub (total b) (total a)) l).
  intros sorted. induction sorted as [|y sorted IHs]; intros Hs Hfin; simpl.
  - repeat constructor.
  - apply StronglySorted_inv in Hs as [Hs Hy].
    apply Forall_cons in Hfin as [Hyfin Hfin].
    destruct (total x) as [qx| | |] eqn:Ex; try done.
    destruct (total y) as [qy| | |] eqn:Ey; try done.
    destruct (positive _) eqn:E.
    + apply positive_sub in E. constructor; [by apply IHs|].
      rewrite sort_insert_Permutation, Ey. constructor; [|done].
      rewrite Ex. by apply Qc_leb_le, Qclt_le_weak.
    + constructor; [constructor; [done|]; by rewrite Ey|].
      assert (Hle : (qy ≤ qx)%Qc).
      { apply Qcnot_lt_le. intros Hlt%positive_sub. congruence. }
      rewrite Ex. constructor; [rewrite Ey; by apply Qc_leb_le|].
      eapply Forall_impl; [exact Hy|]. simpl. intros z Hz.
      destruct (total z) as [qz| | |]; simpl in *; try done.
      apply Qc_leb_le. apply Qc_leb_le in Hz. by eapply Qcle_trans.
Qed.

End Sorting.

(** ** Loading the first page *)

Section LoadPatterns.
Import JSArray PatternReviewPage.
Context `{Runtime}.

Lemma totalValue_finite (txs : list PatternReview.Transaction) :
  Forall (λ tx, is_finite (PatternReview.amount tx)) txs →
  is_finite (totalValue txs).
Proof.
  unfold totalValue. assert (Hacc : is_finite (of_Z 0)) by done.
  revert Hacc. generalize (of_Z 0).
  intros acc Hacc Hall. revert acc Hacc.
  induction Hall as [|tx txs Htx _ IH]; intros acc Hacc; simpl; [done|].
  apply IH. destruct acc, (PatternReview.amount tx); done.
Qed.

Lemma analyzeGroups_Forall2 (today : Z)
    (groups : list (string * list PatternReview.Transaction))
    (ps : list VendorPattern) :
  analyzeGroups today groups = Returns ps →
  Forall2 (analysed today) groups ps.
Proof.
  revert ps. induction groups as [|g groups IH]; intros ps; simpl.
  - intros [= <-]. constructor.
  - unfold analyzeGroup.
    destruct (PatternReview.analyzePattern today g.2) as [a|e] eqn:Ea;
      simpl; [|done].
    destruct (analyzeGroups today groups) as [qs|e]; simpl; [|done].
    intros [= <-]. constructor; [|by apply IH].
    unfold analysed. simpl. repeat (split; [done|]). by exists a.
Qed.

Lemma analyzeGroups_names (today : Z)
    (groups : list (string * list PatternReview.Transaction))
    (ps : list VendorPattern) :
  analyzeGroups today groups = Returns ps → vendor_name <$> ps = groups.*1.
Proof.
  intros E%analyzeGroups_Forall2.
  induction E as [|g p gs qs Hgp _ IH]; [done|].
  rewrite !fmap_cons, IH. f_equal. apply Hgp.
Qed.

Lemma loadPatterns_names_NoDup (today : Z) (vendors : list VendorRow)
    (rows : list TransactionRow) (ps : list VendorPattern) :
  loadPatterns today vendors rows = Returns ps → NoDup (vendor_name <$> ps).
Proof.
  unfold loadPatterns.
  destruct (analyzeGroups today (groupedByDisplay vendors rows))
    as [qs|e] eqn:E; simpl; [|done].
  intros [= <-]. rewrite Array_sort_Permutation, (analyzeGroups_names _ _ _ E).
  apply groupedByDisplay_NoDup.
Qed.

(** X2. When [loadPatterns] succeeds on transactions with finite amounts,
    the list it shows has one pattern per display name, each carrying the
    transactions of that name and their analysis with no override, and the
    list is in descending order of the total absolute transaction value. *)
Theorem loadPatterns_sorted_groups (today : Z) (vendors : list VendorRow)
    (rows : list TransactionRow) (ps : list VendorPattern) :
  Forall (λ tx, is_finite (tx_amount tx)) rows →
  loadPatterns today vendors rows = Returns ps →
  vendor_name <$> ps ≡ₚ (groupedByDisplay vendors rows).*1 ∧
  NoDup (vendor_name <$> ps) ∧
  StronglySorted
    (λ a b, leb (totalValue (transactions b)) (totalValue (transactions a))
            = true) ps ∧
  Forall (λ p, ∃ group, group ∈ groupedByDisplay vendors rows ∧
                        analysed today group p) ps.
Proof.
  intros Hfin. unfold loadPatterns.
  destruct (analyzeGroups today (groupedByDisplay vendors rows))
    as [qs|e] eqn:E; simpl; [|done].
  intros [= <-]. apply analyzeGroups_Forall2 in E.
  pose proof (groupedByDisplay_NoDup vendors rows) as Hnd.
  assert (Hall : Forall (λ p, ∃ group, group ∈ groupedByDisplay vendors rows ∧
                                       analysed today group p) qs).
  { clear Hnd. induction E as [|g p gs qs Hgp _ IH]; constructor.
    - exists g. split; [by left|done].
    - eapply Forall_impl; [exact IH|]. intros q (g' & Hin & Hq).
      exists g'. split; [by right|done]. }
  assert (Hnames : vendor_name <$> qs = (groupedByDisplay vendors rows).*1).
  { clear Hnd Hall. induction E as [|g p gs qs Hgp _ IH]; [done|].
    rewrite !fmap_cons, IH. f_equal. apply Hgp. }
  split; [by rewrite Array_sort_Permutation, Hnames|].
  split; [by rewrite Array_sort_Permutation, Hnames|].
  split; [|by rewrite Array_sort_Permutation].
  apply (Array_sort_descending (λ p, totalValue (transactions p))).
  eapply Forall_impl; [exact Hall|]. intros p ([k txs] & Hin & Hp).
  destruct Hp as (_ & _ & -> & _). simpl.
  apply totalValue_finite.
  apply group_get_elem in Hin; [|done].
  rewrite groupedByDisplay_get in Hin.
  assert (txs = strip <$> filter (λ tx, displayNameOf vendors
                                     (tx_vendor_name tx) = k) rows) as ->.
  { destruct (filter _ rows); [done|]. by injection Hin. }
  apply Forall_fmap. apply Forall_forall. intros tx Htx.
  apply list_elem_of_filter in Htx as [_ Htx].
  rewrite Forall_forall in Hfin. by apply Hfin.
Qed.

End LoadPatterns.

Section LoadPatternsExample.
Import JSArray PatternReviewPage.

Lemma loadPatterns_sorted_groups_witness :
  ∃ ps,
    Forall (λ tx, is_finite (tx_amount tx)) PageExamples.rows ∧
    @loadPatterns iso_runtime Examples.sep20 PageExamples.vendors
      PageExamples.rows = Returns ps ∧
    vendor_name <$> ps = ["Payroll"; "AWS"] ∧
    StronglySorted
      (λ a b, leb (totalValue (transactions b)) (totalValue (transactions a))
              = true) ps.
Proof.
  assert (Hfin : Forall (λ tx, is_finite (tx_amount tx)) PageExamples.rows)
    by (repeat constructor).
  destruct (@loadPatterns iso_runtime Examples.sep20 PageExamples.vendors
              PageExamples.rows) as [ps|e] eqn:E;
    [|vm_compute in E; discriminate].
  exists ps. split; [done|]. split; [done|].
  split.
  - rewrite (returns_field _ (fmap vendor_name) [] ps E).
    vm_compute. reflexivity.
  - exact (proj1 (proj2 (proj2 (@loadPatterns_sorted_groups iso_runtime
             Examples.sep20 PageExamples.vendors PageExamples.rows ps
             Hfin E)))).
Defined.

End LoadPatternsExample.
(** ** Overrides and the records of [savePatterns] *)

Section Overrides.
Import JSArray PatternReviewPage.

Lemma classify_option (x : number) :
  option_days (classify x).1 = Some (classify x).2.
Proof. unfold classify. repeat case_match; reflexivity. Qed.

(** X3. The pattern that [analyzePattern] detects is always one of
    [PATTERN_OPTIONS], and the detected interval is that option's number
    of days. *)
Theorem detected_pattern_is_an_option `{Runtime} (today : Z)
    (txs : list PatternReview.Transaction) (a : PatternReview.Analysis) :
  PatternReview.analyzePattern today txs = Returns a →
  option_days (PatternReview.detected_pattern a) =
  Some (PatternReview.detected_interval a).
Proof.
  unfold PatternReview.analyzePattern.
  destruct (length txs <? 2)%nat; [by intros [= <-]|].
  destruct (length (recentTxs today txs) <? 2)%nat; [by intros [= <-]|].
  pose proof (classify_option (average (intervals_of (recentTxs today txs))))
    as Hc.
  destruct (classify _) as [p i]. destruct (head _); [|done].
  destruct (toISODate _); [|done]. simpl. by intros [= <-].
Qed.

Lemma detected_pattern_is_an_option_witness :
  ∃ a, @PatternReview.analyzePattern iso_runtime Examples.sep20
         Examples.three_weekly = Returns a ∧
       PatternReview.detected_pattern a = "weekly" ∧
       option_days "weekly" = Some (PatternReview.detected_interval a).
Proof.
  destruct (@PatternReview.analyzePattern iso_runtime Examples.sep20
              Examples.three_weekly) as [a|e] eqn:E;
    [|vm_compute in E; discriminate].
  exists a. split; [done|].
  assert (Hp : PatternReview.detected_pattern a = "weekly").
  { rewrite (returns_field _ PatternReview.detected_pattern "" a E).
    vm_compute. reflexivity. }
  split; [done|]. rewrite <- Hp.
  exact (@detected_pattern_is_an_option iso_runtime Examples.sep20
           Examples.three_weekly a E).
Defined.

Lemma map_key_insert {A : Type} (key : A → string) (f : A → A)
    (l : list A) (i : nat) (x : A) :
  NoDup (key <$> l) → l !! i = Some x →
  map (λ y, if String.eqb (key y) (key x) then f y else y) l = <[i := f x]> l.
Proof.
  revert i. induction l as [|y l IH]; intros i; [done|].
  rewrite fmap_cons, NoDup_cons. intros [Hy Hnd]. destruct i as [|i]; simpl.
  - intros [= ->]. rewrite String.eqb_refl. f_equal.
    clear IH. induction l as [|z l IH]; [done|]. simpl.
    rewrite fmap_cons, not_elem_of_cons in Hy. destruct Hy as [Hne Hy].
    apply NoDup_cons in Hnd as [_ Hnd].
    destruct (String.eqb_spec (key z) (key x)) as [Heq|_]; [congruence|].
    f_equal. by apply IH.
  - intros Hx. destruct (String.eqb_spec (key y) (key x)) as [Heq|_].
    + destruct Hy. rewrite Heq. apply list_elem_of_fmap. exists x.
      split; [done|]. by eapply list_elem_of_lookup_2.
    + f_equal. by apply IH.
Qed.

(** X4. After [loadPatterns], a change made through [handlePatternChange]
    under the name of a listed pattern replaces that one entry by its copy
    with the override set, and leaves every other entry, the order and the
    length of the list as they were. *)
Theorem handlePatternChange_one_entry `{Runtime} (today : Z)
    (vendors : list VendorRow) (rows : list TransactionRow)
    (ps : list VendorPattern) (i : nat) (p : VendorPattern)
    (change : Change) :
  loadPatterns today vendors rows = Returns ps →
  ps !! i = Some p →
  handlePatternChange (vendor_name p) change ps
  = <[i := setOverride p change]> ps.
Proof.
  intros Hload Hp. unfold handlePatternChange.
  apply (map_key_insert vendor_name (λ q, setOverride q change)); [|done].
  by eapply loadPatterns_names_NoDup.
Qed.

Lemma handlePatternChange_one_entry_witness :
  ∃ ps p,
    @loadPatterns iso_runtime Examples.sep20 PageExamples.vendors
      PageExamples.rows = Returns ps ∧
    ps !! 1%nat = Some p ∧
    handlePatternChange (vendor_name p) (pattern "monthly") ps
    = <[1%nat := setOverride p (pattern "monthly")]> ps.
Proof.
  destruct (@loadPatterns iso_runtime Examples.sep20 PageExamples.vendors
              PageExamples.rows) as [ps|e] eqn:E;
    [|vm_compute in E; discriminate].
  destruct (ps !! 1%nat) as [p|] eqn:Ep.
  - exists ps, p. split; [done|]. split; [done|].
    exact (@handlePatternChange_one_entry iso_runtime Examples.sep20
             PageExamples.vendors PageExamples.rows ps 1%nat p
             (pattern "monthly") E Ep).
  - exfalso. apply lookup_ge_None in Ep.
    assert (Hlen : length ps = 2%nat).
    { rewrite (returns_field _ length 0%nat ps E). vm_compute. reflexivity. }
    lia.
Defined.

(** X5. When the reviewer picks an option of [PATTERN_OPTIONS], the record
    that [savePatterns] prepares carries the option as its pattern type.
    Its interval is the option's number of days, except for the option
    of 0 days, irregular: then the record keeps the detected interval. *)
Theorem override_pattern_interval (clientId now : string)
    (p : VendorPattern) (o label : string) (days : Z) :
  (o, label, days) ∈ PATTERN_OPTIONS →
  let r := patternRecord clientId now (setOverride p (pattern o)) in
  pattern_type r = o ∧
  interval_days r = if decide (days = 0) then detected_interval p
                    else of_Z days.
Proof.
  intros Hin. unfold PATTERN_OPTIONS in Hin.
  repeat (apply elem_of_cons in Hin as [[= -> -> ->]|Hin]);
    [split; reflexivity ..|].
  by apply elem_of_nil in Hin.
Qed.

Lemma override_pattern_interval_witness :
  ("irregular", "Irregular", 0) ∈ PATTERN_OPTIONS ∧
  pattern_type (patternRecord "client" "now"
                  (setOverride PatternExamples.weekly (pattern "irregular")))
  = "irregular" ∧
  interval_days (patternRecord "client" "now"
                   (setOverride PatternExamples.weekly (pattern "irregular")))
  = of_Z 7.
Proof.
  assert (Hin : ("irregular", "Irregular", 0) ∈ PATTERN_OPTIONS).
  { unfold PATTERN_OPTIONS. rewrite !elem_of_cons. do 5 right. by left. }
  split; [exact Hin|].
  exact (override_pattern_interval "client" "now" PatternExamples.weekly
           "irregular" "Irregular" 0 Hin).
Defined.

(** X6. An amount typed into the page is saved when it is a number other
    than 0; 0 and [NaN], which [parseFloat] gives for an empty field, fall
    back to the detected amount. So a record's amount is 0 only where the
    detected amount is 0. *)
Theorem override_amount_fallback (clientId now : string) (p : VendorPattern)
    (v : number) :
  average_amount (patternRecord clientId now (setOverride p (amount v)))
  = (if truthy v then v else detected_amount p) ∧
  (average_amount (patternRecord clientId now (setOverride p (amount v)))
   = of_Z 0 → detected_amount p = of_Z 0).
Proof.
  simpl. split; [done|]. destruct v as [q| | |]; simpl; try done.
  destruct (Qc_eqb q 0) eqn:E; simpl; [done|].
  rewrite of_Z_0. intros [= Hq]. apply Qc_eqb_neq in E. by destruct E.
Qed.

End Overrides.
(** ** The second page: the fresh analysis *)

Section FreshAnalysis.
Import JSArray PatternReviewPage PatternReviewV2Page.
Context `{Runtime}.

Local Abbreviation nameOf vendors :=
  (λ tx : TransactionRow, displayNameOf vendors (tx_vendor_name tx)).

Local Abbreviation descending :=
  (λ a b : PatternReview,
     leb (total_transaction_value b) (total_transaction_value a) = true).

(** What [patternRecord] writes for the group [g]. *)
Local Abbreviation recorded g p :=
  (vendor_group p = g.1 ∧ status p = pending ∧
   total_transaction_value p = totalValue g.2 ∧
   transaction_count p = length g.2 ∧
   option_days (pattern_type p) = Some (interval_days p)).

Lemma groupedByDisplay_v2_NoDup (vendors : list VendorRow)
    (rows : list TransactionRow) :
  NoDup (PatternReviewV2Page.groupedByDisplay vendors rows).*1.
Proof. apply (foldl_push_NoDup (nameOf vendors) (λ tx, tx)). Qed.

Lemma groupedByDisplay_v2_get (vendors : list VendorRow)
    (rows : list TransactionRow) (name : string) :
  group_get name (PatternReviewV2Page.groupedByDisplay vendors rows) =
  match filter (λ tx, nameOf vendors tx = name) rows with
  | [] => None
  | kept => Some kept
  end.
Proof.
  unfold PatternReviewV2Page.groupedByDisplay.
  rewrite (group_get_foldl (nameOf vendors) (λ tx, tx)).
  destruct (filter _ rows); [done|]. by rewrite list_fmap_id.
Qed.

Lemma analyzePattern_v2_option (today : Z)
    (txs : list PatternReview.Transaction) (a : PatternReviewV2.Analysis) :
  PatternReviewV2.analyzePattern today txs = Returns a →
  option_days (PatternReviewV2.pattern a) = Some (PatternReviewV2.interval a).
Proof.
  unfold PatternReviewV2.analyzePattern.
  destruct (length txs <? 2)%nat.
  { destruct (toISODate _); [|done]. by intros [= <-]. }
  destruct (length (recentTxs today txs) <? 2)%nat.
  { destruct (toISODate _); [|done]. by intros [= <-]. }
  pose proof (classify_option (average (intervals_of (recentTxs today txs))))
    as Hc.
  destruct (classify _) as [p i]. destruct (head _); [|done].
  destruct (toISODate _); [|done]. simpl. by intros [= <-].
Qed.

Lemma totalValue_v2_finite (txs : list TransactionRow) :
  Forall (λ tx, is_finite (tx_amount tx)) txs →
  is_finite (PatternReviewV2Page.totalValue txs).
Proof.
  unfold PatternReviewV2Page.totalValue.
  assert (Hacc : is_finite (of_Z 0)) by done.
  revert Hacc. generalize (of_Z 0).
  intros acc Hacc Hall. revert acc Hacc.
  induction Hall as [|tx txs Htx _ IH]; intros acc Hacc; simpl; [done|].
  apply IH. destruct acc, (tx_amount tx); done.
Qed.

Lemma analyzeGroups_v2_Forall2 (today : Z)
    (groups : list (string * list TransactionRow))
    (records : list PatternReview) :
  PatternReviewV2Page.analyzeGroups today groups = Returns records →
  Forall2 (λ g p, recorded g p) groups records.
Proof.
  revert records. induction groups as [|g groups IH]; intros records; simpl.
  - intros [= <-]. constructor.
  - unfold PatternReviewV2Page.patternRecord.
    destruct (PatternReviewV2.analyzePattern today _) as [a|e] eqn:Ea;
      simpl; [|done].
    destruct (PatternReviewV2Page.analyzeGroups today groups) as [qs|e];
      simpl; [|done].
    intros [= <-]. constructor; [|by apply IH]. simpl.
    repeat (split; [done|]). by eapply analyzePattern_v2_option.
Qed.

Lemma patternRecords_names_NoDup (today : Z) (vendors : list VendorRow)
    (rows : list TransactionRow) (records : list PatternReview) :
  patternRecords today vendors rows = Returns records →
  NoDup (vendor_group <$> records).
Proof.
  unfold patternRecords.
  destruct (PatternReviewV2Page.analyzeGroups today
              (PatternReviewV2Page.groupedByDisplay vendors rows))
    as [qs|e] eqn:E; simpl; [|done].
  intros [= <-]. apply analyzeGroups_v2_Forall2 in E.
  rewrite Array_sort_Permutation.
  assert (Hnames : vendor_group <$> qs =
                   (PatternReviewV2Page.groupedByDisplay vendors rows).*1).
  { induction E as [|g p gs qs Hgp _ IH]; [done|].
    rewrite !fmap_cons, IH. f_equal. apply Hgp. }
  rewrite Hnames. apply groupedByDisplay_v2_NoDup.
Qed.

(** X7. The records that [analyzeAndSavePatterns] inserts, for
    transactions with finite amounts: one record per display name with a
    transaction, all pending, in descending order of the total value.
    A record carries the count and the total absolute amount of the
    transactions under its name, and its interval is the number of days
    that [PATTERN_OPTIONS] gives for its pattern type. *)
Theorem patternRecords_fresh (today : Z) (vendors : list VendorRow)
    (rows : list TransactionRow) (records : list PatternReview) :
  Forall (λ tx, is_finite (tx_amount tx)) rows →
  patternRecords today vendors rows = Returns records →
  NoDup (vendor_group <$> records) ∧
  (∀ tx, tx ∈ rows → nameOf vendors tx ∈ vendor_group <$> records) ∧
  StronglySorted descending records ∧
  Forall (λ p,
    let txs := filter (λ tx, nameOf vendors tx = vendor_group p) rows in
    txs ≠ [] ∧ status p = pending ∧
    total_transaction_value p = PatternReviewV2Page.totalValue txs ∧
    transaction_count p = length txs ∧
    option_days (pattern_type p) = Some (interval_days p)) records.
Proof.
  intros Hfin. unfold patternRecords.
  destruct (PatternReviewV2Page.analyzeGroups today
              (PatternReviewV2Page.groupedByDisplay vendors rows))
    as [qs|e] eqn:E; simpl; [|done].
  intros [= <-]. apply analyzeGroups_v2_Forall2 in E.
  pose proof (groupedByDisplay_v2_NoDup vendors rows) as Hnd.
  assert (Hnames : vendor_group <$> qs =
                   (PatternReviewV2Page.groupedByDisplay vendors rows).*1).
  { clear Hnd. induction E as [|g p gs qs Hgp _ IH]; [done|].
    rewrite !fmap_cons, IH. f_equal. apply Hgp. }
  assert (Hall : Forall (λ p,
    let txs := filter (λ tx, nameOf vendors tx = vendor_group p) rows in
    txs ≠ [] ∧ status p = pending ∧
    total_transaction_value p = PatternReviewV2Page.totalValue txs ∧
    transaction_count p = length txs ∧
    option_days (pattern_type p) = Some (interval_days p)) qs).
  { assert (Hsub : ∀ g, g ∈ PatternReviewV2Page.groupedByDisplay vendors rows →
              g.2 = filter (λ tx, nameOf vendors tx = g.1) rows ∧ g.2 ≠ []).
    { intros [k txs] Hin. apply group_get_elem in Hin; [|done].
      rewrite groupedByDisplay_v2_get in Hin. simpl.
      destruct (filter _ rows); [done|]. by injection Hin as <-. }
    clear Hnd Hnames.
    induction E as [|g p gs qs Hgp _ IH]; constructor.
    - destruct (Hsub g) as [Hg Hne]; [by left|].
      destruct Hgp as (Hname & Hst & Htot & Hcnt & Hopt). simpl.
      rewrite Hname, <- Hg. done.
    - apply IH. intros g' Hg'. apply Hsub. by right. }
  split; [by rewrite Array_sort_Permutation, Hnames|].
  split.
  { intros tx Htx. rewrite Array_sort_Permutation, Hnames.
    pose proof (groupedByDisplay_v2_get vendors rows (nameOf vendors tx))
      as Hget.
    assert (Hin : tx ∈ filter (λ tx', nameOf vendors tx' = nameOf vendors tx)
                         rows) by by apply list_elem_of_filter.
    destruct (filter _ rows) as [|tx' kept].
    - by apply elem_of_nil in Hin.
    - apply group_get_elem in Hget; [|done].
      apply list_elem_of_fmap. by eexists (_, _). }
  split; [|by rewrite Array_sort_Permutation].
  apply (Array_sort_descending total_transaction_value).
  eapply Forall_impl; [exact Hall|]. simpl.
  intros p (_ & _ & -> & _). apply totalValue_v2_finite.
  apply Forall_forall. intros tx Htx.
  apply list_elem_of_filter in Htx as [_ Htx].
  rewrite Forall_forall in Hfin. by apply Hfin.
Qed.

(** X8. Without stored reviews, [loadPatterns] analyses the
    transactions and, when the insert succeeds, opens the page on the
    inserted records in their order, at the first one and out of edit
    mode; the transactions it fetches go to the first record only. When
    the insert fails the page stays empty. *)
Theorem loadPatterns_fresh (today : Z) (existing : option (list PatternReview))
    (vendors : list VendorRow) (rows : list TransactionRow)
    (inserted : bool) (transactions : option (list PatternReview.Transaction))
    (records : list PatternReview) :
  existing = None ∨ existing = Some [] →
  patternRecords today vendors rows = Returns records →
  loadPatterns today existing vendors rows inserted transactions initial
  = Returns
      (if inserted then
         {| patterns :=
              match records with
              | [] => []
              | first :: rest =>
                  withRecent (default [] transactions) first :: rest
              end;
            currentIndex := 0;
            showAll := false;
            editMode := false;
            editedPattern := no_edit |}
       else initial).
Proof.
  intros Hnone Hrecords.
  pose proof (patternRecords_names_NoDup _ _ _ _ Hrecords) as Hnd.
  assert (Hload : loadPatterns today existing vendors rows inserted
                    transactions initial
                  = analyzeAndSavePatterns today vendors rows inserted
                      transactions initial)
    by by destruct Hnone as [-> | ->].
  rewrite Hload. unfold analyzeAndSavePatterns. rewrite Hrecords. simpl.
  destruct inserted; [|done]. destruct records as [|first rest]; [done|].
  unfold loadTransactionsForPattern, setPatterns. simpl patterns.
  f_equal. f_equal.
  exact (map_key_insert vendor_group (withRecent (default [] transactions))
           (first :: rest) 0 first Hnd eq_refl).
Qed.

End FreshAnalysis.

Section FreshAnalysisExample.
Import JSArray PatternReviewPage PatternReviewV2Page.

Lemma patternRecords_fresh_witness :
  ∃ records,
    Forall (λ tx, is_finite (tx_amount tx)) PageExamples.rows ∧
    @patternRecords iso_runtime Examples.sep20 PageExamples.vendors
      PageExamples.rows = Returns records ∧
    vendor_group <$> records = ["Payroll"; "AWS"] ∧
    NoDup (vendor_group <$> records).
Proof.
  assert (Hfin : Forall (λ tx, is_finite (tx_amount tx)) PageExamples.rows)
    by (repeat constructor).
  destruct (@patternRecords iso_runtime Examples.sep20 PageExamples.vendors
              PageExamples.rows) as [records|e] eqn:E;
    [|vm_compute in E; discriminate].
  exists records. split; [done|]. split; [done|].
  split.
  - rewrite (returns_field _ (fmap vendor_group) [] records E).
    vm_compute. reflexivity.
  - exact (proj1 (@patternRecords_fresh iso_runtime Examples.sep20
             PageExamples.vendors PageExamples.rows records Hfin E)).
Defined.

Lemma loadPatterns_fresh_witness :
  ∃ records,
    @patternRecords iso_runtime Examples.sep20 PageExamples.vendors
      PageExamples.rows = Returns records ∧
    vendor_group <$> records = ["Payroll"; "AWS"] ∧
    @loadPatterns iso_runtime Examples.sep20 None PageExamples.vendors
      PageExamples.rows true None initial
    = Returns
        {| patterns :=
             match records with
             | [] => []
             | first :: rest => withRecent [] first :: rest
             end;
           currentIndex := 0;
           showAll := false;
           editMode := false;
           editedPattern := no_edit |}.
Proof.
  destruct (@patternRecords iso_runtime Examples.sep20 PageExamples.vendors
              PageExamples.rows) as [records|e] eqn:E;
    [|vm_compute in E; discriminate].
  exists records. split; [done|]. split.
  { rewrite (returns_field _ (fmap vendor_group) [] records E).
    vm_compute. reflexivity. }
  exact (@loadPatterns_fresh iso_runtime Examples.sep20 None
           PageExamples.vendors PageExamples.rows true None records
           (or_introl eq_refl) E).
Defined.

End FreshAnalysisExample.
(** ** The second page: what a render shows *)

Section Render.
Import JSArray PatternReviewV2Page.
Local Open Scope Qc_scope.

Local Abbreviation descending :=
  (λ a b : PatternReview,
     leb (total_transaction_value b) (total_transaction_value a) = true).

Lemma leb_trans (a b c : number) :
  leb a b = true → leb b c = true → leb a c = true.
Proof.
  destruct a as [p| | |], b as [q| | |], c as [r| | |]; simpl; try done.
  rewrite !Qc_leb_le. apply Qcle_trans.
Qed.

Lemma filter_descending_prefix (l : list PatternReview) :
  StronglySorted descending l →
  List.filter atLeast1000 l = take (length (List.filter atLeast1000 l)) l.
Proof.
  induction 1 as [|x l Hl IH Hx]; [done|]. simpl.
  destruct (atLeast1000 x) eqn:E; simpl; [by rewrite <- IH|].
  assert (Hnone : List.filter atLeast1000 l = []); [|by rewrite Hnone].
  clear IH Hl. induction Hx as [|y l Hy _ IH]; [done|]. simpl.
  destruct (atLeast1000 y) eqn:Ey; [|done].
  unfold atLeast1000, geb in *.
  by rewrite (leb_trans _ _ _ Ey Hy) in E.
Qed.

(** X9. Where the patterns are in descending order of their value, as
    the fresh analysis leaves them, the patterns that the page shows are
    the first ones of the list: an index into the shown list is the same
    index into the full list. *)
Theorem filteredPatterns_prefix (s : State) :
  StronglySorted descending (patterns s) →
  filteredPatterns s = take (totalPatterns s) (patterns s).
Proof.
  intros Hs. unfold totalPatterns, filteredPatterns.
  destruct (showAll s); [by rewrite firstn_all|].
  by apply filter_descending_prefix.
Qed.

Lemma filteredPatterns_prefix_witness :
  StronglySorted descending (patterns V2Examples.opened) ∧
  filteredPatterns V2Examples.opened = take 3 V2Examples.reviews.
Proof.
  assert (Hs : StronglySorted descending (patterns V2Examples.opened)).
  { repeat (constructor; [|repeat (apply List.Forall_cons; [reflexivity|]);
                           apply List.Forall_nil]).
    constructor. }
  split; [exact Hs|].
  exact (filteredPatterns_prefix V2Examples.opened Hs).
Defined.

Lemma reviewed_le_total (l : list PatternReview) :
  (length (List.filter isReviewed l) ≤ length l)%nat.
Proof.
  induction l as [|p l IH]; simpl; [done|].
  destruct (isReviewed p); simpl; lia.
Qed.

Lemma reviewed_all (l : list PatternReview) :
  length (List.filter isReviewed l) = length l ↔
  Forall (λ p, status p = reviewed) l.
Proof.
  induction l as [|p l IH]; simpl; [by split; [constructor|]|].
  pose proof (reviewed_le_total l) as Hle.
  rewrite Forall_cons. unfold isReviewed at 1.
  case_bool_decide; simpl; [rewrite <- IH; split; [by intros [= ->]|]|].
  - by intros [_ ->].
  - split; [lia|by intros [? _]].
Qed.

Lemma percent_of_ratio (r t : Z) :
  (0 ≤ r ≤ t)%Z → (0 < t)%Z →
  0 ≤ Qc_of_Z r / Qc_of_Z t * Qc_of_Z 100 ∧
  Qc_of_Z r / Qc_of_Z t * Qc_of_Z 100 ≤ Qc_of_Z 100 ∧
  (Qc_of_Z r / Qc_of_Z t * Qc_of_Z 100 = Qc_of_Z 100 ↔ r = t).
Proof.
  intros Hr Ht.
  assert (Hpos : 0 < Qc_of_Z t).
  { rewrite <- Z2Qc_inj_0. apply (proj1 (Z2Qc_inj_lt _ _)). done. }
  assert (Hne : Qc_of_Z t ≠ 0) by (intros E; rewrite E in Hpos;
                                   by apply (Qclt_not_eq 0 0)).
  assert (Hx : Qc_of_Z r / Qc_of_Z t * Qc_of_Z 100 * Qc_of_Z t
               = Qc_of_Z (r * 100)).
  { rewrite Z2Qc_inj_mul. field. done. }
  split; [|split].
  - apply (Qcmult_lt_0_le_reg_r _ _ (Qc_of_Z t)); [done|].
    rewrite Hx, Qcmult_0_l, <- Z2Qc_inj_0.
    apply (proj1 (Z2Qc_inj_le _ _)). lia.
  - apply (Qcmult_lt_0_le_reg_r _ _ (Qc_of_Z t)); [done|].
    rewrite Hx, <- Z2Qc_inj_mul. apply (proj1 (Z2Qc_inj_le _ _)). lia.
  - split.
    + intros E. rewrite E, <- Z2Qc_inj_mul in Hx.
      apply Z2Qc_inj in Hx. lia.
    + intros ->. field. done.
Qed.

(** X10. The progress of the bar is a number from 0 to 100. It is 100
    exactly when the page shows at least one pattern and every pattern it
    shows is reviewed; a skipped pattern keeps it below 100. *)
Theorem progressPercent_bounds (s : State) :
  ∃ q : Qc,
    progressPercent s = Num q ∧ 0 ≤ q ∧ q ≤ Qc_of_Z 100 ∧
    (q = Qc_of_Z 100 ↔
     totalPatterns s ≠ 0%nat ∧
     Forall (λ p, status p = reviewed) (filteredPatterns s)).
Proof.
  unfold progressPercent, reviewedCount, totalPatterns.
  pose proof (reviewed_le_total (filteredPatterns s)) as Hle.
  pose proof (reviewed_all (filteredPatterns s)) as Hall.
  destruct (0 <? length (filteredPatterns s))%nat eqn:E.
  - apply Nat.ltb_lt in E.
    destruct (percent_of_ratio
                (Z.of_nat (length (List.filter isReviewed (filteredPatterns s))))
                (Z.of_nat (length (filteredPatterns s))))
      as (H0 & H100 & Heq); [lia..|].
    eexists. split; [|split; [exact H0|split; [exact H100|]]].
    + unfold of_nat, of_Z. rewrite div_Num; [done|].
      apply Qc_of_nat_neq_0. lia.
    + rewrite Heq, <- Hall. split; [intros ?%Nat2Z.inj; split; [lia|done]|].
      by intros [_ ->].
  - apply Nat.ltb_ge in E. exists 0. split; [apply of_Z_0|].
    split; [done|]. split; [done|].
    split; [|intros [? _]; lia].
    intros E0. rewrite <- Z2Qc_inj_0 in E0. by apply Z2Qc_inj in E0.
Qed.

End Render.
(** ** The second page: the actions of the reviewer *)

Section Actions.
Import JSArray PatternReviewV2Page.

(** What no control of the page changes in a pattern. *)
Local Abbreviation kept p p' :=
  (vendor_group p' = vendor_group p ∧ id p' = id p ∧
   interval_days p' = interval_days p ∧ confidence p' = confidence p ∧
   total_transaction_value p' = total_transaction_value p ∧
   transaction_count p' = transaction_count p).

Lemma findIndex_from_Some {A : Type} (test : A → nat → bool) (idx : nat)
    (xs : list A) (j : nat) :
  findIndex_from test idx xs = Some j →
  (idx ≤ j)%nat ∧
  (∃ x, xs !! (j - idx)%nat = Some x ∧ test x j = true) ∧
  ∀ k y, (idx ≤ k < j)%nat → xs !! (k - idx)%nat = Some y → test y k = false.
Proof.
  revert idx. induction xs as [|x xs IH]; intros idx; simpl; [done|].
  destruct (test x idx) eqn:E.
  - intros [= <-]. split; [done|]. split; [|intros; lia].
    exists x. by rewrite Nat.sub_diag.
  - intros (Hle & (y & Hy & Hty) & Hbefore)%IH.
    split; [lia|]. split.
    + exists y. split; [|done].
      replace (j - idx)%nat with (S (j - S idx)) by lia. done.
    + intros k z Hk Hz. destruct (decide (k = idx)) as [->|Hne].
      * rewrite Nat.sub_diag in Hz. by injection Hz as <-.
      * apply Hbefore; [lia|].
        replace (k - idx)%nat with (S (k - S idx)) in Hz by lia. done.
Qed.

Lemma findIndex_from_None {A : Type} (test : A → nat → bool) (idx : nat)
    (xs : list A) :
  findIndex_from test idx xs = None →
  ∀ k y, xs !! k = Some y → test y (idx + k)%nat = false.
Proof.
  revert idx. induction xs as [|x xs IH]; intros idx; simpl; [done|].
  destruct (test x idx) eqn:E; [done|]. intros Hnone [|k] y; simpl.
  - intros [= <-]. by rewrite Nat.add_0_r.
  - intros Hy. replace (idx + S k)%nat with (S idx + k)%nat by lia.
    by apply IH.
Qed.

Lemma kept_refl (l : list PatternReview) : Forall2 (λ p p', kept p p') l l.
Proof. induction l; constructor; done. Qed.

Lemma kept_trans (l1 l2 l3 : list PatternReview) :
  Forall2 (λ p p', kept p p') l1 l2 → Forall2 (λ p p', kept p p') l2 l3 →
  Forall2 (λ p p', kept p p') l1 l3.
Proof.
  intros H12. revert l3. induction H12 as [|p q l1 l2 Hpq _ IH]; intros l3.
  - by intros ->%Forall2_nil_inv_l.
  - intros (r & l3' & Hqr & H23 & ->)%Forall2_cons_inv_l.
    constructor; [|by apply IH].
    destruct Hpq as (?&?&?&?&?&?), Hqr as (?&?&?&?&?&?).
    repeat split; congruence.
Qed.

Lemma kept_map (f : PatternReview → PatternReview) (l : list PatternReview) :
  (∀ p, kept p (f p)) → Forall2 (λ p p', kept p p') l (map f l).
Proof. intros Hf. induction l; constructor; done. Qed.

Lemma kept_filter (l l' : list PatternReview) :
  Forall2 (λ p p', kept p p') l l' →
  Forall2 (λ p p', kept p p')
    (List.filter atLeast1000 l) (List.filter atLeast1000 l').
Proof.
  induction 1 as [|p q l l' Hpq _ IH]; [constructor|]. simpl.
  assert (Heq : atLeast1000 q = atLeast1000 p).
  { unfold atLeast1000. by destruct Hpq as (_ & _ & _ & _ & -> & _). }
  rewrite Heq. destruct (atLeast1000 p); [constructor|]; done.
Qed.

Lemma loadTransactions_kept (vendorGroup : string)
    (transactions : option (list PatternReview.Transaction)) (s : State) :
  Forall2 (λ p p', kept p p') (patterns s)
    (patterns (loadTransactionsForPattern vendorGroup transactions s)).
Proof.
  simpl. apply kept_map. intros p. by destruct (String.eqb _ _).
Qed.

Lemma goTo_kept (s0 : State) (i : nat)
    (transactions : option (list PatternReview.Transaction)) (s : State) :
  Forall2 (λ p p', kept p p') (patterns s)
    (patterns (goTo s0 i transactions s)).
Proof.
  unfold goTo. destruct (filteredPatterns s0 !! i); [|apply kept_refl].
  apply (loadTransactions_kept _ _ (setCurrentIndex i s)).
Qed.

Lemma handleAction_kept (action : Action) (now : string) (updated : bool)
    (transactions : option (list PatternReview.Transaction)) (s : State) :
  Forall2 (λ p p', kept p p') (patterns s)
    (patterns (handleAction action now updated transactions s)).
Proof.
  unfold handleAction. destruct (currentPattern s) as [c|]; [|apply kept_refl].
  destruct updated; [|apply kept_refl].
  assert (Hmerge : Forall2 (λ p p', kept p p') (patterns s)
            (map (λ p, if String.eqb (vendor_group p) (vendor_group c)
                       then merge p (updateData action now (editedPattern s))
                       else p) (patterns s))).
  { apply kept_map. intros p. by destruct (String.eqb _ _). }
  cbv zeta. destruct (negb _ || _); [|exact Hmerge].
  destruct (nextIndex s) as [i|]; [|exact Hmerge].
  eapply kept_trans; [exact Hmerge|].
  exact (goTo_kept _ _ _
           (setEditedPattern no_edit (setEditMode false (setPatterns _ s)))).
Qed.

Lemma handle_kept (e : Event) (s : State) :
  Forall2 (λ p p', kept p p') (patterns s) (patterns (handle e s)).
Proof.
  destruct e; simpl; try apply handleAction_kept; try apply kept_refl.
  - unfold startEdit. destruct (currentPattern s); apply kept_refl.
  - destruct (0 <? _)%nat; [apply goTo_kept|apply kept_refl].
  - destruct (_ <? _)%nat; [apply goTo_kept|apply kept_refl].
Qed.

Lemma kept_total (s s' : State) :
  Forall2 (λ p p', kept p p') (patterns s) (patterns s') →
  showAll s' = showAll s →
  totalPatterns s' = totalPatterns s.
Proof.
  intros Hk Hshow. unfold totalPatterns, filteredPatterns. rewrite Hshow.
  destruct (showAll s); symmetry; eapply Forall2_length; [done|].
  by apply kept_filter.
Qed.

Lemma goTo_fields (s0 : State) (i : nat)
    (transactions : option (list PatternReview.Transaction)) (s : State) :
  currentIndex (goTo s0 i transactions s) = i ∧
  showAll (goTo s0 i transactions s) = showAll s ∧
  editMode (goTo s0 i transactions s) = editMode s ∧
  editedPattern (goTo s0 i transactions s) = editedPattern s.
Proof. unfold goTo. by destruct (filteredPatterns s0 !! i). Qed.

Lemma handle_showAll (e : Event) (s : State) :
  showAll (handle e s) =
  match e with ShowAllVendors checked => checked | _ => showAll s end.
Proof.
  destruct e; simpl; try done.
  1-3: unfold handleAction; destruct (currentPattern s); [|done];
       destruct updated; [|done]; cbv zeta;
       destruct (negb _ || _); [|done];
       destruct (nextIndex s); [|done];
       by rewrite (proj1 (proj2 (goTo_fields _ _ _ _))).
  - unfold startEdit. by destruct (currentPattern s).
  - destruct (0 <? _)%nat; [|done].
    by rewrite (proj1 (proj2 (goTo_fields _ _ _ _))).
  - destruct (_ <? _)%nat; [|done].
    by rewrite (proj1 (proj2 (goTo_fields _ _ _ _))).
Qed.

(** The index that [handleAction] moves to. *)
Lemma nextIndex_spec (s : State) :
  (currentIndex s < totalPatterns s)%nat →
  match nextIndex s with
  | Some j =>
      (currentIndex s < j < totalPatterns s)%nat ∧
      (∀ k p, (currentIndex s < k < j)%nat →
              filteredPatterns s !! k = Some p → status p ≠ pending) ∧
      ((∃ k p, (currentIndex s < k)%nat ∧ filteredPatterns s !! k = Some p ∧
               status p = pending) →
       ∃ q, filteredPatterns s !! j = Some q ∧ status q = pending) ∧
      ((∀ k p, (currentIndex s < k)%nat → filteredPatterns s !! k = Some p →
               status p ≠ pending) → j = (currentIndex s + 1)%nat)
  | None =>
      (currentIndex s + 1)%nat = totalPatterns s ∧
      ∀ k p, (currentIndex s < k)%nat → filteredPatterns s !! k = Some p →
             status p ≠ pending
  end.
Proof.
  intros Hi. unfold nextIndex, findIndex.
  destruct (findIndex_from _ _ _) as [j|] eqn:E.
  - apply findIndex_from_Some in E as (_ & (q & Hq & Htest) & Hbefore).
    rewrite Nat.sub_0_r in Hq.
    apply andb_true_iff in Htest as [Hlt%Nat.ltb_lt Hpend%bool_decide_eq_true].
    split; [split; [done|]; by eapply lookup_lt_Some|].
    split; [|split].
    + intros k p Hk Hp Hst.
      specialize (Hbefore k p). rewrite Nat.sub_0_r in Hbefore.
      specialize (Hbefore ltac:(lia) Hp).
      apply andb_false_iff in Hbefore as [Hge%Nat.ltb_ge|Hnp]; [lia|].
      by apply bool_decide_eq_false in Hnp.
    + intros _. by exists q.
    + intros Hnone. by destruct (Hnone j q).
  - pose proof (findIndex_from_None _ _ _ E) as Hnone. simpl in Hnone.
    assert (Hnp : ∀ k p, (currentIndex s < k)%nat →
                    filteredPatterns s !! k = Some p → status p ≠ pending).
    { intros k p Hk Hp Hst. specialize (Hnone k p Hp).
      apply andb_false_iff in Hnone as [Hge%Nat.ltb_ge|Hf]; [lia|].
      by apply bool_decide_eq_false in Hf. }
    destruct (_ <? _)%nat eqn:E2.
    + apply Nat.ltb_lt in E2. split; [lia|]. split; [intros; lia|].
      split; [|done]. intros (k & p & Hk & Hp & Hst). by destruct (Hnp k p).
    + apply Nat.ltb_ge in E2. split; [lia|done].
Qed.


Lemma handleAction_failed (action : Action) (now : string)
    (transactions : option (list PatternReview.Transaction)) (s : State) :
  handleAction action now false transactions s = s.
Proof. unfold handleAction. by destruct (currentPattern s). Qed.

(** In range, or at the start of an empty list. *)
Local Abbreviation inRange s :=
  (currentIndex s = 0 ∨ currentIndex s < totalPatterns s)%nat.

(** In edit mode the three edited fields are set; out of it none is. *)
Local Abbreviation editing s :=
  (if editMode s
   then is_Some (edited_pattern_type (editedPattern s)) ∧
        is_Some (edited_average_amount (editedPattern s)) ∧
        is_Some (edited_next_date (editedPattern s))
   else editedPattern s = no_edit).

Lemma handle_total (e : Event) (s : State) :
  (∀ checked, e ≠ ShowAllVendors checked) →
  totalPatterns (handle e s) = totalPatterns s.
Proof.
  intros He. apply kept_total; [apply handle_kept|].
  rewrite handle_showAll. destruct e; try done. by destruct (He checked).
Qed.

Lemma offered_total (s : State) (e : Event) :
  offered s e = true → totalPatterns s ≠ 0%nat.
Proof.
  unfold offered. destruct (totalPatterns s =? 0)%nat eqn:E; [done|].
  by apply Nat.eqb_neq in E.
Qed.

Lemma offered_current (s : State) (e : Event) :
  offered s e = true → (∀ checked, e ≠ ShowAllVendors checked) →
  is_Some (currentPattern s).
Proof.
  unfold offered. destruct (totalPatterns s =? 0)%nat; [done|].
  intros Ho He. destruct (currentPattern s); [by eexists|].
  destruct e; try done. by destruct (He checked).
Qed.

Lemma current_in_range (s : State) :
  is_Some (currentPattern s) ↔ (currentIndex s < totalPatterns s)%nat.
Proof. apply lookup_lt_is_Some. Qed.

Lemma handleAction_in_range (action : Action) (now : string)
    (transactions : option (list PatternReview.Transaction)) (s : State) :
  (currentIndex s < totalPatterns s)%nat →
  (action = save_edit → editMode s = true) →
  editMode (handleAction action now true transactions s) = false ∧
  editedPattern (handleAction action now true transactions s) = no_edit ∧
  (currentIndex (handleAction action now true transactions s)
   < totalPatterns s)%nat.
Proof.
  intros Hi Hedit. pose proof (nextIndex_spec s Hi) as Hnext.
  unfold handleAction.
  destruct (currentPattern s) as [c|] eqn:Ec.
  2: { unfold currentPattern in Ec. apply lookup_ge_None in Ec.
       unfold totalPatterns in Hi. lia. }
  cbv zeta.
  assert (Hcond : negb (bool_decide (action = save_edit)) || editMode s = true).
  { destruct action; try done. by rewrite Hedit. }
  rewrite Hcond. destruct (nextIndex s) as [j|]; [|done].
  destruct Hnext as (Hj & _).
  destruct (goTo_fields s j transactions
              (setEditedPattern no_edit (setEditMode false
                 (setPatterns
                    (map (λ p, if String.eqb (vendor_group p) (vendor_group c)
                               then merge p (updateData action now
                                               (editedPattern s))
                               else p)) s))))
    as (-> & _ & -> & ->).
  split; [done|]. split; [done|]. lia.
Qed.

Lemma step_invariant (s : State) (e : Event) :
  inRange s → editing s → inRange (step s e) ∧ editing (step s e).
Proof.
  intros Hrange Hedit. unfold step.
  destruct (offered s e) eqn:Ho; [|done].
  pose proof (offered_total s e Ho) as Htot.
  assert (Hcases : (∃ checked, e = ShowAllVendors checked) ∨
                   ∀ checked, e ≠ ShowAllVendors checked).
  { destruct e; try (by right); left; by eexists. }
  destruct Hcases as [[checked ->]|He].
  { split; [by left|done]. }
  pose proof (handle_total e s He) as Htotal.
  pose proof (offered_current s e Ho He) as Hcur.
  pose proof (proj1 (current_in_range s) Hcur) as Hi.
  rewrite Htotal.
  assert (Hmode : ∀ b, match currentPattern s with
                       | Some _ => b
                       | None => false
                       end = b).
  { intros b. by destruct Hcur as [c ->]. }
  unfold offered in Ho. apply Nat.eqb_neq in Htot. rewrite Htot in Ho.
  destruct e; rewrite ?Hmode in Ho; simpl.
  - destruct updated; [|by rewrite handleAction_failed].
    destruct (handleAction_in_range approve now transactions s Hi)
      as (-> & -> & Hlt); [done|]. split; [by right|done].
  - destruct updated; [|by rewrite handleAction_failed].
    destruct (handleAction_in_range skip "" transactions s Hi)
      as (-> & -> & Hlt); [done|]. split; [by right|done].
  - destruct updated; [|by rewrite handleAction_failed].
    destruct (handleAction_in_range save_edit now transactions s Hi)
      as (-> & -> & Hlt); [done|]. split; [by right|done].
  - unfold startEdit. destruct Hcur as [c ->]. simpl.
    split; [by right|]. repeat split; by eexists.
  - rewrite Ho in Hedit. split; [by right|]. rewrite Ho.
    destruct Hedit as (_ & ? & ?). repeat split; [by eexists|done..].
  - rewrite Ho in Hedit. split; [by right|]. rewrite Ho.
    destruct Hedit as (? & _ & ?). repeat split; [done|by eexists|done].
  - rewrite Ho in Hedit. split; [by right|]. rewrite Ho.
    destruct Hedit as (? & ? & _). repeat split; [done..|by eexists].
  - split; [by right|done].
  - destruct (0 <? currentIndex s)%nat eqn:E; [|done].
    destruct (goTo_fields s (currentIndex s - 1) transactions s)
      as (-> & _ & -> & ->).
    split; [right; lia|done].
  - destruct (currentIndex s <? totalPatterns s - 1)%nat eqn:E; [|done].
    apply Nat.ltb_lt in E.
    destruct (goTo_fields s (currentIndex s + 1) transactions s)
      as (-> & _ & -> & ->).
    split; [right; lia|done].
  - by destruct (He checked).
Qed.

Lemma step_kept (s : State) (e : Event) :
  Forall2 (λ p p', kept p p') (patterns s) (patterns (step s e)).
Proof.
  unfold step. destruct (offered s e); [apply handle_kept|apply kept_refl].
Qed.

(** X12. No use of the page changes a pattern's vendor group, id,
    interval, confidence, total value or transaction count, and none adds
    or removes a pattern. In particular the interval of a pattern stays
    what it was when the reviewer saves another pattern type for it. *)
Theorem run_keeps_the_analysis (s : State) (events : list Event) :
  Forall2 (λ p p', kept p p') (patterns s) (patterns (run s events)).
Proof.
  revert s. induction events as [|e events IH]; intros s; simpl.
  - apply kept_refl.
  - eapply kept_trans; [apply step_kept|apply IH].
Qed.

(** X13. From a state whose index is within the shown list, any use of
    the page keeps the index within the shown list, so that the page shows
    a current pattern whenever it has patterns to show; and the page is in
    edit mode exactly when the three edited fields are set. *)
Theorem run_keeps_the_page_consistent (s : State) (events : list Event) :
  inRange s → editing s →
  inRange (run s events) ∧ editing (run s events) ∧
  (totalPatterns (run s events) ≠ 0%nat →
   is_Some (currentPattern (run s events))).
Proof.
  intros Hrange Hedit.
  assert (Hinv : inRange (run s events) ∧ editing (run s events)).
  { revert s Hrange Hedit.
    induction events as [|e events IH]; intros s Hrange Hedit; simpl;
      [done|].
    destruct (step_invariant s e Hrange Hedit) as [Hr He]. by apply IH. }
  destruct Hinv as [Hr He]. split; [done|]. split; [done|].
  intros Htot. apply current_in_range. lia.
Qed.

(** What a pattern shows of its review. *)
Local Abbreviation reviewOf q p' :=
  (vendor_group p' = vendor_group q ∧ status p' = status q ∧
   pattern_type p' = pattern_type q ∧ interval_days p' = interval_days q ∧
   average_amount p' = average_amount q ∧ next_date p' = next_date q ∧
   reviewed_at p' = reviewed_at q).

Lemma reviewOf_map (f g : PatternReview → PatternReview)
    (l : list PatternReview) :
  (∀ q, reviewOf q (g q)) →
  Forall2 (λ p p', reviewOf (f p) p') l (map g (map f l)).
Proof. intros Hg. induction l; constructor; done. Qed.

Lemma handleAction_patterns (action : Action) (now : string)
    (transactions : option (list PatternReview.Transaction)) (s : State)
    (c : PatternReview) :
  currentPattern s = Some c →
  Forall2 (λ p p',
             reviewOf (if String.eqb (vendor_group p) (vendor_group c)
                       then merge p (updateData action now (editedPattern s))
                       else p) p')
    (patterns s) (patterns (handleAction action now true transactions s)).
Proof.
  intros Hc. unfold handleAction. rewrite Hc. cbv zeta.
  assert (Hplain : ∀ f : PatternReview → PatternReview,
            Forall2 (λ p p', reviewOf (f p) p') (patterns s)
              (map f (patterns s))).
  { intros f. induction (patterns s); constructor; done. }
  destruct (negb _ || _); [|apply Hplain].
  destruct (nextIndex s) as [i|]; [|apply Hplain].
  unfold goTo. destruct (filteredPatterns s !! i) as [next|]; [|apply Hplain].
  simpl. apply reviewOf_map. intros q. by destruct (String.eqb _ _).
Qed.

Lemma offered_card (s : State) (e : Event) (c : PatternReview) :
  currentPattern s = Some c →
  offered s e =
  match e with
  | ShowAllVendors _ => true
  | SaveChanges _ _ _ | SelectPattern _ | TypeAmount _ | PickDate _
  | Cancel => editMode s
  | LooksGood _ _ _ | Skip _ _ | Edit => negb (editMode s)
  | Previous _ => negb (editMode s) && negb (currentIndex s =? 0)%nat
  | Next _ =>
      negb (editMode s) && negb (currentIndex s =? totalPatterns s - 1)%nat
  end.
Proof.
  intros Hc. unfold offered. rewrite Hc.
  assert (Htot : (totalPatterns s =? 0)%nat = false).
  { apply Nat.eqb_neq. apply lookup_lt_Some in Hc.
    unfold totalPatterns. lia. }
  rewrite Htot. by destruct e.
Qed.

Lemma setPatterns_ext (f g : list PatternReview → list PatternReview)
    (s : State) :
  f (patterns s) = g (patterns s) → setPatterns f s = setPatterns g s.
Proof. unfold setPatterns. by intros ->. Qed.

Lemma filteredPatterns_sub (s : State) (p : PatternReview) :
  p ∈ filteredPatterns s → p ∈ patterns s.
Proof.
  unfold filteredPatterns. destruct (showAll s); [done|].
  intros Hin%list_elem_of_In%List.filter_In. by apply list_elem_of_In, Hin.
Qed.

Lemma NoDup_key_eq {A : Type} (key : A → string) (l : list A) (x y : A) :
  NoDup (key <$> l) → x ∈ l → y ∈ l → key x = key y → x = y.
Proof.
  intros Hnd [i Hx]%list_elem_of_lookup [j Hy]%list_elem_of_lookup Hkey.
  assert (i = j) as ->; [|congruence].
  eapply NoDup_lookup; [exact Hnd| |].
  - rewrite list_lookup_fmap, Hx. done.
  - rewrite list_lookup_fmap, Hy. simpl. by rewrite Hkey.
Qed.

(** X14. With one stored review per vendor group, to open the editor on
    a pattern and save it unchanged is to approve it: [Edit] followed by
    [Save Changes] leaves the page in the state that [Looks Good]
    leaves it in. *)
Theorem save_unchanged_is_looks_good (s : State) (now : string)
    (transactions : option (list PatternReview.Transaction)) :
  NoDup (vendor_group <$> patterns s) →
  offered s Edit = true →
  run s [Edit; SaveChanges now true transactions]
  = run s [LooksGood now true transactions].
Proof.
  intros Hnd Ho.
  destruct (offered_current s Edit Ho) as [c Hc]; [done|].
  pose proof Ho as Hmode. rewrite (offered_card s Edit c Hc) in Hmode.
  apply negb_true_iff in Hmode.
  change (run s [Edit; SaveChanges now true transactions])
    with (step (step s Edit) (SaveChanges now true transactions)).
  change (run s [LooksGood now true transactions])
    with (step s (LooksGood now true transactions)).
  assert (H1 : step s Edit = startEdit s) by (unfold step; by rewrite Ho).
  rewrite H1. unfold startEdit. rewrite Hc.
  set (s1 := setEditedPattern _ (setEditMode true s)).
  assert (Hc1 : currentPattern s1 = Some c) by exact Hc.
  unfold step.
  rewrite (offered_card s1 _ c Hc1), (offered_card s _ c Hc), Hmode.
  simpl negb. cbv iota. simpl handle. unfold handleAction.
  rewrite Hc1, Hc. cbv zeta.
  replace (negb (bool_decide (save_edit = save_edit)) || editMode s1)
    with true by done.
  replace (negb (bool_decide (approve = save_edit)) || editMode s)
    with true by done.
  cbv iota.
  rewrite (setPatterns_ext
             (map (λ p, if String.eqb (vendor_group p) (vendor_group c)
                        then merge p (updateData save_edit now
                                        (editedPattern s1))
                        else p))
             (map (λ p, if String.eqb (vendor_group p) (vendor_group c)
                        then merge p (updateData approve now (editedPattern s))
                        else p)) s1).
  - reflexivity.
  - apply List.map_ext_in. intros p Hp%list_elem_of_In.
    destruct (String.eqb_spec (vendor_group p) (vendor_group c))
      as [Heq|_]; [|done].
    assert (p = c) as ->; [|done].
    apply (NoDup_key_eq vendor_group (patterns s)); [done..| |done].
    apply filteredPatterns_sub. by eapply list_elem_of_lookup_2.
Qed.

(** X15. Saving another pattern type for the current pattern marks it
    reviewed with that type and leaves its interval as it was: the
    interval is no longer the number of days of the pattern type. *)
Theorem saved_pattern_type_keeps_interval (s : State) (c : PatternReview)
    (value now : string)
    (transactions : option (list PatternReview.Transaction)) :
  offered s Edit = true →
  currentPattern s = Some c →
  Forall2 (λ p p',
             vendor_group p = vendor_group c →
             pattern_type p' = value ∧ status p' = reviewed ∧
             interval_days p' = interval_days p ∧
             average_amount p' = average_amount c ∧
             next_date p' = next_date c)
    (patterns s)
    (patterns (run s [Edit; SelectPattern value;
                      SaveChanges now true transactions])).
Proof.
  intros Ho Hc. pose proof Ho as Hmode.
  rewrite (offered_card s Edit c Hc) in Hmode. apply negb_true_iff in Hmode.
  change (run s [Edit; SelectPattern value; SaveChanges now true transactions])
    with (step (step (step s Edit) (SelectPattern value))
               (SaveChanges now true transactions)).
  assert (H1 : step s Edit = startEdit s) by (unfold step; by rewrite Ho).
  rewrite H1. unfold startEdit. rewrite Hc.
  set (s1 := setEditedPattern _ (setEditMode true s)).
  assert (Hc1 : currentPattern s1 = Some c) by exact Hc.
  assert (H2 : step s1 (SelectPattern value)
               = handle (SelectPattern value) s1).
  { unfold step. by rewrite (offered_card s1 _ c Hc1). }
  rewrite H2. simpl handle.
  set (s2 := setEditedPattern _ s1).
  assert (Hc2 : currentPattern s2 = Some c) by exact Hc.
  unfold step. rewrite (offered_card s2 _ c Hc2).
  change (editMode s2) with true. cbv iota. simpl handle.
  eapply Forall2_impl;
    [exact (handleAction_patterns save_edit now transactions s2 c Hc2)|].
  intros p p' Hrev Hvg. simpl in Hrev.
  rewrite Hvg, String.eqb_refl in Hrev. simpl in Hrev.
  destruct Hrev as (_ & -> & -> & -> & -> & -> & _). done.
Qed.

(** X16. The checkbox of the page stays in reach while a pattern is
    edited, and using it keeps the values that the editor copied. If it
    makes another pattern the current one, [Save Changes] writes the
    pattern type, the amount and the next date of the pattern that was
    opened in the editor to that other pattern, and marks it reviewed. *)
Theorem edit_follows_the_checkbox (s : State) (a b : PatternReview)
    (checked : bool) (now : string)
    (transactions : option (list PatternReview.Transaction)) :
  offered s Edit = true →
  currentPattern s = Some a →
  currentPattern (handle (ShowAllVendors checked) s) = Some b →
  Forall2 (λ p p',
             vendor_group p = vendor_group b →
             pattern_type p' = pattern_type a ∧
             average_amount p' = average_amount a ∧
             next_date p' = next_date a ∧ status p' = reviewed)
    (patterns s)
    (patterns (run s [Edit; ShowAllVendors checked;
                      SaveChanges now true transactions])).
Proof.
  intros Ho Ha Hb. pose proof Ho as Hmode.
  rewrite (offered_card s Edit a Ha) in Hmode. apply negb_true_iff in Hmode.
  change (run s [Edit; ShowAllVendors checked;
                 SaveChanges now true transactions])
    with (step (step (step s Edit) (ShowAllVendors checked))
               (SaveChanges now true transactions)).
  assert (H1 : step s Edit = startEdit s) by (unfold step; by rewrite Ho).
  rewrite H1. unfold startEdit. rewrite Ha.
  set (s1 := setEditedPattern _ (setEditMode true s)).
  assert (Ha1 : currentPattern s1 = Some a) by exact Ha.
  assert (H2 : step s1 (ShowAllVendors checked)
               = handle (ShowAllVendors checked) s1).
  { unfold step. by rewrite (offered_card s1 _ a Ha1). }
  rewrite H2. simpl handle.
  set (s2 := setCurrentIndex 0 (setShowAll checked s1)).
  assert (Hb2 : currentPattern s2 = Some b) by exact Hb.
  unfold step. rewrite (offered_card s2 _ b Hb2).
  change (editMode s2) with true. cbv iota. simpl handle.
  eapply Forall2_impl;
    [exact (handleAction_patterns save_edit now transactions s2 b Hb2)|].
  intros p p' Hrev Hvg. simpl in Hrev.
  rewrite Hvg, String.eqb_refl in Hrev. simpl in Hrev.
  destruct Hrev as (_ & -> & -> & _ & -> & -> & _). done.
Qed.

End Actions.

Section ActionsExamples.
Import JSArray PatternReviewV2Page.


Lemma run_keeps_the_page_consistent_witness :
  (currentIndex V2Examples.opened = 0)%nat ∧
  editedPattern V2Examples.opened = no_edit ∧
  is_Some (currentPattern (run V2Examples.opened V2Examples.session)).
Proof.
  split; [reflexivity|]. split; [reflexivity|].
  refine (proj2 (proj2 (run_keeps_the_page_consistent V2Examples.opened
                          V2Examples.session _ _)) _).
  - left. reflexivity.
  - reflexivity.
  - vm_compute. lia.
Defined.

Lemma save_unchanged_is_looks_good_witness :
  NoDup (vendor_group <$> patterns V2Examples.opened) ∧
  offered V2Examples.opened Edit = true ∧
  run V2Examples.opened [Edit; SaveChanges "now" true None]
  = run V2Examples.opened [LooksGood "now" true None].
Proof.
  assert (Hnd : NoDup (vendor_group <$> patterns V2Examples.opened)).
  { apply (bool_decide_unpack _). vm_compute. exact I. }
  assert (Ho : offered V2Examples.opened Edit = true)
    by (vm_compute; reflexivity).
  split; [exact Hnd|]. split; [exact Ho|].
  exact (save_unchanged_is_looks_good V2Examples.opened "now" None Hnd Ho).
Defined.

Lemma saved_pattern_type_keeps_interval_witness :
  ∃ c,
    offered V2Examples.opened Edit = true ∧
    currentPattern V2Examples.opened = Some c ∧
    pattern_type c = "bi-weekly" ∧
    Forall2 (λ p p',
               vendor_group p = vendor_group c →
               pattern_type p' = "monthly" ∧ status p' = reviewed ∧
               interval_days p' = interval_days p ∧
               average_amount p' = average_amount c ∧
               next_date p' = next_date c)
      (patterns V2Examples.opened)
      (patterns (run V2Examples.opened
                   [Edit; SelectPattern "monthly";
                    SaveChanges "now" true None])).
Proof.
  assert (Ho : offered V2Examples.opened Edit = true)
    by (vm_compute; reflexivity).
  eexists. split; [exact Ho|]. split; [reflexivity|]. split; [reflexivity|].
  exact (saved_pattern_type_keeps_interval V2Examples.opened _ "monthly"
           "now" None Ho eq_refl).
Defined.

Lemma edit_follows_the_checkbox_witness :
  ∃ a b,
    offered V2Examples.on_rent Edit = true ∧
    currentPattern V2Examples.on_rent = Some a ∧
    currentPattern (handle (ShowAllVendors true) V2Examples.on_rent)
    = Some b ∧
    vendor_group a = "Rent" ∧ vendor_group b = "Payroll" ∧
    Forall2 (λ p p',
               vendor_group p = vendor_group b →
               pattern_type p' = pattern_type a ∧
               average_amount p' = average_amount a ∧
               next_date p' = next_date a ∧ status p' = reviewed)
      (patterns V2Examples.on_rent)
      (patterns (run V2Examples.on_rent
                   [Edit; ShowAllVendors true;
                    SaveChanges "now" true None])).
Proof.
  assert (Ho : offered V2Examples.on_rent Edit = true)
    by (vm_compute; reflexivity).
  eexists _, _. split; [exact Ho|]. split; [reflexivity|].
  split; [reflexivity|]. split; [reflexivity|]. split; [reflexivity|].
  exact (edit_follows_the_checkbox V2Examples.on_rent _ _ true "now" None
           Ho eq_refl eq_refl).
Defined.

End ActionsExamples.
(** ** The second page: resuming a stored review *)

Section Resume.
Import JSArray PatternReviewV2Page.
Context `{Runtime}.

Local Abbreviation descending :=
  (λ a b : PatternReview,
     leb (total_transaction_value b) (total_transaction_value a) = true).


End Resume.

Section ResumeExample.
Import JSArray PatternReviewV2Page.


End ResumeExample.
(** ** The spreadsheet: editable cells and total rows *)

Section GridCells.
Import ForecastSpreadsheet.
Variables (d : DashboardData) (periods : list Period).

Lemma groupRow_lookup (vg : VendorGroup) (p : Period) :
  p ∈ periods →
  values (groupRow d periods vg) !! start_date p
  = Some (cell_amount (cell_data d p vg)).
Proof.
  intros Hin. unfold groupRow. simpl.
  apply (filled_row_lookup (λ period, cell_amount (cell_data d period vg)));
    [|done].
  intros a b E. by rewrite (cell_data_start d a b vg E).
Qed.

Lemma groupTotal_sum (groups : list VendorGroup) (p : Period) :
  groupTotal d groups p
  = sum (map (λ vg, cell_amount (cell_data d p vg)) groups).
Proof.
  unfold groupTotal, sum. generalize (of_Z 0).
  induction groups as [|vg groups IH]; intros a; simpl; [done|]. apply IH.
Qed.

Lemma group_cells (groups : list VendorGroup) (p : Period) :
  p ∈ periods →
  omap (λ vg, values (groupRow d periods vg) !! start_date p) groups
  = map (λ vg, cell_amount (cell_data d p vg)) groups.
Proof.
  intros Hin. induction groups as [|vg groups IH]; [done|].
  cbn [omap list_omap map]. by rewrite groupRow_lookup, IH.
Qed.

(** X18. In every week, a total row shows the sum of the cells that the
    rows of its groups show, and for finite amounts the "Net Operating CF"
    row shows the sum of "Total Revenue" and "Total Outflows". *)
Theorem totals_are_sums (vendorGroups : list VendorGroup) (p : Period) :
  finite_data d → p ∈ periods →
  let cells groups :=
    omap (λ vg, values (groupRow d periods vg) !! start_date p) groups in
  let revenueGroups := List.filter (in_category "revenue") vendorGroups in
  let operatingGroups := List.filter (in_category "operating") vendorGroups in
  let financingGroups := List.filter (in_category "financing") vendorGroups in
  let totalRevenueRow :=
    totalRow d periods "total_revenue" "Total Revenue" (Some true)
      revenueGroups in
  let totalOutflowsRow :=
    totalRow d periods "total_outflows" "Total Outflows" (Some false)
      operatingGroups in
  values totalRevenueRow !! start_date p = Some (sum (cells revenueGroups)) ∧
  values totalOutflowsRow !! start_date p
  = Some (sum (cells operatingGroups)) ∧
  values (totalRow d periods "net_financing_cf" "Net Financing CF" None
            financingGroups) !! start_date p
  = Some (sum (cells financingGroups)) ∧
  values (netOperatingRow periods totalRevenueRow totalOutflowsRow)
    !! start_date p
  = Some (add (sum (cells revenueGroups)) (sum (cells operatingGroups))).
Proof.
  intros Hfin Hin. cbv zeta.
  rewrite !group_cells, <- !groupTotal_sum by done.
  rewrite !totalRow_lookup by done.
  split; [done|]. split; [done|]. split; [done|].
  rewrite netOperatingRow_lookup by done.
  rewrite !groupTotal_Num by done. by rewrite !or_else_Num.
Qed.

(** X19. The rows of the grid whose cells can be edited are the rows of
    the vendor groups of the three sections whose id is not 0: no header,
    total or cash row is editable, and every such group has its row. *)
Theorem editable_rows (vendorGroups : list VendorGroup) :
  (∀ r, r ∈ rows_of d periods vendorGroups → cell_editable r = true →
        ∃ vg, vg ∈ vendorGroups ∧ known_category vg ∧ id vg ≠ 0 ∧
              r = groupRow d periods vg) ∧
  (∀ vg, vg ∈ vendorGroups → known_category vg →
         groupRow d periods vg ∈ rows_of d periods vendorGroups ∧
         cell_editable (groupRow d periods vg) = negb (id vg =? 0)).
Proof.
  assert (Hgroup : ∀ c r,
            r ∈ map (groupRow d periods)
                  (List.filter (in_category c) vendorGroups) ↔
            ∃ vg, vg ∈ vendorGroups ∧ category vg = c ∧
                  r = groupRow d periods vg).
  { intros c r. rewrite list_elem_of_In, in_map_iff. split.
    - intros (vg & <- & [Hvg Hc]%List.filter_In). exists vg.
      split; [by apply list_elem_of_In|]. split; [|done].
      by apply String.eqb_eq.
    - intros (vg & Hvg & Hc & ->). exists vg. split; [done|].
      apply List.filter_In. split; [by apply list_elem_of_In|].
      by apply String.eqb_eq. }
  split.
  - intros r Hr Hedit. unfold rows_of in Hr. cbv zeta in Hr.
    rewrite !elem_of_app, !elem_of_cons, !Hgroup in Hr.
    assert (Hfound : ∃ vg, vg ∈ vendorGroups ∧ known_category vg ∧
                           r = groupRow d periods vg).
    { unfold known_category.
      destruct Hr as [Hr|[Hr|[Hr|[Hr|[Hr|Hr]]]]];
        repeat match goal with
          | H : _ ∨ _ |- _ => destruct H
          | H : _ ∈ [] |- _ => by apply elem_of_nil in H
          | H : ∃ _, _ |- _ => destruct H as (vg & ? & ? & ?)
          end;
        try (subst r; discriminate Hedit);
        exists vg; auto. }
    destruct Hfound as (vg & Hvg & Hcat & ->). exists vg.
    split; [done|]. split; [done|]. split; [|done].
    unfold cell_editable in Hedit. simpl in Hedit.
    apply negb_true_iff, Z.eqb_neq in Hedit. done.
  - intros vg Hvg Hcat. split; [|done].
    unfold rows_of. cbv zeta. rewrite !elem_of_app, !Hgroup.
    destruct Hcat as [Hc|[Hc|Hc]].
    + right. left. by exists vg.
    + right. right. right. left. by exists vg.
    + do 5 right. left. by exists vg.
Qed.

(** X20. An edit of a cell of a group's row posts the start date of the
    week and the id of the group. The amount it posts is never [NaN]: it
    is the magnitude of the entered number, 0 for an empty field, with the
    sign of the group's direction, positive for an inflow and negative
    for an outflow. *)
Theorem posted_amount_sign (clientId : string) (vg : VendorGroup)
    (period : Period) (entered : number) (u : CellUpdate) :
  editCell clientId (groupRow d periods vg) period entered = Some u →
  id vg ≠ 0 ∧
  client_id u = clientId ∧
  forecast_date u = start_date period ∧
  update_vendor_group_id u = id vg ∧
  Math_abs (new_amount u) = Math_abs (or_else (Some entered) (of_Z 0)) ∧
  (if is_inflow vg then leb (of_Z 0) (new_amount u)
   else leb (new_amount u) (of_Z 0)) = true.
Proof.
  unfold editCell, cell_editable. simpl.
  destruct (id vg =? 0) eqn:E; simpl; [done|]. apply Z.eqb_neq in E.
  intros [= <-]. simpl. split; [done|]. do 3 (split; [done|]).
  unfold handleSubmit. simpl.
  assert (Habs : ∀ x, x ≠ NaN →
            Math_abs (neg (Math_abs x)) = Math_abs x ∧
            Math_abs (Math_abs x) = Math_abs x ∧
            leb (of_Z 0) (Math_abs x) = true ∧
            leb (neg (Math_abs x)) (of_Z 0) = true).
  { intros [q| | |] Hx; try done. rewrite of_Z_0. simpl.
    rewrite Qcabs_opp. rewrite (Qcabs_pos (Qcabs q)) by apply Qcabs_nonneg.
    split; [done|]. split; [done|]. rewrite !Qc_leb_le.
    split; [apply Qcabs_nonneg|].
    exact (Qcopp_le_compat 0 (Qcabs q) (Qcabs_nonneg q)). }
  assert (Hnum : or_else (Some entered) (of_Z 0) ≠ NaN).
  { destruct entered as [q| | |]; simpl; try done.
    destruct (negb _); done. }
  destruct (Habs _ Hnum) as (H1 & H2 & H3 & H4).
  destruct (is_inflow vg); done.
Qed.

End GridCells.

Section GridCellsExamples.
Import ForecastSpreadsheet.

Lemma totals_are_sums_witness :
  finite_data Examples.dashboard ∧
  Examples.week 1 "2025-08-25" "2025-08-31" "8/25/25" ∈ Examples.weeks ∧
  values (netOperatingRow Examples.weeks
            (totalRow Examples.dashboard Examples.weeks "total_revenue"
               "Total Revenue" (Some true)
               (List.filter (in_category "revenue") Examples.groups))
            (totalRow Examples.dashboard Examples.weeks "total_outflows"
               "Total Outflows" (Some false)
               (List.filter (in_category "operating") Examples.groups)))
    !! "2025-08-25"
  = Some (add (sum [of_Z 148000]) (sum [of_Z (-33208)])).
Proof.
  assert (Hfin : finite_data Examples.dashboard).
  { split; apply (bool_decide_unpack _); vm_compute; exact I. }
  assert (Hin : Examples.week 1 "2025-08-25" "2025-08-31" "8/25/25"
                ∈ Examples.weeks) by (unfold Examples.weeks; set_solver).
  split; [exact Hfin|]. split; [exact Hin|].
  exact (proj2 (proj2 (proj2
           (totals_are_sums Examples.dashboard Examples.weeks Examples.groups
              _ Hfin Hin)))).
Defined.

Lemma posted_amount_sign_witness :
  ∃ u,
    editCell "client" Examples.payroll_row
      (Examples.week 1 "2025-08-25" "2025-08-31" "8/25/25") (of_Z 40000)
    = Some u ∧
    update_vendor_group_id u = 2 ∧
    leb (new_amount u) (of_Z 0) = true.
Proof.
  eexists. split; [reflexivity|]. split; [reflexivity|].
  exact (proj2 (proj2 (proj2 (proj2 (proj2
           (posted_amount_sign Examples.dashboard Examples.weeks "client"
              (Examples.group 2 "payroll_expenses" "Payroll" "operating"
                 "payroll" false)
              (Examples.week 1 "2025-08-25" "2025-08-31" "8/25/25")
              (of_Z 40000) _ eq_refl)))))).
Defined.

End GridCellsExamples.
